(** * scrypted-otel: the detection-metrics pipeline of [src/main.ts]

    A shallow embedding of [OtelCollectorPlugin.handleEvent] (the metrics
    variant) together with the JavaScript run-time behaviour it relies on:
    truthiness, property access on arbitrary values, [String.prototype]
    helpers, [Number.prototype.toFixed], [Set] membership, [Map] lookup and
    update, and exceptions caught by the handler's [try]/[catch]. *)

From Stdlib Require Import ZArith Lia Bool List Ascii String SpecFloat.
From stdpp Require Import base option gmap strings list.

Local Open Scope string_scope.
Local Open Scope Z_scope.

#[local] Set Warnings "-register-all".

(** ** JavaScript strings

    A string is a sequence of code units; the model covers the code units
    below 256 (Latin-1), which is what Rocq's [ascii] holds. *)
Module JsString.

Definition code (c : ascii) : N := N_of_ascii c.

(** Code units removed by [trim]: TAB, LF, VT, FF, CR, SP and NBSP. *)
Definition is_white_space (c : ascii) : bool :=
  let n := code c in
  ((9 <=? n) && (n <=? 13) || (n =? 32) || (n =? 160))%N.

(** [toLowerCase] on one code unit: A-Z, and the Latin-1 capitals
    U+00C0..U+00DE except the multiplication sign U+00D7. *)
Definition lower_char (c : ascii) : ascii :=
  let n := code c in
  if ((65 <=? n) && (n <=? 90)
      || (192 <=? n) && (n <=? 222) && negb (n =? 215))%N
  then ascii_of_N (n + 32) else c.

Fixpoint toLowerCase (s : string) : string :=
  match s with
  | EmptyString => EmptyString
  | String c s' => String (lower_char c) (toLowerCase s')
  end.

Fixpoint trimStart (s : string) : string :=
  match s with
  | EmptyString => EmptyString
  | String c s' => if is_white_space c then trimStart s' else s
  end.

Fixpoint trimEnd (s : string) : string :=
  match s with
  | EmptyString => EmptyString
  | String c s' =>
      match trimEnd s' with
      | EmptyString => if is_white_space c then EmptyString
                       else String c EmptyString
      | t => String c t
      end
  end.

Definition trim (s : string) : string := trimEnd (trimStart s).

(** [s.split(sep)] for a one-character separator: never returns the empty
    array, [''.split(',')] is [['']]. *)
Fixpoint split (sep : ascii) (s : string) : list string :=
  match s with
  | EmptyString => [EmptyString]
  | String c s' =>
      if Ascii.eqb c sep then EmptyString :: split sep s'
      else match split sep s' with
           | [] => [String c EmptyString]
           | w :: ws => String c w :: ws
           end
  end.

(** [s.includes(sub)]: [sub] occurs in [s] as a contiguous substring. *)
Fixpoint includes (s sub : string) : bool :=
  String.prefix sub s ||
  match s with
  | EmptyString => false
  | String _ s' => includes s' sub
  end.

(** A non-empty string is truthy. *)
Definition truthy (s : string) : bool :=
  match s with EmptyString => false | String _ _ => true end.

End JsString.

(** ** JavaScript numbers

    IEEE-754 doubles, as the sign/mantissa/exponent triples of Rocq's
    [spec_float]: [S754_finite s m e] is [(-1)^s * m * 2^e]. *)
Module JsNumber.

Definition number := spec_float.

(** [0], [-0] and [NaN] are the falsy numbers. *)
Definition truthy (x : number) : bool :=
  match x with
  | S754_zero _ | S754_nan => false
  | S754_infinity _ | S754_finite _ _ _ => true
  end.

Definition zero : number := S754_zero false.

(** SameValueZero on numbers: NaN equals NaN, the two zeros are equal,
    finite numbers are compared by value. *)
Definition same_value_zero (x y : number) : bool :=
  match x, y with
  | S754_nan, S754_nan => true
  | S754_zero _, S754_zero _ => true
  | S754_infinity s1, S754_infinity s2 => Bool.eqb s1 s2
  | S754_finite s1 m1 e1, S754_finite s2 m2 e2 =>
      Bool.eqb s1 s2 &&
      (Z.pos m1 * 2 ^ (e1 - Z.min e1 e2) =? Z.pos m2 * 2 ^ (e2 - Z.min e1 e2))
  | _, _ => false
  end.

(** Decimal digits of a non-negative integer, most significant first. *)
Definition digit_char (d : Z) : ascii :=
  ascii_of_N (48 + Z.to_N d).

Fixpoint digits_go (fuel : nat) (n : Z) (acc : string) : string :=
  let acc' := String (digit_char (n mod 10)) acc in
  match fuel with
  | O => acc'
  | S fuel' => if n <? 10 then acc' else digits_go fuel' (n / 10) acc'
  end.

Definition digits (n : Z) : string :=
  digits_go (Z.to_nat (Z.log2 n)) n EmptyString.

(** [|x| >= 10^21] for [|x| = m * 2^e]. *)
Definition at_least_1e21 (m : positive) (e : Z) : bool :=
  if 0 <=? e then 10 ^ 21 <=? Z.pos m * 2 ^ e
  else 10 ^ 21 * 2 ^ (- e) <=? Z.pos m.

(** The integer [n] for which [n / 100 - |x|] is as close to zero as
    possible, the larger one on a tie (step 10.a of [toFixed]). *)
Definition round_hundredths (m : positive) (e : Z) : Z :=
  if 0 <=? e then Z.pos m * 2 ^ e * 100
  else (2 * 100 * Z.pos m + 2 ^ (- e)) / 2 ^ (1 - e).

(** Steps 10.b-10.d of [toFixed] with [f = 2]: the digits of [n], padded
    with zeros to at least three, with a point before the last two. *)
Definition fixed2_of_hundredths (n : Z) : string :=
  digits (n / 100) ++ "." ++
  String (digit_char (n mod 100 / 10))
    (String (digit_char (n mod 10)) EmptyString).

(** *** [Number::toString] for [|x| >= 10^21]

    Such a double is an integer [v]. The result is the shortest decimal
    [s * 10^(n-k)] that reads back as [v], the closest to [v] when several
    have that length, in exponent notation. *)
Section Shortest.
Variable v : Z.

Definition ulp_exp : Z := Z.log2 v - 52.

(** Twice the bounds of the interval of reals that round to [v]. *)
Definition low2 : Z :=
  if (v =? 2 ^ Z.log2 v) then 2 * v - 2 ^ (ulp_exp - 1)
  else 2 * v - 2 ^ ulp_exp.
Definition high2 : Z := 2 * v + 2 ^ ulp_exp.

(** The bounds belong to the interval when the mantissa is even. *)
Definition reads_back (c : Z) : bool :=
  if Z.even (v / 2 ^ ulp_exp)
  then (low2 <=? 2 * c) && (2 * c <=? high2)
  else (low2 <? 2 * c) && (2 * c <? high2).

Definition num_digits : Z := Z.of_nat (String.length (digits v)).

(** Candidates with [k] significant digits: [v] truncated and the next
    one up; [None] when neither reads back as [v]. *)
Definition candidate (k : Z) : option Z :=
  let p := 10 ^ (num_digits - k) in
  let s := v / p in
  let lo := s * p in
  let hi := (s + 1) * p in
  match reads_back lo, reads_back hi with
  | true, true =>
      if v - lo <? hi - v then Some lo
      else if hi - v <? v - lo then Some hi
      else Some (if Z.even s then lo else hi)
  | true, false => Some lo
  | false, true => Some hi
  | false, false => None
  end.

Fixpoint shortest_go (fuel : nat) (k : Z) : Z :=
  match fuel with
  | O => v
  | S fuel' =>
      match candidate k with
      | Some c => c
      | None => shortest_go fuel' (k + 1)
      end
  end.

Definition shortest : Z := shortest_go 17 1.
End Shortest.

Fixpoint strip_zeros_rev (s : list ascii) : list ascii :=
  match s with
  | c :: s' => if Ascii.eqb c "0" then strip_zeros_rev s' else s
  | [] => []
  end.

Definition strip_trailing_zeros (s : string) : string :=
  string_of_list_ascii
    (List.rev (strip_zeros_rev (List.rev (list_ascii_of_string s)))).

Definition toString_large (v : Z) : string :=
  let c := shortest v in
  let ds := digits c in
  let exponent := Z.of_nat (String.length ds) - 1 in
  match strip_trailing_zeros ds with
  | EmptyString => "0"
  | String d EmptyString => String d ("e+" ++ digits exponent)
  | String d rest => String d ("." ++ rest ++ "e+" ++ digits exponent)
  end.

(** [x.toFixed(2)]. *)
Definition toFixed2 (x : number) : string :=
  match x with
  | S754_nan => "NaN"
  | S754_infinity false => "Infinity"
  | S754_infinity true => "-Infinity"
  | S754_zero _ => "0.00"
  | S754_finite s m e =>
      (if s then "-" else "") ++
      (if at_least_1e21 m e then toString_large (Z.pos m * 2 ^ e)
       else fixed2_of_hundredths (round_hundredths m e))
  end.

(** The finite numbers below [10^21] in magnitude, for which [toFixed]
    uses fixed-point notation. *)
Definition fixed_range (x : number) : bool :=
  match x with
  | S754_zero _ => true
  | S754_finite _ m e => negb (at_least_1e21 m e)
  | S754_nan | S754_infinity _ => false
  end.

(** Doubles used in the examples. *)
Definition d0_92 : number := S754_finite false 8286623314361713 (-53).
Definition d0_83 : number := S754_finite false 7475975381435023 (-53).
Definition d0_89 : number := S754_finite false 8016407336719483 (-53).
Definition d0_94 : number := S754_finite false 8466767299456532 (-53).
Definition d1 : number := S754_finite false 4503599627370496 (-52).
Definition d0_005 : number := S754_finite false 5764607523034235 (-60).
Definition d1e21 : number := S754_finite false 7629394531250000 17.

End JsNumber.

(** ** JavaScript values

    The event payload is typed [any]; the handler reads it with property
    accesses, truthiness tests and method calls that can throw. Objects and
    arrays carry the address that identifies them, the only thing [Set]
    membership looks at. *)
Inductive value : Type :=
| JUndefined
| JNull
| JBool (b : bool)
| JNum (x : JsNumber.number)
| JStr (s : string)
| JArr (addr : nat) (elems : list value)
| JObj (addr : nat) (props : list (string * value)).

(** What a [throw] carries: the run time's own [TypeError], or whatever a
    collaborator threw. *)
Inductive thrown : Type :=
| TypeError (message : string)
| Thrown (v : value).

Definition truthy (v : value) : bool :=
  match v with
  | JUndefined | JNull => false
  | JBool b => b
  | JNum x => JsNumber.truthy x
  | JStr s => JsString.truthy s
  | JArr _ _ | JObj _ _ => true
  end.

(** [a || b] *)
Definition or_else (a b : value) : value := if truthy a then a else b.

Fixpoint own_property (props : list (string * value)) (key : string)
  : option value :=
  match props with
  | [] => None
  | (k, v) :: rest => if String.eqb k key then Some v else own_property rest key
  end.

(** [v.key] for the keys the handler reads ([detectionId], [timestamp],
    [detections], [className], [score]): none of them is a built-in property
    of a primitive or of an array, so only objects can have them; reading a
    property of [undefined] or [null] throws. *)
Definition get_property (v : value) (key : string) : value + thrown :=
  match v with
  | JUndefined => inr (TypeError "Cannot read properties of undefined")
  | JNull => inr (TypeError "Cannot read properties of null")
  | JObj _ props => inl (default JUndefined (own_property props key))
  | JBool _ | JNum _ | JStr _ | JArr _ _ => inl JUndefined
  end.

(** SameValueZero, the equality of [Set.prototype.has]. *)
Definition same_value_zero (a b : value) : bool :=
  match a, b with
  | JUndefined, JUndefined => true
  | JNull, JNull => true
  | JBool x, JBool y => Bool.eqb x y
  | JNum x, JNum y => JsNumber.same_value_zero x y
  | JStr x, JStr y => String.eqb x y
  | JArr x _, JArr y _ => Nat.eqb x y
  | JObj x _, JObj y _ => Nat.eqb x y
  | _, _ => false
  end.

(** A [Set], in insertion order. *)
Module JsSet.
Definition t := list value.
Definition empty : t := [].
Definition has (s : t) (v : value) : bool := existsb (same_value_zero v) s.
Definition add (s : t) (v : value) : t := if has s v then s else (s ++ [v])%list.
End JsSet.

(** ** The plugin and its collaborators *)

(** [ScryptedDevice], the fields the handler reads. *)
Module ScryptedDevice.
Record t := mk { id : option string; name : option string; type : option string }.
End ScryptedDevice.

Record EventDetails := {
  eventInterface : option string;
  property : option string;
  eventTime : option Z
}.

(** [parseInt] gives an integer or NaN; [None] stands for a cooldown or an
    interval that is [undefined] or NaN, both falsy. *)
Record OtelCollectorSettings := {
  endpoint : option string;
  enabled : option bool;
  eventFilter : option string;
  exportInterval : option Z;
  deviceCooldown : option Z
}.

Definition Attributes := list (string * value).

(** One call [eventCounter.add(value, attributes)] and how it ended:
    [None] when it returned, [Some e] when it threw [e]. *)
Record CounterCall := {
  call_value : Z;
  call_attributes : Attributes;
  call_thrown : option thrown
}.

(** The counter is typed [any]: whether [add] throws is up to the object
    behind it, which sees the calls made so far. *)
Record Counter := {
  add_throws : list CounterCall -> Z -> Attributes -> option thrown
}.

(** Lines written to [this.console], with the values the template literals
    interpolate. *)
Inductive ConsoleLine : Type :=
| LogCooldown (deviceName : option string) (timeRemaining : Z)
| LogDetectionEvent
| LogDevice (deviceName : option string) (deviceId : string)
| LogDetectionId (detectionId : value)
| LogTimestamp (timestamp : value)
| LogDetections (length : nat)
| LogDetection (className : value) (score : string)
| LogFilteredOut (className : value)
| LogSkippedDuplicate (className : value)
| LogMetricEmitted (className : value)
| LogEnd
| ErrorFailedToHandleEvent (error : thrown).

(** The plugin instance with the two objects it writes to: its console and
    the record of the calls its counter received. *)
Record Plugin := {
  settings : OtelCollectorSettings;
  eventCounter : option Counter;
  lastEmissionTime : gmap string Z;
  console : list ConsoleLine;
  counterCalls : list CounterCall
}.

(** ** Statements that return, throw and write *)

Inductive outcome (A : Type) : Type :=
| Done (a : A)
| Returned
| Threw (e : thrown).
Arguments Done {A} a.
Arguments Returned {A}.
Arguments Threw {A} e.

Definition M (A : Type) : Type := Plugin -> outcome A * Plugin.

Definition ret {A} (a : A) : M A := fun p => (Done a, p).

Definition bind {A B} (m : M A) (k : A -> M B) : M B :=
  fun p =>
    match m p with
    | (Done a, p') => k a p'
    | (Returned, p') => (Returned, p')
    | (Threw e, p') => (Threw e, p')
    end.

Definition return_ {A} : M A := fun p => (Returned, p).
Definition throw {A} (e : thrown) : M A := fun p => (Threw e, p).
Definition gets {A} (f : Plugin -> A) : M A := fun p => (Done (f p), p).
Definition lift {A} (r : A + thrown) : M A :=
  match r with inl a => ret a | inr e => throw e end.

Definition try_catch {A} (body : M A) (handler : thrown -> M A) : M A :=
  fun p =>
    match body p with
    | (Threw e, p') => handler e p'
    | r => r
    end.

Declare Scope js_scope.
Delimit Scope js_scope with js.
Notation "'let*' x ':=' c1 'in' c2" := (bind c1 (fun x => c2))
  (at level 10, x name, c1 at level 100, c2 at level 200) : js_scope.
Notation "c1 ';;;' c2" := (bind c1 (fun _ => c2))
  (at level 100, c2 at level 200, right associativity) : js_scope.
Local Open Scope js_scope.

Definition when_ (c : bool) (m : M unit) : M unit :=
  if c then m else ret tt.

Definition write_console (l : ConsoleLine) (p : Plugin) : Plugin :=
  {| settings := settings p; eventCounter := eventCounter p;
     lastEmissionTime := lastEmissionTime p;
     console := (console p ++ [l])%list;
     counterCalls := counterCalls p |}.

Definition record_call (c : CounterCall) (p : Plugin) : Plugin :=
  {| settings := settings p; eventCounter := eventCounter p;
     lastEmissionTime := lastEmissionTime p;
     console := console p;
     counterCalls := (counterCalls p ++ [c])%list |}.

Definition set_lastEmissionTime (deviceId : string) (now : Z) (p : Plugin)
  : Plugin :=
  {| settings := settings p; eventCounter := eventCounter p;
     lastEmissionTime := <[deviceId := now]> (lastEmissionTime p);
     console := console p;
     counterCalls := counterCalls p |}.

Definition console_log (l : ConsoleLine) : M unit :=
  fun p => (Done tt, write_console l p).

Definition console_error := console_log.

(** [this.lastEmissionTime.set(deviceId, now)] *)
Definition lastEmissionTime_set (deviceId : string) (now : Z) : M unit :=
  fun p => (Done tt, set_lastEmissionTime deviceId now p).

(** [this.eventCounter.add(value, attributes)] *)
Definition eventCounter_add (v : Z) (attributes : Attributes) : M unit :=
  fun p =>
    match eventCounter p with
    | None => (Threw (TypeError "Cannot read properties of undefined"), p)
    | Some c =>
        let r := add_throws c (counterCalls p) v attributes in
        let p' :=
          record_call {| call_value := v; call_attributes := attributes;
                         call_thrown := r |} p in
        match r with
        | None => (Done tt, p')
        | Some e => (Threw e, p')
        end
    end.

(** [score.toFixed(2)]: only numbers have the method. *)
Definition toFixed_2 (score : value) : M string :=
  match score with
  | JNum x => ret (JsNumber.toFixed2 x)
  | _ => throw (TypeError "score.toFixed is not a function")
  end.

(** [className.toLowerCase()]: only strings have the method. *)
Definition toLowerCase (className : value) : M string :=
  match className with
  | JStr s => ret (JsString.toLowerCase s)
  | _ => throw (TypeError "className.toLowerCase is not a function")
  end.

(** [array.some(callback)] *)
Fixpoint some {A} (array : list A) (callback : A -> M bool) : M bool :=
  match array with
  | [] => ret false
  | x :: rest =>
      let* b := callback x in
      if b then ret true else some rest callback
  end.

(** ** [handleEvent] *)

(** [(this.settings.deviceCooldown || 10) * 1000] *)
Definition cooldownMs (s : OtelCollectorSettings) : Z :=
  match deviceCooldown s with
  | Some c => if c =? 0 then 10 else c
  | None => 10
  end * 1000.

(** [Math.ceil(x / 1000)] *)
Definition ceil_seconds (x : Z) : Z := - ((- x) / 1000).

(** [lastEmission && (now - lastEmission) < cooldownMs], where
    [lastEmission] is what [Map.get] returned: [undefined] and [0] are
    falsy. *)
Definition inCooldown (lastEmission : option Z) (now cooldown : Z) : bool :=
  match lastEmission with
  | None => false
  | Some l => negb (l =? 0) && (now - l <? cooldown)
  end.

(** [eventFilter.split(',').map(f => f.trim()).filter(f => f)] *)
Definition filters_of (eventFilter : string) : list string :=
  List.filter JsString.truthy
    (List.map JsString.trim (JsString.split "," eventFilter)).

(** [eventSource.name || 'unknown'] *)
Definition or_unknown (field : option string) : string :=
  match field with
  | Some s => if JsString.truthy s then s else "unknown"
  | None => "unknown"
  end.

Definition attributes_of (eventSource : ScryptedDevice.t) (deviceId : string)
    (className : value) (score2 : string) (detectionId : value)
  : Attributes :=
  [ ("scrypted.device.id", JStr deviceId);
    ("scrypted.device.name", JStr (or_unknown (ScryptedDevice.name eventSource)));
    ("scrypted.device.type", JStr (or_unknown (ScryptedDevice.type eventSource)));
    ("scrypted.detection.class", className);
    ("scrypted.detection.score", JStr score2);
    ("scrypted.detection.id", detectionId) ].

(** [this.settings.eventFilter] set, and some filter contained in the
    lower-cased class name. *)
Definition shouldSkip (className : value) : M bool :=
  let* eventFilter := gets (fun p => eventFilter (settings p)) in
  match eventFilter with
  | None => ret false
  | Some f =>
      if JsString.truthy f then
        let filters := filters_of f in
        some filters (fun filter =>
          let* lower := toLowerCase className in
          ret (JsString.includes lower (JsString.toLowerCase filter)))
      else ret false
  end.

(** The [for ... of results.detections] loop (lines 195-232), with its two
    local variables as arguments; the result is [metricsEmitted]. *)
Fixpoint forDetections (eventSource : ScryptedDevice.t) (deviceId : string)
    (detectionId : value) (detections : list value)
    (metricsEmitted : bool) (emittedClassNames : JsSet.t) : M bool :=
  match detections with
  | [] => ret metricsEmitted
  | detection :: rest =>
      let continue_ := forDetections eventSource deviceId detectionId rest in
      let* c := lift (get_property detection "className") in
      let className := or_else c (JStr "unknown") in
      let* s := lift (get_property detection "score") in
      let score := or_else s (JNum JsNumber.zero) in
      let* shown := toFixed_2 score in
      console_log (LogDetection className shown) ;;;
      let* skip := shouldSkip className in
      if skip then
        console_log (LogFilteredOut className) ;;;
        continue_ metricsEmitted emittedClassNames
      else if JsSet.has emittedClassNames className then
        console_log (LogSkippedDuplicate className) ;;;
        continue_ metricsEmitted emittedClassNames
      else
        let* score2 := toFixed_2 score in
        let attributes :=
          attributes_of eventSource deviceId className score2 detectionId in
        eventCounter_add 1 attributes ;;;
        console_log (LogMetricEmitted className) ;;;
        continue_ true (JsSet.add emittedClassNames className)
  end.

(** The body of the [try] block (lines 158-240); [now] is what [Date.now()]
    returns. *)
Definition handleEvent_try (eventSource : option ScryptedDevice.t)
    (eventDetails : EventDetails) (eventData : value) (now : Z) : M unit :=
  match eventSource with
  | None => return_
  | Some eventSource =>
  match ScryptedDevice.id eventSource with
  | None => return_
  | Some deviceId =>
      when_ (negb (JsString.truthy deviceId)) return_ ;;;
      let results := eventData in
      let* detectionId := lift (get_property results "detectionId") in
      when_ (negb (truthy detectionId)) return_ ;;;
      let* lastEmission := gets (fun p => lastEmissionTime p !! deviceId) in
      let* cooldown := gets (fun p => cooldownMs (settings p)) in
      when_ (inCooldown lastEmission now cooldown)
        (let timeRemaining :=
           ceil_seconds (cooldown - (now - default 0 lastEmission)) in
         console_log
           (LogCooldown (ScryptedDevice.name eventSource) timeRemaining) ;;;
         return_) ;;;
      console_log LogDetectionEvent ;;;
      console_log (LogDevice (ScryptedDevice.name eventSource) deviceId) ;;;
      console_log (LogDetectionId detectionId) ;;;
      let* timestamp := lift (get_property results "timestamp") in
      console_log (LogTimestamp timestamp) ;;;
      let* detections := lift (get_property results "detections") in
      let* metricsEmitted :=
        match detections with
        | JArr _ elems =>
            console_log (LogDetections (List.length elems)) ;;;
            forDetections eventSource deviceId detectionId elems
              false JsSet.empty
        | _ => ret false
        end in
      when_ metricsEmitted (lastEmissionTime_set deviceId now) ;;;
      console_log LogEnd
  end
  end.

(** [!this.settings.enabled || !this.eventCounter] *)
Definition disabled (p : Plugin) : bool :=
  negb (default false (enabled (settings p))) ||
  match eventCounter p with None => true | Some _ => false end.

Definition handleEvent (eventSource : option ScryptedDevice.t)
    (eventDetails : EventDetails) (eventData : value) (now : Z) : M unit :=
  fun p =>
    if disabled p then (Returned, p)
    else
      try_catch
        (handleEvent_try eventSource eventDetails eventData now)
        (fun error => console_error (ErrorFailedToHandleEvent error)) p.

(** ** What the handler sees of a payload *)

(** The configured denylist: nothing when [eventFilter] is unset or empty. *)
Definition denylist (s : OtelCollectorSettings) : list string :=
  match eventFilter s with
  | Some f => if JsString.truthy f then filters_of f else []
  | None => []
  end.

(** Some entry of the denylist occurs in the lower-cased class name. *)
Definition matches (filters : list string) (className : string) : bool :=
  existsb (fun filter =>
             JsString.includes (JsString.toLowerCase className)
                               (JsString.toLowerCase filter)) filters.

Definition property_of (v : value) (key : string) : value :=
  match get_property v key with
  | inl x => x
  | inr _ => JUndefined
  end.

(** [detection.className || 'unknown'] and [detection.score || 0] *)
Definition className_of (detection : value) : value :=
  or_else (property_of detection "className") (JStr "unknown").
Definition score_of (detection : value) : value :=
  or_else (property_of detection "score") (JNum JsNumber.zero).

Definition is_nullish (v : value) : bool :=
  match v with JUndefined | JNull => true | _ => false end.
Definition is_string (v : value) : bool :=
  match v with JStr _ => true | _ => false end.
Definition is_number (v : value) : bool :=
  match v with JNum _ => true | _ => false end.

(** A detection shaped as the data model has it: a value with properties,
    a class name that is a string when present, a score that is a number
    when present. *)
Definition well_formed (detection : value) : bool :=
  negb (is_nullish detection) &&
  is_string (className_of detection) && is_number (score_of detection).

(** The counter never throws. *)
Definition accepts (c : Counter) : Prop :=
  forall calls v attributes, add_throws c calls v attributes = None.

(** The number behind a value, [0] for anything else. *)
Definition number_of (v : value) : JsNumber.number :=
  match v with JNum x => x | _ => JsNumber.zero end.

(** The call the loop makes for a detection it emits. *)
Definition call_of (eventSource : ScryptedDevice.t) (deviceId : string)
    (detectionId : value) (detection : value) : CounterCall :=
  {| call_value := 1;
     call_attributes :=
       attributes_of eventSource deviceId (className_of detection)
         (JsNumber.toFixed2 (number_of (score_of detection))) detectionId;
     call_thrown := None |}.

Definition skipped (filters : list string) (className : value) : bool :=
  match className with
  | JStr s => matches filters s
  | _ => false
  end.

(** The detections of a well-formed session that reach the counter, in
    order: not on the denylist, and of a class not emitted before. *)
Fixpoint survivors (filters : list string) (seen : JsSet.t)
    (detections : list value) : list value :=
  match detections with
  | [] => []
  | d :: rest =>
      let c := className_of d in
      if skipped filters c || JsSet.has seen c
      then survivors filters seen rest
      else d :: survivors filters (JsSet.add seen c) rest
  end.

(** The class attribute of a call. *)
Definition class_of_call (c : CounterCall) : value :=
  default JUndefined (own_property (call_attributes c) "scrypted.detection.class").
Definition score_of_call (c : CounterCall) : value :=
  default JUndefined (own_property (call_attributes c) "scrypted.detection.score").

Definition has_class (className : string) (c : CounterCall) : bool :=
  same_value_zero (JStr className) (class_of_call c).

(** The calls the counter received while [p] became [p']. *)
Definition new_calls (p p' : Plugin) : list CounterCall :=
  drop (List.length (counterCalls p)) (counterCalls p').
Definition new_lines (p p' : Plugin) : list ConsoleLine :=
  drop (List.length (console p)) (console p').

(** The metrics emitted: the calls that returned. *)
Definition returned (c : CounterCall) : bool :=
  match call_thrown c with None => true | Some _ => false end.
Definition emitted (p p' : Plugin) : list CounterCall :=
  List.filter returned (new_calls p p').

(** The six attribute names, in the order of the object literal. *)
Definition attribute_names : list string :=
  [ "scrypted.device.id"; "scrypted.device.name"; "scrypted.device.type";
    "scrypted.detection.class"; "scrypted.detection.score";
    "scrypted.detection.id" ].

(** ** Strings with exactly two decimals *)

Definition is_digit (c : ascii) : bool :=
  ((48 <=? JsString.code c) && (JsString.code c <=? 57))%N.

Fixpoint all_digits (s : string) : bool :=
  match s with
  | EmptyString => true
  | String c s' => is_digit c && all_digits s'
  end.

(** An optional minus sign, one digit or more, a point, two digits. *)
Definition two_decimals (s : string) : Prop :=
  exists sign whole d1 d2,
    s = (sign ++ whole ++ "." ++ String d1 (String d2 EmptyString))%string /\
    (sign = "" \/ sign = "-") /\
    whole <> "" /\ all_digits whole = true /\
    is_digit d1 = true /\ is_digit d2 = true.

(** ** The states the plugin can be in

    The map starts empty ([new Map()]) and only [handleEvent] writes to it;
    settings and counter are replaced by [putSetting], [initialize] and
    [cleanup]. The clock is assumed never to read [0], the epoch itself. *)
Inductive reachable : Plugin -> Prop :=
| reachable_new s c out calls :
    reachable {| settings := s; eventCounter := c; lastEmissionTime := ∅;
                 console := out; counterCalls := calls |}
| reachable_configure p s c :
    reachable p ->
    reachable {| settings := s; eventCounter := c;
                 lastEmissionTime := lastEmissionTime p;
                 console := console p; counterCalls := counterCalls p |}
| reachable_event p eventSource eventDetails eventData now :
    reachable p -> now <> 0 ->
    reachable (snd (handleEvent eventSource eventDetails eventData now p)).

(** ** Example data *)
Module Examples.

Definition okCounter : Counter := {| add_throws := fun _ _ _ => None |}.

(** A counter whose [add] always throws. *)
Definition brokenCounter : Counter :=
  {| add_throws := fun _ _ _ => Some (Thrown (JStr "export failed")) |}.

Definition plugin (filter : string) (c : Counter) (m : gmap string Z)
  : Plugin :=
  {| settings := {| endpoint := Some "http://localhost:4318/v1/metrics";
                    enabled := Some true; eventFilter := Some filter;
                    exportInterval := Some 10000;
                    deviceCooldown := Some 10 |};
     eventCounter := Some c; lastEmissionTime := m;
     console := []; counterCalls := [] |}.

Definition camera : ScryptedDevice.t :=
  ScryptedDevice.mk (Some "d1") (Some "Front Door Camera") (Some "Camera").

Definition details : EventDetails :=
  {| eventInterface := Some "ObjectDetector"; property := None;
     eventTime := None |}.

Definition detection (className : string) (score : JsNumber.number) : value :=
  JObj 0 [("className", JStr className); ("score", JNum score)].

Definition session (detectionId : string) (detections : list value) : value :=
  JObj 1 [("detectionId", JStr detectionId);
          ("timestamp", JNum JsNumber.d1);
          ("detections", JArr 2 detections)].

(** Scenarios 1 and 2 of the specification. *)
Definition s1 : value :=
  session "s1" [detection "person" JsNumber.d0_92;
                detection "motion" JsNumber.d1].
Definition s2 : value :=
  session "s2" [detection "vehicle" JsNumber.d0_83;
                detection "vehicle" JsNumber.d0_89;
                detection "vehicle" JsNumber.d0_94].

(** A session without [detectionId]. *)
Definition s4 : value :=
  JObj 1 [("detections", JArr 2 [detection "person" JsNumber.d0_92])].

(** "Person" and "person" in one session. *)
Definition s9 : value :=
  session "s9" [detection "Person" JsNumber.d0_92;
                detection "person" JsNumber.d0_83].

End Examples.

(** What [shouldSkip] computes: nothing is looked at when no filter is
    configured; otherwise the class name must be a string. *)
Definition shouldSkip_result (filters : list string) (className : value)
  : outcome bool :=
  match filters with
  | [] => Done false
  | _ :: _ =>
      match className with
      | JStr s => Done (matches filters s)
      | _ => Threw (TypeError "className.toLowerCase is not a function")
      end
  end.

(** ** What the loop does to the plugin *)

(** [p'] is [p] with [lines] written to the console and [calls] made to
    the counter; nothing else differs. *)
Definition extends (p p' : Plugin) (lines : list ConsoleLine)
    (calls : list CounterCall) : Prop :=
  settings p' = settings p /\
  eventCounter p' = eventCounter p /\
  lastEmissionTime p' = lastEmissionTime p /\
  console p' = (console p ++ lines)%list /\
  counterCalls p' = (counterCalls p ++ calls)%list.

(** A call the loop makes: an increment of [1] for a detection of the
    session that the class filter let through. *)
Definition call_from (eventSource : ScryptedDevice.t) (deviceId : string)
    (detectionId : value) (filters : list string) (detections : list value)
    (c : CounterCall) : Prop :=
  call_value c = 1 /\
  exists d x,
    In d detections /\ score_of d = JNum x /\
    call_attributes c =
      attributes_of eventSource deviceId (className_of d)
        (JsNumber.toFixed2 x) detectionId /\
    shouldSkip_result filters (className_of d) = Done false.

Definition call_returned (c : CounterCall) : Prop := call_thrown c = None.

Definition nonempty {A} (l : list A) : bool :=
  match l with [] => false | _ :: _ => true end.

(** How the loop ends: with [metricsEmitted] set exactly when a call was
    made, all calls having returned; or by a throw, which only the last
    call can be the source of. *)
Definition loop_outcome (metricsEmitted : bool) (o : outcome bool)
    (calls : list CounterCall) : Prop :=
  match o with
  | Done b =>
      Forall call_returned calls /\
      b = metricsEmitted || nonempty calls
  | Returned => False
  | Threw e =>
      Forall call_returned calls \/
      exists ok c, calls = (ok ++ [c])%list /\ Forall call_returned ok /\
                   call_thrown c = Some e
  end.

(** The four lines written when a session passes the gate (lines
    183-186). *)
Definition session_header (eventSource : ScryptedDevice.t) (deviceId : string)
    (detectionId : value) (results : value) (p : Plugin) : Plugin :=
  write_console (LogTimestamp (property_of results "timestamp"))
    (write_console (LogDetectionId detectionId)
       (write_console (LogDevice (ScryptedDevice.name eventSource) deviceId)
          (write_console LogDetectionEvent p))).

(** [Math.ceil((cooldownMs - (now - lastEmission)) / 1000)] *)
Definition timeRemaining (p : Plugin) (deviceId : string) (now : Z) : Z :=
  ceil_seconds
    (cooldownMs (settings p) - (now - default 0 (lastEmissionTime p !! deviceId))).

(** [p'] is [p] after [lines] and [calls], with [times] as its cooldown
    map. *)
Definition becomes (p p' : Plugin) (lines : list ConsoleLine)
    (calls : list CounterCall) (times : gmap string Z) : Prop :=
  settings p' = settings p /\
  eventCounter p' = eventCounter p /\
  lastEmissionTime p' = times /\
  console p' = (console p ++ lines)%list /\
  counterCalls p' = (counterCalls p ++ calls)%list.

(** ** Sessions that reach the loop *)

(** The elements of [results.detections] when it is an array. *)
Definition detections_of (results : value) : list value :=
  match property_of results "detections" with
  | JArr _ elems => elems
  | _ => []
  end.

(** The plugin is enabled, the event has a device with an id and a payload
    with a session identifier, and the device is not in its cooldown. *)
Definition passes_gate (p : Plugin) (eventSource : ScryptedDevice.t)
    (results : value) (now : Z) : bool :=
  negb (disabled p) &&
  match ScryptedDevice.id eventSource with
  | None => false
  | Some deviceId =>
      JsString.truthy deviceId &&
      truthy (property_of results "detectionId") &&
      negb (inCooldown (lastEmissionTime p !! deviceId) now
              (cooldownMs (settings p)))
  end.

Definition deviceId_of (eventSource : ScryptedDevice.t) : string :=
  default "" (ScryptedDevice.id eventSource).

(** The call made for [detection] in a session of [eventSource] with
    payload [results]. *)
Definition metric_of (eventSource : ScryptedDevice.t) (results : value)
    (detection : value) : CounterCall :=
  call_of eventSource (deviceId_of eventSource)
    (property_of results "detectionId") detection.

(** What the loop reads of a detection: whether reading a property throws,
    the class name and the score. *)
Definition view (detection : value)
  : option thrown * value * value :=
  (match get_property detection "className" with
   | inl _ => None
   | inr e => Some e
   end,
   className_of detection, score_of detection).

(** [detection] has class [className], as the deduplication set compares
    them. *)
Definition is_class (className : string) (detection : value) : bool :=
  same_value_zero (JStr className) (className_of detection).

(** ** The trace of a session *)

(** The lines the loop writes. *)
Definition is_loop_line (l : ConsoleLine) : bool :=
  match l with
  | LogDetection _ _ | LogFilteredOut _ | LogSkippedDuplicate _
  | LogMetricEmitted _ => true
  | _ => false
  end.

(** The attributes of the call the loop makes for [detection]. *)
Definition attributes_for (eventSource : ScryptedDevice.t) (deviceId : string)
    (detectionId : value) (detection : value) : Attributes :=
  call_attributes (call_of eventSource deviceId detectionId detection).

(** At most one call of each class, none of a class already in [seen]. *)
Definition one_per_class (seen : JsSet.t) (calls : list CounterCall) : Prop :=
  forall className,
    (List.length (List.filter (has_class className) calls)
     <= if JsSet.has seen (JStr className) then 0 else 1)%nat.

(** ** Denylist entries *)

Definition comma_free (s : string) : bool :=
  forallb (fun c => negb (Ascii.eqb c ",")) (list_ascii_of_string s).

Definition starts_with_space (s : string) : bool :=
  match s with
  | EmptyString => false
  | String c _ => JsString.is_white_space c
  end.

(** An entry as [filters_of] produces them: not empty, without comma, and
    with no white space at either end. *)
Definition normal_entry (s : string) : Prop :=
  s <> "" /\ comma_free s = true /\ JsString.trim s = s.

(** ** Numbers and strings

    [parseInt] and [Number.prototype.toString], which [loadSettings],
    [saveSettings] and [putSetting] convert the numeric settings with. *)
Module JsConvert.

(** The double nearest to the integer [z > 0], ties to even; [Infinity]
    from [2^1024] on. *)
Definition round_to_double (neg : bool) (z : Z) : JsNumber.number :=
  if z =? 0 then S754_zero neg
  else if Z.log2 z <=? 52 then S754_finite neg (Z.to_pos z) 0
  else
    let shift := Z.log2 z - 52 in
    let q := z / 2 ^ shift in
    let r := z mod 2 ^ shift in
    let half := 2 ^ (shift - 1) in
    let q' := if (half <? r) || ((r =? half) && Z.odd q) then q + 1 else q in
    if 2 ^ 1024 <=? q' * 2 ^ shift then S754_infinity neg
    else S754_finite neg (Z.to_pos q') shift.

(** The value of a digit in [radix], [None] for any other character. *)
Definition digit_value (radix : Z) (c : ascii) : option Z :=
  let n := Z.of_N (N_of_ascii c) in
  let v := if (48 <=? n) && (n <=? 57) then n - 48
           else if (97 <=? n) && (n <=? 122) then n - 87
           else if (65 <=? n) && (n <=? 90) then n - 55
           else radix in
  if v <? radix then Some v else None.

(** The integer written by the longest prefix of digits, [None] when the
    string starts with no digit. *)
Fixpoint parse_digits (radix : Z) (s : string) (acc : option Z) : option Z :=
  match s with
  | EmptyString => acc
  | String c s' =>
      match digit_value radix c with
      | Some d => parse_digits radix s' (Some (default 0 acc * radix + d))
      | None => acc
      end
  end.

(** [parseInt(input)], with no radix argument: leading white space, a sign,
    a [0x] prefix for hexadecimal, then digits; [NaN] without digits. *)
Definition parseInt (input : string) : JsNumber.number :=
  let s := JsString.trimStart input in
  let '(neg, s) :=
    match s with
    | String c r =>
        if Ascii.eqb c "-" then (true, r)
        else if Ascii.eqb c "+" then (false, r)
        else (false, s)
    | EmptyString => (false, s)
    end in
  let '(radix, s) :=
    match s with
    | String c (String x r) =>
        if Ascii.eqb c "0" && (Ascii.eqb x "x" || Ascii.eqb x "X")
        then (16, r) else (10, s)
    | _ => (10, s)
    end in
  match parse_digits radix s None with
  | None => S754_nan
  | Some z => round_to_double neg z
  end.

(** [a * 2^ea * 10^da] compared with [b * 2^eb * 10^db]. *)
Definition scaled_compare (a ea da b eb db : Z) : comparison :=
  let e2 := Z.min ea eb in
  let e10 := Z.min da db in
  Z.compare (a * 2 ^ (ea - e2) * 10 ^ (da - e10))
            (b * 2 ^ (eb - e2) * 10 ^ (db - e10)).

(** What [Number::toString] needs of a positive double [m * 2^e]: the
    value [X] and the bounds [LOW], [HIGH] of the interval of reals that
    round to it, all three in units of [2^unit], and whether the bounds
    belong to the interval (the mantissa is even). *)
Record Interval := {
  unit : Z; X : Z; LOW : Z; HIGH : Z; closed : bool
}.

Definition interval_of (m : positive) (e : Z) : Interval :=
  let ulp := Z.max (Z.log2 (Z.pos m) + e - 52) (-1074) in
  let u := Z.min e (ulp - 2) in
  let x := Z.pos m * 2 ^ (e - u) in
  let half := 2 ^ (ulp - 1 - u) in
  let boundary := (Z.pos m =? 2 ^ Z.log2 (Z.pos m)) && (-1074 <? ulp) in
  {| unit := u; X := x;
     LOW := x - (if boundary then half / 2 else half);
     HIGH := x + half;
     closed := Z.even (x / 2 ^ (ulp - u)) |}.

(** [s * 10^j] rounds to the double. *)
Definition reads_back (i : Interval) (s j : Z) : bool :=
  match scaled_compare (LOW i) (unit i) 0 s 0 j,
        scaled_compare s 0 j (HIGH i) (unit i) 0 with
  | Lt, Lt => true
  | Gt, _ | _, Gt => false
  | _, _ => closed i
  end.

(** [floor (x / 10^j)] *)
Definition floor_scaled (i : Interval) (j : Z) : Z :=
  (X i * 2 ^ Z.max (unit i) 0 * 10 ^ Z.max (- j) 0)
  / (2 ^ Z.max (- unit i) 0 * 10 ^ Z.max j 0).

(** The candidates [s * 10^j] and [(s + 1) * 10^j] around the double; the
    one that reads back, the closer one when both do, the even one on a
    tie. *)
Definition candidate (i : Interval) (j : Z) : option Z :=
  let s := floor_scaled i j in
  match reads_back i s j, reads_back i (s + 1) j with
  | true, true =>
      match scaled_compare (2 * X i) (unit i) 0 (2 * s + 1) 0 j with
      | Lt => Some s
      | Gt => Some (s + 1)
      | Eq => Some (if Z.even s then s else s + 1)
      end
  | true, false => Some s
  | false, true => Some (s + 1)
  | false, false => None
  end.

(** The [n] with [10^(n-1) <= x < 10^n]. *)
Fixpoint exponent_below (fuel : nat) (i : Interval) (n : Z) : Z :=
  match fuel with
  | O => n
  | S fuel' =>
      match scaled_compare 1 0 (n - 1) (X i) (unit i) 0 with
      | Gt => exponent_below fuel' i (n - 1)
      | _ => n
      end
  end.

Definition decimal_exponent (i : Interval) : Z :=
  let whole := floor_scaled i 0 in
  if 1 <=? whole then Z.of_nat (String.length (JsNumber.digits whole))
  else exponent_below 400 i 0.

(** The shortest [s * 10^j] that reads back, trying one to seventeen
    digits. *)
Fixpoint shortest_go (fuel : nat) (i : Interval) (j : Z) : Z * Z :=
  match fuel with
  | O => (floor_scaled i j, j)
  | S fuel' =>
      match candidate i j with
      | Some s => (s, j)
      | None => shortest_go fuel' i (j - 1)
      end
  end.

Definition shortest (i : Interval) : Z * Z :=
  shortest_go 17 i (decimal_exponent i - 1).

Fixpoint zeros (n : nat) : string :=
  match n with O => EmptyString | S n' => String "0" (zeros n') end.

Fixpoint take_string (n : nat) (s : string) : string :=
  match n, s with
  | S n', String c s' => String c (take_string n' s')
  | _, _ => EmptyString
  end.

Fixpoint drop_string (n : nat) (s : string) : string :=
  match n, s with
  | S n', String _ s' => drop_string n' s'
  | _, _ => s
  end.

(** [d.ddd] followed by the exponent part. *)
Definition exponent_form (ds : string) (n : Z) : string :=
  let e := n - 1 in
  let tail := (if e <? 0 then "e-" else "e+") ++ JsNumber.digits (Z.abs e) in
  match ds with
  | EmptyString => "0"
  | String d EmptyString => String d tail
  | String d rest => String d ("." ++ rest ++ tail)
  end.

(** The string for [s * 10^j], [s > 0]. *)
Definition render (s j : Z) : string :=
  if 0 <=? j then
    let whole := JsNumber.digits (s * 10 ^ j) in
    if (Z.of_nat (String.length whole) <=? 21) then whole
    else exponent_form (JsNumber.strip_trailing_zeros whole)
                       (Z.of_nat (String.length whole))
  else
    let ds := JsNumber.strip_trailing_zeros (JsNumber.digits s) in
    let stripped :=
      Z.of_nat (String.length (JsNumber.digits s)) - Z.of_nat (String.length ds) in
    let j' := j + stripped in
    let k := Z.of_nat (String.length ds) in
    let n := k + j' in
    if 0 <=? j' then
      JsNumber.digits (s / 10 ^ (- j))
    else if 0 <? n then
      take_string (Z.to_nat n) ds ++ "." ++ drop_string (Z.to_nat n) ds
    else if -6 <? n then
      "0." ++ zeros (Z.to_nat (- n)) ++ ds
    else exponent_form ds n.

(** [x.toString()] *)
Definition toString (x : JsNumber.number) : string :=
  match x with
  | S754_nan => "NaN"
  | S754_zero _ => "0"
  | S754_infinity false => "Infinity"
  | S754_infinity true => "-Infinity"
  | S754_finite neg m e =>
      let '(s, j) := shortest (interval_of m e) in
      (if neg then "-" else "") ++ render s j
  end.

(** The integer [z] as a number, for [|z| < 2^53]. *)
Definition of_Z (z : Z) : JsNumber.number :=
  round_to_double (z <? 0) (Z.abs z).

End JsConvert.

(** [ToString(v)], which [parseInt] applies to its argument: an array joins
    its elements with commas, [null] and [undefined] elements as the empty
    string. *)
Fixpoint to_string (v : value) : string :=
  match v with
  | JUndefined => "undefined"
  | JNull => "null"
  | JBool true => "true"
  | JBool false => "false"
  | JNum x => JsConvert.toString x
  | JStr s => s
  | JObj _ _ => "[object Object]"
  | JArr _ elems =>
      (fix join (l : list value) : string :=
         match l with
         | [] => ""
         | x :: rest =>
             let first :=
               match x with
               | JUndefined | JNull => ""
               | _ => to_string x
               end in
             match rest with
             | [] => first
             | _ :: _ => first ++ "," ++ join rest
             end
         end) elems
  end.

(** ** Settings as the plugin stores them

    [this.settings] with its numbers as JavaScript numbers, and
    [this.storage] as a map from keys to strings whose [getItem] and
    [setItem] return: the [catch] of [loadSettings] and of [saveSettings] is
    then never entered. *)
Module Config.

Record Settings := {
  endpoint : option string;
  enabled : option bool;
  eventFilter : value;
  exportInterval : option JsNumber.number;
  deviceCooldown : option JsNumber.number
}.

Definition Storage := gmap string string.

(** The field initialiser of [settings] (lines 24-28). *)
Definition initial : Settings :=
  {| endpoint := None; enabled := Some false; eventFilter := JUndefined;
     exportInterval := Some (JsConvert.of_Z 10000);
     deviceCooldown := Some (JsConvert.of_Z 10) |}.

(** [getItem(key) || fallback] *)
Definition item_or (storage : gmap string string) (key fallback : string)
  : string :=
  match storage !! key with
  | Some s => if JsString.truthy s then s else fallback
  | None => fallback
  end.

(** [loadSettings] (lines 42-53): every field is overwritten. *)
Definition loadSettings (storage : gmap string string) : Settings :=
  {| endpoint :=
       match storage !! "endpoint" with
       | Some e => if JsString.truthy e then Some e else None
       | None => None
       end;
     enabled := Some (bool_decide (storage !! "enabled" = Some "true"));
     eventFilter := JStr (item_or storage "eventFilter" "");
     exportInterval :=
       Some (JsConvert.parseInt (item_or storage "exportInterval" "10000"));
     deviceCooldown :=
       Some (JsConvert.parseInt (item_or storage "deviceCooldown" "10")) |}.

(** [x?.toString() || fallback] *)
Definition number_or (x : option JsNumber.number) (fallback : string) : string :=
  match x with
  | Some n =>
      let s := JsConvert.toString n in
      if JsString.truthy s then s else fallback
  | None => fallback
  end.

(** [saveSettings] (lines 55-67).  The field [eventFilter] is a string as
    far as the type checker knows, but [putSetting] stores whatever truthy
    value it is given; [setItem] keeps the string of its argument. *)
Definition saveSettings (s : Settings) (storage : gmap string string)
  : gmap string string :=
  let storage :=
    match endpoint s with
    | Some e => if JsString.truthy e then <["endpoint" := e]> storage
                else storage
    | None => storage
    end in
  let storage :=
    <["enabled" := if default false (enabled s) then "true" else "false"]>
      storage in
  let storage :=
    <["eventFilter" := to_string (or_else (eventFilter s) (JStr ""))]>
      storage in
  let storage :=
    <["exportInterval" := number_or (exportInterval s) "10000"]> storage in
  <["deviceCooldown" := number_or (deviceCooldown s) "10"]> storage.

(** The numbers that [toString] and [parseInt] carry through unchanged:
    NaN and the integers below [2^53] in magnitude. *)
Definition stable (x : JsNumber.number) : Prop :=
  x = S754_nan \/ exists z, Z.abs z < 2 ^ 53 /\ x = JsConvert.of_Z z.

Definition stable_or_unset (x : option JsNumber.number) : Prop :=
  match x with Some n => stable n | None => True end.

End Config.

(** The interval of a double that is an integer [M] below [2^53]: in
    units of [2^-k] with [k >= 2], and no wider than a half on each side. *)
Definition integral (i : JsConvert.Interval) (M : Z) : Prop :=
  exists k c, 2 <= k /\ 1 <= c <= 2 /\
    JsConvert.unit i = - k /\ JsConvert.X i = M * 2 ^ k /\
    JsConvert.LOW i = M * 2 ^ k - c /\ JsConvert.HIGH i = M * 2 ^ k + 2.

(** ** The plugin among its collaborators

    [putSetting], [initialize], [cleanup], [setupDeviceListeners] and
    [validateEndpoint] work on objects of the OpenTelemetry and Scrypted
    SDKs. What those objects do when called is up to them: each is modelled
    by the outcome of the call, a value returned or an error thrown. *)
Module Lifecycle.

(** A [MeterProvider]: [shutdown()] throws, or returns and lets [await]
    suspend the caller until the promise settles. *)
Record MeterProvider := {
  provider_id : nat;
  shutdown_throws : option thrown
}.

(** What [device.listen] returns. *)
Record EventListenerRegister := {
  listener_id : nat;
  removeListener_throws : option thrown
}.

(** What [getDeviceById] returns: [listen] gives a listener or throws. *)
Record Device := { listen : EventListenerRegister + thrown }.

(** Lines 103-139 of [initialize], the calls into the OpenTelemetry SDK:
    they run to the end, or throw before [this.meterProvider] is assigned
    (lines 103-131), or after it ([getMeter], [createCounter]). *)
Inductive creation : Type :=
| Created (provider : MeterProvider) (counter : Counter)
| FailedBeforeProvider (e : thrown)
| FailedAfterProvider (provider : MeterProvider) (e : thrown).

(** [new URL(endpoint).protocol]; the SDK objects made for an endpoint and
    an export interval; [systemManager.getSystemState()], its devices in
    the order [for ... in] enumerates them; [systemManager.getDeviceById],
    [None] for [undefined]. *)
Record Sdk := {
  URL_protocol : string -> string + thrown;
  create : string -> JsNumber.number -> creation;
  getSystemState : list (string * value) + thrown;
  getDeviceById : string -> option Device + thrown
}.

(** Lines written to [this.console]. *)
Inductive Line : Type :=
| LogSetting (key : string) (v : value)
| ErrorInvalidProtocol (protocol : string)
| ErrorInvalidEndpointURL (error : thrown)
| ErrorEndpointNotConfigured
| ErrorInvalidEndpoint
| ErrorFailedToInitialize (error : thrown)
| LogInitialized (endpoint : string)
| LogFound (devices : nat)
| LogSubscribing (name : value) (deviceId : string)
| LogType (type : value)
| LogInterfaces (interfaces : option (list value))
| ErrorFailedToSubscribe (deviceId : string) (error : thrown)
| LogSubscribed (devices : nat)
| ErrorFailedToSetup (error : thrown)
| ErrorFailedToRemove (deviceId : string) (error : thrown)
| ErrorFailedToShutdown (error : thrown)
| LogDisabled.

(** An [async] call suspended at an [await]: [cleanup] at line 302, with
    whether a [putSetting] waits for it, and [putSetting] at line 395 once
    [cleanup] has completed. *)
Inductive Continuation : Type :=
| AfterShutdown (awaited : bool)
| AfterCleanup.

(** The plugin instance, its storage, its console, and the suspended calls
    that the event loop has still to resume. [deviceListeners] is a [Map],
    kept in insertion order. *)
Record Host := {
  settings : Config.Settings;
  storage : gmap string string;
  meterProvider : option MeterProvider;
  eventCounter : option Counter;
  deviceListeners : list (string * EventListenerRegister);
  console : list Line;
  waiting : list Continuation
}.

Definition H (A : Type) : Type := Host -> outcome A * Host.

Definition ret {A} (a : A) : H A := fun h => (Done a, h).

Definition bind {A B} (m : H A) (k : A -> H B) : H B :=
  fun h =>
    match m h with
    | (Done a, h') => k a h'
    | (Returned, h') => (Returned, h')
    | (Threw e, h') => (Threw e, h')
    end.

Definition throw {A} (e : thrown) : H A := fun h => (Threw e, h).
Definition gets {A} (f : Host -> A) : H A := fun h => (Done (f h), h).
Definition modify (f : Host -> Host) : H unit := fun h => (Done tt, f h).
Definition lift {A} (r : A + thrown) : H A :=
  match r with inl a => ret a | inr e => throw e end.

Definition try_catch {A} (body : H A) (handler : thrown -> H A) : H A :=
  fun h =>
    match body h with
    | (Threw e, h') => handler e h'
    | r => r
    end.

Declare Scope host_scope.
Delimit Scope host_scope with host.
Notation "'let*' x ':=' c1 'in' c2" := (bind c1 (fun x => c2))
  (at level 10, x name, c1 at level 100, c2 at level 200) : host_scope.
Notation "c1 ';;;' c2" := (bind c1 (fun _ => c2))
  (at level 100, c2 at level 200, right associativity) : host_scope.
Local Open Scope host_scope.

Definition write (l : Line) (h : Host) : Host :=
  {| settings := settings h; storage := storage h;
     meterProvider := meterProvider h; eventCounter := eventCounter h;
     deviceListeners := deviceListeners h;
     console := (console h ++ [l])%list; waiting := waiting h |}.

Definition set_settings (s : Config.Settings) (h : Host) : Host :=
  {| settings := s; storage := storage h;
     meterProvider := meterProvider h; eventCounter := eventCounter h;
     deviceListeners := deviceListeners h;
     console := console h; waiting := waiting h |}.

Definition set_storage (st : gmap string string) (h : Host) : Host :=
  {| settings := settings h; storage := st;
     meterProvider := meterProvider h; eventCounter := eventCounter h;
     deviceListeners := deviceListeners h;
     console := console h; waiting := waiting h |}.

Definition set_meterProvider (m : option MeterProvider) (h : Host) : Host :=
  {| settings := settings h; storage := storage h;
     meterProvider := m; eventCounter := eventCounter h;
     deviceListeners := deviceListeners h;
     console := console h; waiting := waiting h |}.

Definition set_eventCounter (c : option Counter) (h : Host) : Host :=
  {| settings := settings h; storage := storage h;
     meterProvider := meterProvider h; eventCounter := c;
     deviceListeners := deviceListeners h;
     console := console h; waiting := waiting h |}.

Definition set_deviceListeners (l : list (string * EventListenerRegister))
    (h : Host) : Host :=
  {| settings := settings h; storage := storage h;
     meterProvider := meterProvider h; eventCounter := eventCounter h;
     deviceListeners := l;
     console := console h; waiting := waiting h |}.

Definition set_waiting (w : list Continuation) (h : Host) : Host :=
  {| settings := settings h; storage := storage h;
     meterProvider := meterProvider h; eventCounter := eventCounter h;
     deviceListeners := deviceListeners h;
     console := console h; waiting := w |}.

Definition console_log (l : Line) : H unit := modify (write l).
Definition console_error := console_log.

(** An [await]: the rest of the call joins the suspended ones. *)
Definition suspend (k : Continuation) : H unit :=
  modify (fun h => set_waiting (waiting h ++ [k])%list h).

Definition set_enabled (b : bool) (s : Config.Settings) : Config.Settings :=
  {| Config.endpoint := Config.endpoint s; Config.enabled := Some b;
     Config.eventFilter := Config.eventFilter s;
     Config.exportInterval := Config.exportInterval s;
     Config.deviceCooldown := Config.deviceCooldown s |}.

Definition set_endpoint (e : string) (s : Config.Settings) : Config.Settings :=
  {| Config.endpoint := Some e; Config.enabled := Config.enabled s;
     Config.eventFilter := Config.eventFilter s;
     Config.exportInterval := Config.exportInterval s;
     Config.deviceCooldown := Config.deviceCooldown s |}.

Definition set_eventFilter (f : value) (s : Config.Settings) : Config.Settings :=
  {| Config.endpoint := Config.endpoint s; Config.enabled := Config.enabled s;
     Config.eventFilter := f;
     Config.exportInterval := Config.exportInterval s;
     Config.deviceCooldown := Config.deviceCooldown s |}.

Definition set_exportInterval (x : JsNumber.number) (s : Config.Settings)
  : Config.Settings :=
  {| Config.endpoint := Config.endpoint s; Config.enabled := Config.enabled s;
     Config.eventFilter := Config.eventFilter s;
     Config.exportInterval := Some x;
     Config.deviceCooldown := Config.deviceCooldown s |}.

Definition set_deviceCooldown (x : JsNumber.number) (s : Config.Settings)
  : Config.Settings :=
  {| Config.endpoint := Config.endpoint s; Config.enabled := Config.enabled s;
     Config.eventFilter := Config.eventFilter s;
     Config.exportInterval := Config.exportInterval s;
     Config.deviceCooldown := Some x |}.

Definition assign (f : Config.Settings -> Config.Settings) : H unit :=
  modify (fun h => set_settings (f (settings h)) h).

(** [this.saveSettings()] *)
Definition saveSettings : H unit :=
  modify (fun h => set_storage (Config.saveSettings (settings h) (storage h)) h).

(** [this.settings.enabled] and [this.settings.endpoint] as conditions *)
Definition is_enabled (h : Host) : bool :=
  default false (Config.enabled (settings h)).

Definition truthy_endpoint (h : Host) : option string :=
  match Config.endpoint (settings h) with
  | Some e => if JsString.truthy e then Some e else None
  | None => None
  end.

(** [['http:', 'https:'].includes(protocol)] *)
Definition allowed_protocol (protocol : string) : bool :=
  String.eqb protocol "http:" || String.eqb protocol "https:".

(** [validateEndpoint] (lines 69-82) *)
Definition validateEndpoint (sdk : Sdk) (endpoint : string) : H bool :=
  try_catch
    (let* protocol := lift (URL_protocol sdk endpoint) in
     if negb (allowed_protocol protocol) then
       console_error (ErrorInvalidProtocol protocol) ;;;
       ret false
     else ret true)
    (fun error =>
       console_error (ErrorInvalidEndpointURL error) ;;;
       ret false).

(** The loop of [cleanup] (lines 290-296) *)
Fixpoint removeListeners (l : list (string * EventListenerRegister))
  : H unit :=
  match l with
  | [] => ret tt
  | (deviceId, listener) :: rest =>
      match removeListener_throws listener with
      | Some error => console_error (ErrorFailedToRemove deviceId error)
      | None => ret tt
      end ;;;
      removeListeners rest
  end.

(** [cleanup] (lines 288-309) up to its [await], or to its end when it does
    not reach one; the result tells whether it ran to its end. The rest, run
    when the promise of [shutdown()] has settled, is in [resume]. *)
Definition cleanup (awaited : bool) : H bool :=
  let* listeners := gets deviceListeners in
  removeListeners listeners ;;;
  modify (set_deviceListeners []) ;;;
  let* provider := gets meterProvider in
  match provider with
  | Some p =>
      match shutdown_throws p with
      | Some error =>
          console_error (ErrorFailedToShutdown error) ;;;
          modify (set_meterProvider None) ;;;
          modify (set_eventCounter None) ;;;
          ret true
      | None =>
          suspend (AfterShutdown awaited) ;;;
          ret false
      end
  | None => ret true
  end.

(** The event loop resumes the [n]-th suspended call; which one comes
    first depends on when the promises settle, so any of them may. For
    [cleanup], [settled] tells how the promise of [shutdown()] settled:
    fulfilled, or rejected with an error; when [cleanup] ends, the
    [putSetting] that awaits it becomes ready to be resumed. *)
Definition resume (n : nat) (settled : option thrown) (h : Host)
  : option Host :=
  match waiting h !! n with
  | None => None
  | Some k =>
      let h := set_waiting (delete n (waiting h)) h in
      Some
        match k with
        | AfterShutdown awaited =>
            let h :=
              match settled with
              | Some error => write (ErrorFailedToShutdown error) h
              | None => h
              end in
            let h := set_eventCounter None (set_meterProvider None h) in
            if awaited then set_waiting (waiting h ++ [AfterCleanup])%list h
            else h
        | AfterCleanup => write LogDisabled h
        end
  end.

(** [deviceState.key?.value] *)
Definition value_of (deviceState : value) (key : string) : H value :=
  let* field := lift (get_property deviceState key) in
  if is_nullish field then ret JUndefined
  else lift (get_property field "value").

(** [deviceState.interfaces?.value?.includes(name)]: arrays and strings
    have the method. *)
Definition interfaces_include (deviceState : value) (name : string)
  : H value :=
  let* interfaces := value_of deviceState "interfaces" in
  match interfaces with
  | JUndefined | JNull => ret JUndefined
  | JArr _ elems => ret (JBool (existsb (same_value_zero (JStr name)) elems))
  | JStr s => ret (JBool (JsString.includes s name))
  | _ => throw (TypeError "includes is not a function")
  end.

(** [deviceState.interfaces?.value?.join(', ')]: only arrays have the
    method; the line keeps the elements. *)
Definition interfaces_join (deviceState : value) : H (option (list value)) :=
  let* interfaces := value_of deviceState "interfaces" in
  match interfaces with
  | JUndefined | JNull => ret None
  | JArr _ elems => ret (Some elems)
  | _ => throw (TypeError "join is not a function")
  end.

(** [type === 'Camera'] *)
Definition is_camera (type : value) : bool :=
  match type with JStr s => String.eqb s "Camera" | _ => false end.

(** [Map.prototype.set] *)
Fixpoint map_set {A} (key : string) (v : A) (m : list (string * A))
  : list (string * A) :=
  match m with
  | [] => [(key, v)]
  | (k, v') :: rest =>
      if String.eqb k key then (key, v) :: rest
      else (k, v') :: map_set key v rest
  end.

(** The inner [try] of [setupDeviceListeners] (lines 262-278) *)
Definition subscribe (sdk : Sdk) (deviceId : string) (deviceState : value)
  : H unit :=
  try_catch
    (let* device := lift (getDeviceById sdk deviceId) in
     let* name := value_of deviceState "name" in
     console_log (LogSubscribing name deviceId) ;;;
     let* type := value_of deviceState "type" in
     console_log (LogType type) ;;;
     let* interfaces := interfaces_join deviceState in
     console_log (LogInterfaces interfaces) ;;;
     let* listener :=
       match device with
       | Some d => lift (listen d)
       | None => throw (TypeError "Cannot read properties of undefined")
       end in
     modify (fun h =>
               set_deviceListeners
                 (map_set deviceId listener (deviceListeners h)) h))
    (fun error => console_error (ErrorFailedToSubscribe deviceId error)).

(** The loop of [setupDeviceListeners] (lines 253-280) *)
Fixpoint forDevices (sdk : Sdk) (systemState : list (string * value))
  : H unit :=
  match systemState with
  | [] => ret tt
  | (deviceId, deviceState) :: rest =>
      let* type := value_of deviceState "type" in
      let isCamera := is_camera type in
      let* hasObjectDetector := interfaces_include deviceState "ObjectDetector" in
      let* hasMotionSensor := interfaces_include deviceState "MotionSensor" in
      (if isCamera || truthy hasObjectDetector || truthy hasMotionSensor
       then subscribe sdk deviceId deviceState
       else ret tt) ;;;
      forDevices sdk rest
  end.

(** [setupDeviceListeners] (lines 246-286) *)
Definition setupDeviceListeners (sdk : Sdk) : H unit :=
  try_catch
    (let* systemState := lift (getSystemState sdk) in
     console_log (LogFound (List.length systemState)) ;;;
     forDevices sdk systemState ;;;
     let* listeners := gets deviceListeners in
     console_log (LogSubscribed (List.length listeners)))
    (fun error => console_error (ErrorFailedToSetup error)).

(** [this.settings.exportInterval || 10000] *)
Definition exportIntervalMillis (s : Config.Settings) : JsNumber.number :=
  match Config.exportInterval s with
  | Some x => if JsNumber.truthy x then x else JsConvert.of_Z 10000
  | None => JsConvert.of_Z 10000
  end.

(** [initialize] (lines 84-150). [this.cleanup()] is called and not
    awaited: what [cleanup] has left to do runs after [initialize]. *)
Definition initialize (sdk : Sdk) : H unit :=
  let* endpoint := gets truthy_endpoint in
  match endpoint with
  | None => console_error ErrorEndpointNotConfigured
  | Some endpoint =>
      let* valid := validateEndpoint sdk endpoint in
      if negb valid then
        console_error ErrorInvalidEndpoint ;;;
        assign (set_enabled false) ;;;
        saveSettings
      else
        try_catch
          (cleanup false ;;;
           let* interval := gets (fun h => exportIntervalMillis (settings h)) in
           match create sdk endpoint interval with
           | FailedBeforeProvider error => throw error
           | FailedAfterProvider provider error =>
               modify (set_meterProvider (Some provider)) ;;;
               throw error
           | Created provider counter =>
               modify (set_meterProvider (Some provider)) ;;;
               modify (set_eventCounter (Some counter)) ;;;
               setupDeviceListeners sdk ;;;
               console_log (LogInitialized endpoint)
           end)
          (fun error =>
             console_error (ErrorFailedToInitialize error) ;;;
             assign (set_enabled false) ;;;
             saveSettings)
  end.

(** [value === true || value === 'true'] *)
Definition is_true (v : value) : bool :=
  match v with
  | JBool b => b
  | JStr s => String.eqb s "true"
  | _ => false
  end.

(** [typeof value === 'number' ? value : parseInt(value as string)] *)
Definition to_number (v : value) : JsNumber.number :=
  match v with
  | JNum x => x
  | _ => JsConvert.parseInt (to_string v)
  end.

(** [new Error(message)] *)
Definition Error (message : string) : thrown :=
  Thrown (JObj 0 [("message", JStr message)]).

(** The [switch] of [putSetting] (lines 361-382) *)
Definition update (sdk : Sdk) (key : string) (v : value) : H unit :=
  if String.eqb key "enabled" then assign (set_enabled (is_true v))
  else if String.eqb key "endpoint" then
    match v with
    | JStr endpoint =>
        if JsString.truthy endpoint then
          let* valid := validateEndpoint sdk endpoint in
          if negb valid then
            throw (Error "Invalid endpoint URL. Only http and https protocols are allowed.")
          else assign (set_endpoint endpoint)
        else ret tt
    | _ => ret tt
    end
  else if String.eqb key "eventFilter" then
    assign (set_eventFilter (or_else v (JStr "")))
  else if String.eqb key "exportInterval" then
    assign (set_exportInterval (to_number v))
  else if String.eqb key "deviceCooldown" then
    assign (set_deviceCooldown (to_number v))
  else ret tt.

(** [needsReinit] (lines 387-390) *)
Definition needsReinit (key : string) (oldEnabled : bool)
    (oldEndpoint : option string) (h : Host) : bool :=
  (is_enabled h && negb oldEnabled) ||
  (is_enabled h &&
   negb (bool_decide (Config.endpoint (settings h) = oldEndpoint))) ||
  String.eqb key "exportInterval".

(** [putSetting] (lines 355-398) up to its [await], or to its end when it
    does not reach one: a thrown error rejects the promise it returns. *)
Definition putSetting (sdk : Sdk) (key : string) (v : value) : H unit :=
  console_log (LogSetting key v) ;;;
  let* oldEnabled := gets is_enabled in
  let* oldEndpoint := gets (fun h => Config.endpoint (settings h)) in
  update sdk key v ;;;
  saveSettings ;;;
  let* reinit := gets (needsReinit key oldEnabled oldEndpoint) in
  if reinit then initialize sdk
  else
    let* enabled := gets is_enabled in
    if negb enabled && oldEnabled then
      let* completed := cleanup true in
      if completed then suspend AfterCleanup else ret tt
    else ret tt.

(** The constructor (lines 30-40), on a new instance. *)
Definition construct (sdk : Sdk) (st : gmap string string) : Host :=
  let h := {| settings := Config.loadSettings st; storage := st;
              meterProvider := None; eventCounter := None;
              deviceListeners := []; console := []; waiting := [] |} in
  if is_enabled h && bool_decide (truthy_endpoint h <> None)
  then snd (initialize sdk h) else h.

End Lifecycle.

(** ** What the lifecycle functions leave alone *)

(** [m] leaves [f] of the host as it is, however it ends. *)
Definition preserves {A T} (f : Lifecycle.Host -> T) (m : Lifecycle.H A)
  : Prop :=
  forall h, f (snd (m h)) = f h.

(** Everything but the console. *)
Definition but_console (h : Lifecycle.Host) :=
  (Lifecycle.settings h, Lifecycle.storage h, Lifecycle.meterProvider h,
   Lifecycle.eventCounter h, Lifecycle.deviceListeners h,
   Lifecycle.waiting h).

(** Everything but the console and the listeners. *)
Definition but_listeners (h : Lifecycle.Host) :=
  (Lifecycle.settings h, Lifecycle.storage h, Lifecycle.meterProvider h,
   Lifecycle.eventCounter h, Lifecycle.waiting h).

(** The settings and the storage. *)
Definition configuration (h : Lifecycle.Host) :=
  (Lifecycle.settings h, Lifecycle.storage h).

(** The storage holds the settings as [saveSettings] writes them. *)
Definition in_sync (h : Lifecycle.Host) : Prop :=
  Config.saveSettings (Lifecycle.settings h) (Lifecycle.storage h)
  = Lifecycle.storage h.

(** [validateEndpoint] accepts the endpoint. *)
Definition accepted (sdk : Lifecycle.Sdk) (endpoint : string) : Prop :=
  exists protocol,
    Lifecycle.URL_protocol sdk endpoint = inl protocol /\
    Lifecycle.allowed_protocol protocol = true.

(** The settings that only [putSetting] assigns. *)
Definition fixed_settings (h : Lifecycle.Host) :=
  (Config.endpoint (Lifecycle.settings h),
   Config.eventFilter (Lifecycle.settings h),
   Config.exportInterval (Lifecycle.settings h),
   Config.deviceCooldown (Lifecycle.settings h)).

(** The call does not end by throwing. *)
Definition no_throw {A} (m : Lifecycle.H A) : Prop :=
  forall h e, fst (m h) <> Threw e.

(** The lines that removing the listeners writes: one for each
    [removeListener] that throws. *)
Fixpoint remove_errors (l : list (string * Lifecycle.EventListenerRegister))
  : list Lifecycle.Line :=
  match l with
  | [] => []
  | (deviceId, listener) :: rest =>
      match Lifecycle.removeListener_throws listener with
      | Some error =>
          Lifecycle.ErrorFailedToRemove deviceId error :: remove_errors rest
      | None => remove_errors rest
      end
  end.

Definition write_all (lines : list Lifecycle.Line) (h : Lifecycle.Host)
  : Lifecycle.Host :=
  fold_left (fun h l => Lifecycle.write l h) lines h.

(** The host once [cleanup] has removed and forgotten the listeners. *)
Definition unsubscribed (h : Lifecycle.Host) : Lifecycle.Host :=
  Lifecycle.set_deviceListeners []
    (write_all (remove_errors (Lifecycle.deviceListeners h)) h).

(** [deviceState.key?.value] of a device state that is an object. *)
Definition field_value (deviceState : value) (key : string) : value :=
  let field := property_of deviceState key in
  if is_nullish field then JUndefined else property_of field "value".

(** A device state as the system manager has them: an object whose
    [interfaces], when there are any, are an array. *)
Definition device_state_ok (deviceState : value) : Prop :=
  is_nullish deviceState = false /\
  match field_value deviceState "interfaces" with
  | JUndefined | JNull | JArr _ _ => True
  | _ => False
  end.

Definition has_interface (deviceState : value) (name : string) : bool :=
  match field_value deviceState "interfaces" with
  | JArr _ elems => existsb (same_value_zero (JStr name)) elems
  | _ => false
  end.

(** The devices [setupDeviceListeners] subscribes to: cameras, object
    detectors and motion sensors. *)
Definition wanted (deviceState : value) : bool :=
  Lifecycle.is_camera (field_value deviceState "type") ||
  has_interface deviceState "ObjectDetector" ||
  has_interface deviceState "MotionSensor".

(** The listener [getDeviceById(deviceId).listen(...)] returns, if it
    does. *)
Definition listener_of (sdk : Lifecycle.Sdk) (deviceId : string)
  : option Lifecycle.EventListenerRegister :=
  match Lifecycle.getDeviceById sdk deviceId with
  | inl (Some device) =>
      match Lifecycle.listen device with
      | inl listener => Some listener
      | inr _ => None
      end
  | _ => None
  end.

Fixpoint subscriptions (sdk : Lifecycle.Sdk)
    (systemState : list (string * value))
  : list (string * Lifecycle.EventListenerRegister) :=
  match systemState with
  | [] => []
  | (deviceId, deviceState) :: rest =>
      if wanted deviceState then
        match listener_of sdk deviceId with
        | Some listener => (deviceId, listener) :: subscriptions sdk rest
        | None => subscriptions sdk rest
        end
      else subscriptions sdk rest
  end.

(** [Map.prototype.set], entry after entry. *)
Definition set_all (m l : list (string * Lifecycle.EventListenerRegister)) :=
  fold_left
    (fun m '(deviceId, listener) => Lifecycle.map_set deviceId listener m)
    l m.

(** Collaborators and a host to run the lifecycle functions on. *)
Module Setup.

Definition listener (n : nat) : Lifecycle.EventListenerRegister :=
  {| Lifecycle.listener_id := n; Lifecycle.removeListener_throws := None |}.

Definition state (type : string) (interfaces : list string) : value :=
  JObj 0 [("type", JObj 0 [("value", JStr type)]);
          ("interfaces", JObj 0 [("value", JArr 0 (List.map JStr interfaces))])].

(** A camera, a light, and a motion sensor that cannot be found. *)
Definition systemState : list (string * value) :=
  [("12", state "Camera" ["VideoCamera"; "ObjectDetector"]);
   ("15", state "Light" ["OnOff"]);
   ("31", state "Sensor" ["MotionSensor"])].

Definition sdk : Lifecycle.Sdk :=
  {| Lifecycle.URL_protocol := fun endpoint =>
       if String.prefix "http://" endpoint then inl "http:"
       else if String.prefix "ftp://" endpoint then inl "ftp:"
       else inr (TypeError "Invalid URL");
     Lifecycle.create := fun _ _ =>
       Lifecycle.Created
         {| Lifecycle.provider_id := 2; Lifecycle.shutdown_throws := None |}
         Examples.okCounter;
     Lifecycle.getSystemState := inl systemState;
     Lifecycle.getDeviceById := fun deviceId =>
       if String.eqb deviceId "12"
       then inl (Some {| Lifecycle.listen := inl (listener 1) |})
       else inl None |}.

(** A plugin that is running: enabled, with its provider, its counter and
    a listener. *)
Definition running : Lifecycle.Host :=
  {| Lifecycle.settings :=
       {| Config.endpoint := Some "http://collector:4318/v1/metrics";
          Config.enabled := Some true;
          Config.eventFilter := JStr "motion";
          Config.exportInterval := Some (JsConvert.of_Z 10000);
          Config.deviceCooldown := Some (JsConvert.of_Z 10) |};
     Lifecycle.storage := ∅;
     Lifecycle.meterProvider :=
       Some {| Lifecycle.provider_id := 1;
               Lifecycle.shutdown_throws := None |};
     Lifecycle.eventCounter := Some Examples.okCounter;
     Lifecycle.deviceListeners := [("12", listener 0)];
     Lifecycle.console := [];
     Lifecycle.waiting := [] |}.

End Setup.

(** A counter whose [add] returns once and throws from then on: a sink
    that fails after its first record. *)
Definition failsAfterFirst : Counter :=
  {| add_throws := fun calls _ _ =>
       match calls with
       | [] => None
       | _ :: _ => Some (Thrown (JStr "export failed"))
       end |}.

(** * Facts *)

Local Open Scope list_scope.

(** ** The embedding on concrete inputs *)

Example filters_of_trims_and_drops_empty :
  filters_of "motion, Clip ,,plate " = ["motion"; "Clip"; "plate"].
Proof. reflexivity. Qed.

Example filters_of_blank : filters_of " , " = [].
Proof. reflexivity. Qed.

Example matches_is_case_insensitive :
  matches ["Motion"] "my_MOTION_zone" = true /\ matches ["motion"] "person" = false.
Proof. split; reflexivity. Qed.

Example toFixed2_rounds :
  List.map JsNumber.toFixed2
    [JsNumber.d0_92; JsNumber.d1; JsNumber.d0_005; JsNumber.zero;
     S754_finite true 1 (-1074)]
  = ["0.92"; "1.00"; "0.01"; "0.00"; "-0.00"].
Proof. vm_compute. reflexivity. Qed.

(** Outside the fixed-point range [toFixed] has no two decimals. *)
Example toFixed2_large :
  JsNumber.toFixed2 JsNumber.d1e21 = "1e+21" /\
  JsNumber.toFixed2 (S754_infinity false) = "Infinity".
Proof. split; vm_compute; reflexivity. Qed.

(** Scenario 1: "motion" is filtered, "person" is emitted. *)
Example scenario_1 :
  let p := Examples.plugin "motion" Examples.okCounter ∅ in
  let r := handleEvent (Some Examples.camera) Examples.details Examples.s1 5000 p in
  fst r = Done tt /\
  List.map call_attributes (counterCalls (snd r)) =
    [[("scrypted.device.id", JStr "d1");
      ("scrypted.device.name", JStr "Front Door Camera");
      ("scrypted.device.type", JStr "Camera");
      ("scrypted.detection.class", JStr "person");
      ("scrypted.detection.score", JStr "0.92");
      ("scrypted.detection.id", JStr "s1")]] /\
  lastEmissionTime (snd r) !! "d1" = Some 5000.
Proof. vm_compute. auto. Qed.

(** Scenario 2: three vehicles, one metric, the first score. *)
Example scenario_2 :
  let p := Examples.plugin "" Examples.okCounter ∅ in
  let r := handleEvent (Some Examples.camera) Examples.details Examples.s2 5000 p in
  List.map (fun c => (class_of_call c, score_of_call c)) (counterCalls (snd r))
  = [(JStr "vehicle", JStr "0.83")] /\
  console (snd r) =
    [LogDetectionEvent; LogDevice (Some "Front Door Camera") "d1";
     LogDetectionId (JStr "s2"); LogTimestamp (JNum JsNumber.d1);
     LogDetections 3;
     LogDetection (JStr "vehicle") "0.83"; LogMetricEmitted (JStr "vehicle");
     LogDetection (JStr "vehicle") "0.89"; LogSkippedDuplicate (JStr "vehicle");
     LogDetection (JStr "vehicle") "0.94"; LogSkippedDuplicate (JStr "vehicle");
     LogEnd].
Proof. vm_compute. auto. Qed.

(** Scenario 3: seven seconds into a ten-second cooldown. *)
Example scenario_3 :
  let p := Examples.plugin "" Examples.okCounter {[ "d1" := 1000000 ]} in
  handleEvent (Some Examples.camera) Examples.details Examples.s2 1007000 p
  = (Returned, write_console (LogCooldown (Some "Front Door Camera") 3) p).
Proof. vm_compute. reflexivity. Qed.

(** Scenario 5: an empty detections array. *)
Example scenario_5 :
  let p := Examples.plugin "" Examples.okCounter ∅ in
  let r := handleEvent (Some Examples.camera) Examples.details
             (Examples.session "s5" []) 5000 p in
  counterCalls (snd r) = [] /\ lastEmissionTime (snd r) = ∅.
Proof. vm_compute. auto. Qed.

(** A malformed later detection aborts the session after a metric was
    emitted: the error is logged and the cooldown entry is not written. *)
Example throw_after_emission :
  let p := Examples.plugin "" Examples.okCounter ∅ in
  let r := handleEvent (Some Examples.camera) Examples.details
             (Examples.session "s6"
                [Examples.detection "person" JsNumber.d0_92; JNull]) 5000 p in
  fst r = Done tt /\
  List.map class_of_call (counterCalls (snd r)) = [JStr "person"] /\
  last (console (snd r)) =
    Some (ErrorFailedToHandleEvent (TypeError "Cannot read properties of null")) /\
  lastEmissionTime (snd r) = ∅.
Proof. vm_compute. auto. Qed.

(** ** The class filter *)

Lemma some_string filters s p :
  some filters (fun filter =>
      let* lower := toLowerCase (JStr s) in
      ret (JsString.includes lower (JsString.toLowerCase filter))) p
  = (Done (matches filters s), p).
Proof.
  induction filters as [|f fs IH]; [reflexivity|].
  cbn [some matches existsb]. unfold bind at 1. cbn.
  destruct (JsString.includes _ _); [reflexivity|exact IH].
Qed.

Lemma shouldSkip_eq className p :
  shouldSkip className p
  = (shouldSkip_result (denylist (settings p)) className, p).
Proof.
  unfold shouldSkip, denylist, bind, gets.
  destruct (eventFilter (settings p)) as [f|]; [|reflexivity].
  destruct (JsString.truthy f); [|reflexivity].
  destruct (filters_of f) as [|f1 fs] eqn:E; [reflexivity|].
  destruct className; try reflexivity.
  apply some_string.
Qed.

Lemma shouldSkip_result_skipped filters className :
  is_string className = true ->
  shouldSkip_result filters className = Done (skipped filters className).
Proof.
  destruct className; try discriminate. intros _.
  destruct filters; reflexivity.
Qed.

(** ** One turn of the loop *)

Lemma forDetections_cons src dev did d rest me seen p :
  forDetections src dev did (d :: rest) me seen p =
  match get_property d "className" with
  | inr e => (Threw e, p)
  | inl _ =>
      match score_of d with
      | JNum x =>
          let c := className_of d in
          let shown := JsNumber.toFixed2 x in
          let p1 := write_console (LogDetection c shown) p in
          match shouldSkip_result (denylist (settings p)) c with
          | Threw e => (Threw e, p1)
          | Returned => (Returned, p1)
          | Done true =>
              forDetections src dev did rest me seen
                (write_console (LogFilteredOut c) p1)
          | Done false =>
              if JsSet.has seen c then
                forDetections src dev did rest me seen
                  (write_console (LogSkippedDuplicate c) p1)
              else
                match eventCounter p with
                | None =>
                    (Threw (TypeError "Cannot read properties of undefined"), p1)
                | Some ctr =>
                    let a := attributes_of src dev c shown did in
                    match add_throws ctr (counterCalls p) 1 a with
                    | Some e =>
                        (Threw e,
                         record_call {| call_value := 1; call_attributes := a;
                                        call_thrown := Some e |} p1)
                    | None =>
                        forDetections src dev did rest true (JsSet.add seen c)
                          (write_console (LogMetricEmitted c)
                             (record_call {| call_value := 1;
                                             call_attributes := a;
                                             call_thrown := None |} p1))
                    end
                end
          end
      | _ => (Threw (TypeError "score.toFixed is not a function"), p)
      end
  end.
Proof.
  cbn [forDetections]. unfold bind at 1.
  assert (Hs : forall k : value -> M bool,
             bind (lift (get_property d "score")) k p =
             match get_property d "className" with
             | inr e => (Threw e, p)
             | inl _ => k (property_of d "score") p
             end).
  { intros k. unfold bind, lift, property_of.
    destruct d; reflexivity. }
  unfold className_of at 1, score_of, property_of at 1.
  destruct (get_property d "className") as [c|e] eqn:Ec; cbn [lift ret throw];
    [|reflexivity].
  rewrite Hs.
  unfold className_of, property_of. rewrite Ec.
  set (sc := or_else _ (JNum JsNumber.zero)).
  destruct sc as [| |b|x|s|a l|a l]; try reflexivity.
  unfold bind at 1. cbn [toFixed_2 ret].
  unfold bind at 1. cbn [console_log].
  unfold bind at 1. rewrite shouldSkip_eq. cbn [settings write_console].
  destruct (shouldSkip_result _ _) as [[|]| |e]; try reflexivity.
  destruct (JsSet.has seen _); [reflexivity|].
  unfold bind at 1. cbn [toFixed_2 ret].
  unfold bind at 1. unfold eventCounter_add. cbn [eventCounter write_console counterCalls].
  destruct (eventCounter p) as [ctr|]; [|reflexivity].
  destruct (add_throws ctr _ _ _); reflexivity.
Qed.

(** ** Writes only extend the console and the call record *)

Lemma extends_refl p : extends p p [] [].
Proof. unfold extends. rewrite !app_nil_r. auto. Qed.

Lemma extends_write_console l p : extends p (write_console l p) [l] [].
Proof. unfold extends. cbn. rewrite app_nil_r. auto. Qed.

Lemma extends_record_call c p : extends p (record_call c p) [] [c].
Proof. unfold extends. cbn. rewrite app_nil_r. auto. Qed.

Lemma extends_trans p1 p2 p3 l1 l2 c1 c2 :
  extends p1 p2 l1 c1 -> extends p2 p3 l2 c2 ->
  extends p1 p3 (l1 ++ l2) (c1 ++ c2).
Proof.
  unfold extends. intros (Hs1 & He1 & Ht1 & Hl1 & Hc1) (Hs2 & He2 & Ht2 & Hl2 & Hc2).
  rewrite Hs2, He2, Ht2, Hl2, Hc2, Hl1, Hc1, !app_assoc. auto.
Qed.

Lemma call_from_cons src dev did filters d ds c :
  call_from src dev did filters ds c ->
  call_from src dev did filters (d :: ds) c.
Proof.
  intros (Hv & d' & x & Hin & Hx & Ha & Hf).
  split; [exact Hv|]. exists d', x.
  split; [now right|split; [exact Hx|split; [exact Ha|exact Hf]]].
Qed.

Lemma loop_outcome_emit me o c calls :
  call_thrown c = None ->
  loop_outcome true o calls -> loop_outcome me o ([c] ++ calls).
Proof.
  intros Hc. destruct o as [b| |e]; cbn; [| auto |].
  - intros [Hall ->]. split; [constructor; assumption|].
    now rewrite orb_true_r.
  - intros [Hall | (ok & c' & -> & Hall & Hc')].
    + left. constructor; assumption.
    + right. exists (c :: ok), c'.
      split; [reflexivity|split; [constructor; assumption|assumption]].
Qed.

(** Whatever the payload and the counter, the loop leaves settings, counter
    and cooldown map alone, and every call it makes is an increment for a
    detection the filter let through. *)
Lemma forDetections_post src dev did ds : forall me seen p o p',
  forDetections src dev did ds me seen p = (o, p') ->
  exists lines calls,
    extends p p' lines calls /\
    Forall (call_from src dev did (denylist (settings p)) ds) calls /\
    loop_outcome me o calls.
Proof.
  induction ds as [|d rest IH]; intros me seen p o p' H.
  - injection H as <- <-. exists [], [].
    split; [apply extends_refl|split; [constructor|]].
    cbn. now rewrite orb_false_r.
  - rewrite forDetections_cons in H.
    destruct (get_property d "className") as [c0|e0] eqn:Ec.
    2:{ injection H as <- <-. exists [], [].
        split; [apply extends_refl|split; [constructor|]].
        left. constructor. }
    destruct (score_of d) as [| |b|x|s|a l|a l] eqn:Ex;
      try (injection H as <- <-; exists [], [];
           split; [apply extends_refl|split; [constructor|]];
           left; constructor).
    cbv zeta in H.
    set (c := className_of d) in *.
    set (l0 := LogDetection c (JsNumber.toFixed2 x)) in *.
    destruct (shouldSkip_result (denylist (settings p)) c) as [[|]| |e] eqn:Ef.
    + apply IH in H as (lines & calls & Hext & Hcalls & Hout).
      exists ([l0] ++ [LogFilteredOut c] ++ lines), ([] ++ [] ++ calls).
      split; [|split].
      * eapply extends_trans; [apply extends_write_console|].
        eapply extends_trans; [apply extends_write_console|exact Hext].
      * cbn. eapply Forall_impl; [exact Hcalls|].
        intros ? ?. now apply call_from_cons.
      * exact Hout.
    + destruct (JsSet.has seen c).
      * apply IH in H as (lines & calls & Hext & Hcalls & Hout).
        exists ([l0] ++ [LogSkippedDuplicate c] ++ lines), ([] ++ [] ++ calls).
        split; [|split].
        -- eapply extends_trans; [apply extends_write_console|].
           eapply extends_trans; [apply extends_write_console|exact Hext].
        -- cbn. eapply Forall_impl; [exact Hcalls|].
           intros ? ?. now apply call_from_cons.
        -- exact Hout.
      * destruct (eventCounter p) as [ctr|].
        2:{ injection H as <- <-. exists [l0], [].
            split; [apply extends_write_console|split; [constructor|]].
            left. constructor. }
        set (a := attributes_of src dev c (JsNumber.toFixed2 x) did) in *.
        assert (Hfrom : forall r,
          call_from src dev did (denylist (settings p)) (d :: rest)
            {| call_value := 1; call_attributes := a; call_thrown := r |}).
        { intros r. split; [reflexivity|]. exists d, x.
          split; [now left|split; [exact Ex|split; [reflexivity|exact Ef]]]. }
        destruct (add_throws ctr (counterCalls p) 1 a) as [e|].
        -- injection H as <- <-.
           eexists ([l0] ++ []), ([] ++ [_]). split; [|split].
           ++ eapply extends_trans; [apply extends_write_console|].
              apply extends_record_call.
           ++ constructor; [apply Hfrom|constructor].
           ++ right. eexists [], _.
              split; [reflexivity|split; [constructor|reflexivity]].
        -- apply IH in H as (lines & calls & Hext & Hcalls & Hout).
           eexists ([l0] ++ [] ++ [LogMetricEmitted c] ++ lines),
                   ([] ++ [_] ++ [] ++ calls).
           split; [|split].
           ++ eapply extends_trans; [apply extends_write_console|].
              eapply extends_trans; [apply extends_record_call|].
              eapply extends_trans; [apply extends_write_console|exact Hext].
           ++ cbn. constructor; [apply Hfrom|].
              eapply Forall_impl; [exact Hcalls|].
              intros ? ?. now apply call_from_cons.
           ++ cbn [app]. apply (loop_outcome_emit me o _ calls); [reflexivity|].
              exact Hout.
    + exfalso. unfold shouldSkip_result in Ef.
      destruct (denylist (settings p)); [discriminate|].
      destruct c; discriminate.
    + injection H as <- <-. exists [l0], [].
      split; [apply extends_write_console|split; [constructor|]].
      left. constructor.
Qed.

(** ** The handler, case by case *)

Lemma handleEvent_try_eq eventSource eventDetails eventData now p :
  handleEvent_try eventSource eventDetails eventData now p =
  match eventSource with
  | None => (Returned, p)
  | Some src =>
  match ScryptedDevice.id src with
  | None => (Returned, p)
  | Some dev =>
      if negb (JsString.truthy dev) then (Returned, p) else
      match get_property eventData "detectionId" with
      | inr e => (Threw e, p)
      | inl did =>
          if negb (truthy did) then (Returned, p) else
          if inCooldown (lastEmissionTime p !! dev) now (cooldownMs (settings p))
          then (Returned,
                write_console
                  (LogCooldown (ScryptedDevice.name src) (timeRemaining p dev now))
                  p)
          else
            let p1 := session_header src dev did eventData p in
            match property_of eventData "detections" with
            | JArr _ elems =>
                match forDetections src dev did elems false JsSet.empty
                        (write_console (LogDetections (List.length elems)) p1)
                with
                | (Done b, p2) =>
                    (Done tt,
                     write_console LogEnd
                       (if b then set_lastEmissionTime dev now p2 else p2))
                | (Returned, p2) => (Returned, p2)
                | (Threw e, p2) => (Threw e, p2)
                end
            | _ => (Done tt, write_console LogEnd p1)
            end
      end
  end
  end.
Proof.
  unfold handleEvent_try.
  destruct eventSource as [src|]; [|reflexivity].
  destruct (ScryptedDevice.id src) as [dev|]; [|reflexivity].
  unfold bind at 1. destruct (JsString.truthy dev); [|reflexivity].
  cbn [negb when_ ret].
  assert (Hp : forall key, get_property eventData key =
                 match get_property eventData "detectionId" with
                 | inr e => inr e
                 | inl _ => inl (property_of eventData key)
                 end).
  { intros key. unfold property_of. destruct eventData; reflexivity. }
  unfold bind at 1.
  destruct (get_property eventData "detectionId") as [did|e] eqn:Ed;
    [|reflexivity].
  cbn [lift ret]. unfold bind at 1.
  destruct (truthy did); [|reflexivity].
  cbn [negb when_ ret].
  unfold bind at 1. cbn [gets]. unfold bind at 1. cbn [gets].
  unfold bind at 1. unfold timeRemaining.
  destruct (inCooldown _ _ _); [reflexivity|].
  cbn [when_ ret].
  do 3 (unfold bind at 1; cbn [console_log]).
  rewrite !Hp. cbn [lift ret].
  unfold bind at 1. cbn [ret]. unfold bind at 1. cbn [console_log].
  unfold bind at 1. cbn [ret]. unfold bind at 1.
  unfold session_header.
  destruct (property_of eventData "detections") as [| |b|x|s|a elems|a l];
    try reflexivity.
  unfold bind at 1. cbn [console_log].
  destruct (forDetections _ _ _ _ _ _ _) as [[[|]| |e] p2]; reflexivity.
Qed.

Lemma handleEvent_catch eventSource eventDetails eventData now p :
  handleEvent eventSource eventDetails eventData now p =
  if disabled p then (Returned, p) else
  match handleEvent_try eventSource eventDetails eventData now p with
  | (Threw e, p') => (Done tt, write_console (ErrorFailedToHandleEvent e) p')
  | r => r
  end.
Proof.
  unfold handleEvent, try_catch. destruct (disabled p); [reflexivity|].
  destruct (handleEvent_try _ _ _ _ _) as [[[]| |e] p']; reflexivity.
Qed.

(** ** What handling an event does to the plugin *)

Lemma extends_becomes p p' lines calls :
  extends p p' lines calls <-> becomes p p' lines calls (lastEmissionTime p).
Proof. reflexivity. Qed.

Lemma becomes_write_console p p' lines calls times l :
  becomes p p' lines calls times ->
  becomes p (write_console l p') (lines ++ [l]) calls times.
Proof.
  intros (Hs & He & Ht & Hl & Hc). unfold becomes. cbn.
  rewrite Hl, app_assoc. auto.
Qed.

Lemma becomes_set_lastEmissionTime p p' lines calls times dev now :
  becomes p p' lines calls times ->
  becomes p (set_lastEmissionTime dev now p') lines calls (<[dev:=now]> times).
Proof.
  intros (Hs & He & Ht & Hl & Hc). unfold becomes. cbn.
  rewrite Ht. auto.
Qed.

Lemma extends_session_header src dev did results p :
  extends p (session_header src dev did results p)
    [LogDetectionEvent; LogDevice (ScryptedDevice.name src) dev;
     LogDetectionId did; LogTimestamp (property_of results "timestamp")] [].
Proof.
  unfold extends, session_header. cbn. rewrite <- !app_assoc. cbn.
  rewrite app_nil_r. auto.
Qed.

Lemma nonempty_false {A} (l : list A) : nonempty l = false -> l = [].
Proof. destruct l; [reflexivity|discriminate]. Qed.

Lemma nonempty_true {A} (l : list A) : nonempty l = true -> l <> [].
Proof. destruct l; [discriminate|intros _; discriminate]. Qed.

Ltac untouched :=
  intros [= <- <-]; exists [], []; left;
  split; [apply extends_becomes, extends_refl|reflexivity].

(** Either the event leaves counter and cooldown map untouched, or it is a
    session that passed the gate and made calls: then the map is updated
    exactly when the [try] block ran to its end. *)
Lemma handleEvent_try_post eventSource eventDetails eventData now p o p' :
  handleEvent_try eventSource eventDetails eventData now p = (o, p') ->
  exists lines calls,
    (becomes p p' lines calls (lastEmissionTime p) /\ calls = [])
    \/ exists src dev did a elems,
         eventSource = Some src /\ ScryptedDevice.id src = Some dev /\
         get_property eventData "detectionId" = inl did /\
         truthy did = true /\
         property_of eventData "detections" = JArr a elems /\
         inCooldown (lastEmissionTime p !! dev) now (cooldownMs (settings p))
           = false /\
         Forall (call_from src dev did (denylist (settings p)) elems) calls /\
         calls <> [] /\
         ((o = Done tt /\ Forall call_returned calls /\
           becomes p p' lines calls (<[dev:=now]> (lastEmissionTime p)))
          \/ exists e, o = Threw e /\ loop_outcome false (Threw e) calls /\
                       becomes p p' lines calls (lastEmissionTime p)).
Proof.
  rewrite handleEvent_try_eq.
  destruct eventSource as [src|]; [|untouched].
  destruct (ScryptedDevice.id src) as [dev|] eqn:Edev; [|untouched].
  destruct (negb (JsString.truthy dev)); [untouched|].
  destruct (get_property eventData "detectionId") as [did|e] eqn:Edid;
    [|untouched].
  destruct (truthy did) eqn:Etruthy; [|untouched]. cbn [negb].
  destruct (inCooldown _ _ _) eqn:Ecool.
  { intros [= <- <-]. eexists [_], []. left. split; [|reflexivity].
    apply extends_becomes, extends_write_console. }
  cbv zeta.
  pose proof (extends_session_header src dev did eventData p) as Hhdr.
  set (p1 := session_header src dev did eventData p) in *.
  destruct (property_of eventData "detections") as [| |b|x|s|a elems|a l] eqn:Edets;
    try (intros [= <- <-]; eexists _, []; left; split; [|reflexivity];
         apply becomes_write_console; apply extends_becomes; exact Hhdr).
  destruct (forDetections _ _ _ _ _ _ _) as [o2 p2] eqn:Eloop.
  apply forDetections_post in Eloop as (lines & calls & Hext & Hcalls & Hout).
  pose proof (extends_trans _ _ _ _ _ _ _ Hhdr
                (extends_trans _ _ _ _ _ _ _
                   (extends_write_console _ _) Hext)) as Hp2.
  cbn [app] in Hp2.
  destruct o2 as [b| |e]; [|destruct Hout|].
  - destruct Hout as [Hret ->]. cbn [orb].
    intros [= <- <-]. eexists _, calls.
    destruct (nonempty calls) eqn:Ene.
    + right. exists src, dev, did, a, elems.
      do 6 (split; [assumption || reflexivity|]).
      split; [exact Hcalls|]. split; [now apply nonempty_true|].
      left. split; [reflexivity|]. split; [exact Hret|].
      apply becomes_write_console, becomes_set_lastEmissionTime.
      apply extends_becomes, Hp2.
    + left. split; [|now apply nonempty_false].
      apply becomes_write_console, extends_becomes, Hp2.
  - intros [= <- <-]. eexists _, calls.
    destruct (nonempty calls) eqn:Ene.
    + right. exists src, dev, did, a, elems.
      do 6 (split; [assumption || reflexivity|]).
      split; [exact Hcalls|]. split; [now apply nonempty_true|].
      right. exists e. split; [reflexivity|]. split; [exact Hout|].
      apply extends_becomes, Hp2.
    + left. split; [|now apply nonempty_false].
      apply extends_becomes, Hp2.
Qed.

Lemma becomes_new_calls p p' lines calls times :
  becomes p p' lines calls times -> new_calls p p' = calls.
Proof.
  intros (_ & _ & _ & _ & Hc). unfold new_calls. rewrite Hc.
  apply drop_app_length.
Qed.

Lemma becomes_times p p' lines calls times :
  becomes p p' lines calls times -> lastEmissionTime p' = times.
Proof. now intros (_ & _ & Ht & _). Qed.

Lemma filter_returned_all calls :
  Forall call_returned calls -> List.filter returned calls = calls.
Proof.
  induction 1 as [|c calls Hc _ IH]; [reflexivity|].
  cbn [List.filter]. unfold returned at 1. rewrite Hc. now f_equal.
Qed.

Lemma filter_returned_last ok c e :
  Forall call_returned ok -> call_thrown c = Some e ->
  List.filter returned (ok ++ [c]) = ok.
Proof.
  intros Hok Hc. rewrite List.filter_app, filter_returned_all by assumption.
  cbn [List.filter]. unfold returned at 1. rewrite Hc. apply app_nil_r.
Qed.

(** The handler as a whole: the three ways an event can end. *)
Lemma handleEvent_cases eventSource eventDetails eventData now p :
  let try := handleEvent_try eventSource eventDetails eventData now p in
  let r := handleEvent eventSource eventDetails eventData now p in
  exists lines calls,
    (becomes p (snd r) lines calls (lastEmissionTime p) /\ calls = [])
    \/ exists src dev did a elems,
         disabled p = false /\
         eventSource = Some src /\ ScryptedDevice.id src = Some dev /\
         get_property eventData "detectionId" = inl did /\
         truthy did = true /\
         property_of eventData "detections" = JArr a elems /\
         inCooldown (lastEmissionTime p !! dev) now (cooldownMs (settings p))
           = false /\
         Forall (call_from src dev did (denylist (settings p)) elems) calls /\
         calls <> [] /\
         ((fst try = Done tt /\ fst r = Done tt /\
           Forall call_returned calls /\
           becomes p (snd r) lines calls (<[dev:=now]> (lastEmissionTime p)))
          \/ exists e,
               fst try = Threw e /\ fst r = Done tt /\
               loop_outcome false (Threw e) calls /\
               last lines = Some (ErrorFailedToHandleEvent e) /\
               becomes p (snd r) lines calls (lastEmissionTime p)).
Proof.
  intros try r. subst r. rewrite handleEvent_catch.
  destruct (disabled p) eqn:Hdis.
  { exists [], []. left. split; [|reflexivity].
    apply extends_becomes, extends_refl. }
  subst try.
  destruct (handleEvent_try _ _ _ _ _) as [o p'] eqn:Etry.
  apply handleEvent_try_post in Etry
    as (lines & calls & [[Hb ->] | (src & dev & did & a & elems & H)]).
  - destruct o as [[]| |e]; cbn [snd].
    + exists lines, []. now left.
    + exists lines, []. now left.
    + exists (lines ++ [ErrorFailedToHandleEvent e]), []. left.
      split; [|reflexivity]. now apply becomes_write_console.
  - destruct H as (-> & Hdev & Hdid & Htr & Hdets & Hcool & Hfrom & Hne & H).
    destruct H as [(-> & Hret & Hb) | (e & -> & Hout & Hb)]; cbn [fst snd].
    + exists lines, calls. right. exists src, dev, did, a, elems.
      do 9 (split; [assumption || reflexivity|]). left. auto.
    + exists (lines ++ [ErrorFailedToHandleEvent e]), calls. right.
      exists src, dev, did, a, elems.
      do 9 (split; [assumption || reflexivity|]). right. exists e.
      do 3 (split; [assumption || reflexivity|]).
      split; [apply last_snoc|]. now apply becomes_write_console.
Qed.

(** * The claims *)

(** C8: whatever the payload, no exception escapes [handleEvent]. The
    handler either returns early or runs to its end; when the [try] block
    throws, the error is written to the console as a diagnostic, the
    handler completes normally and the cooldown map is as it was. *)
Theorem handleEvent_never_throws eventSource eventDetails eventData now p :
  let r := handleEvent eventSource eventDetails eventData now p in
  (fst r = Done tt \/ fst r = Returned) /\
  (forall e, fst r <> Threw e) /\
  (forall e p1,
      disabled p = false ->
      handleEvent_try eventSource eventDetails eventData now p = (Threw e, p1) ->
      r = (Done tt, write_console (ErrorFailedToHandleEvent e) p1) /\
      last (console (snd r)) = Some (ErrorFailedToHandleEvent e) /\
      lastEmissionTime (snd r) = lastEmissionTime p).
Proof.
  intros r. subst r. rewrite handleEvent_catch.
  destruct (disabled p).
  { split; [now right|]. split; [discriminate|]. discriminate. }
  destruct (handleEvent_try _ _ _ _ _) as [o p'] eqn:Etry.
  split; [|split].
  - destruct o as [[]| |e]; cbn; auto.
  - destruct o as [[]| |e]; cbn; discriminate.
  - intros e p1 _ [= -> ->]. split; [reflexivity|]. cbn [snd write_console console].
    split; [apply last_snoc|]. cbn [lastEmissionTime].
    apply handleEvent_try_post in Etry
      as (lines & calls & [[Hb _] | (src & dev & did & a & elems & H)]).
    + now apply becomes_times in Hb.
    + destruct H as (_ & _ & _ & _ & _ & _ & _ & _ & H).
      destruct H as [(Hd & _) | (e' & _ & _ & Hb)]; [discriminate|].
      now apply becomes_times in Hb.
Qed.

Lemma handleEvent_never_throws_witness :
  let p := Examples.plugin "" Examples.okCounter ∅ in
  let r := handleEvent (Some Examples.camera) Examples.details JNull 5000 p in
  fst r = Done tt /\
  last (console (snd r)) =
    Some (ErrorFailedToHandleEvent (TypeError "Cannot read properties of null")) /\
  lastEmissionTime (snd r) = lastEmissionTime p.
Proof.
  intros p r.
  destruct (handleEvent_never_throws (Some Examples.camera) Examples.details
              JNull 5000 p) as (_ & _ & H).
  destruct (H (TypeError "Cannot read properties of null") p) as (Hr & Hl & Ht);
    [reflexivity|reflexivity|].
  split; [|split]; [|exact Hl|exact Ht].
  subst r. now rewrite Hr.
Defined.

(** C6: an event whose payload has no session identifier, [detectionId]
    absent or falsy, is dropped before anything else happens: the handler
    returns, and the plugin (counter calls, cooldown map, console) is
    exactly as before. *)
Theorem no_detectionId_dropped eventSource eventDetails eventData now p
    detectionId :
  get_property eventData "detectionId" = inl detectionId ->
  truthy detectionId = false ->
  handleEvent eventSource eventDetails eventData now p = (Returned, p).
Proof.
  intros Hget Hfalsy. rewrite handleEvent_catch, handleEvent_try_eq.
  destruct (disabled p); [reflexivity|].
  destruct eventSource as [src|]; [|reflexivity].
  destruct (ScryptedDevice.id src) as [dev|]; [|reflexivity].
  destruct (negb (JsString.truthy dev)); [reflexivity|].
  rewrite Hget, Hfalsy. reflexivity.
Qed.

Lemma no_detectionId_dropped_witness :
  let p := Examples.plugin "" Examples.okCounter ∅ in
  handleEvent (Some Examples.camera) Examples.details Examples.s4 5000 p
  = (Returned, p).
Proof.
  intros p.
  apply (no_detectionId_dropped (Some Examples.camera) Examples.details
           Examples.s4 5000 p JUndefined); reflexivity.
Defined.

(** Where the cooldown map is written: a session from which no metric is
    emitted (every detection filtered, no detections, no detections array)
    leaves the map as it was, no entry created or updated; and when
    handling runs to its end without an exception, the device's entry is set
    to [now] exactly when a metric was emitted. *)
Theorem cooldown_updated_iff_emitted eventSource eventDetails eventData now p :
  let p' := snd (handleEvent eventSource eventDetails eventData now p) in
  (emitted p p' = [] -> lastEmissionTime p' = lastEmissionTime p) /\
  ((forall e,
       fst (handleEvent_try eventSource eventDetails eventData now p)
       <> Threw e) ->
   emitted p p' <> [] ->
   exists src dev,
     eventSource = Some src /\ ScryptedDevice.id src = Some dev /\
     lastEmissionTime p' = <[dev := now]> (lastEmissionTime p)).
Proof.
  intros p'. subst p'.
  destruct (handleEvent_cases eventSource eventDetails eventData now p)
    as (lines & calls & [[Hb ->] | (src & dev & did & a & elems & H)]).
  - split.
    + intros _. now apply becomes_times in Hb.
    + intros _ Hem. exfalso. apply Hem. unfold emitted.
      now rewrite (becomes_new_calls _ _ _ _ _ Hb).
  - destruct H as (_ & -> & Hdev & _ & _ & _ & _ & _ & Hne & H).
    destruct H as [(_ & _ & Hret & Hb) | (e & Hthrew & _ & _ & _ & Hb)].
    + split.
      * unfold emitted. rewrite (becomes_new_calls _ _ _ _ _ Hb).
        rewrite filter_returned_all by assumption. intros ->. now destruct Hne.
      * intros _ _. exists src, dev. split; [reflexivity|]. split; [exact Hdev|].
        now apply becomes_times in Hb.
    + split.
      * intros _. now apply becomes_times in Hb.
      * intros Hno. now destruct (Hno e).
Qed.

Lemma cooldown_updated_iff_emitted_witness :
  let p := Examples.plugin "motion" Examples.okCounter ∅ in
  let p' := snd (handleEvent (Some Examples.camera) Examples.details
                   Examples.s1 5000 p) in
  lastEmissionTime p' = <["d1" := 5000]> (lastEmissionTime p).
Proof.
  intros p p'.
  destruct (cooldown_updated_iff_emitted (Some Examples.camera)
              Examples.details Examples.s1 5000 p) as [_ H].
  destruct H as (src & dev & Hsrc & Hdev & Hset).
  - intros e. vm_compute. discriminate.
  - vm_compute. discriminate.
  - injection Hsrc as <-. injection Hdev as <-. exact Hset.
Defined.

(** C3, where the code departs from it: [lastEmissionTime.set] (line 237)
    is inside the [try], after the loop. A session whose first detection is
    emitted and whose second makes the counter throw leaves the loop through
    the [catch]: one metric was emitted, the handler completes, and the
    device has no entry, so the entry is not set to [now] although a metric
    was emitted. The next event of the device, a millisecond later, passes
    the gate. *)
Theorem emitted_metric_leaves_no_entry :
  let p := Examples.plugin "" failsAfterFirst ∅ in
  let r := handleEvent (Some Examples.camera) Examples.details Examples.s9
             5000 p in
  fst r = Done tt /\
  List.map class_of_call (emitted p (snd r)) = [JStr "Person"] /\
  last (console (snd r))
  = Some (ErrorFailedToHandleEvent (Thrown (JStr "export failed"))) /\
  lastEmissionTime (snd r) !! "d1" = None /\
  ~ (lastEmissionTime (snd r) = <["d1" := 5000]> (lastEmissionTime p)
     <-> emitted p (snd r) <> []) /\
  passes_gate (snd r) Examples.camera Examples.s2 5001 = true.
Proof.
  cbv zeta.
  split; [vm_compute; reflexivity|].
  split; [vm_compute; reflexivity|].
  split; [vm_compute; reflexivity|].
  split; [vm_compute; reflexivity|].
  split; [|vm_compute; reflexivity].
  intros [_ Hset].
  assert (lastEmissionTime
            (snd (handleEvent (Some Examples.camera) Examples.details
                    Examples.s9 5000 (Examples.plugin "" failsAfterFirst ∅)))
          !! "d1" = Some 5000) as Hentry.
  { rewrite Hset; [apply lookup_insert_eq|]. vm_compute. discriminate. }
  vm_compute in Hentry. discriminate Hentry.
Qed.

(** C4, as the code has it: when the counter's [add] throws, the handler
    still completes normally, the error is the last thing written to the
    console, the throwing call is the last call of the session (the
    remaining detections are abandoned), no other device's cooldown entry
    changes, and the failed attempt does not count as emitted: with no
    metric emitted before it, the cooldown map is left exactly as it was. *)
Theorem counter_failure_is_caught eventSource eventDetails eventData now p c e :
  let r := handleEvent eventSource eventDetails eventData now p in
  In c (new_calls p (snd r)) -> call_thrown c = Some e ->
  fst r = Done tt /\
  last (console (snd r)) = Some (ErrorFailedToHandleEvent e) /\
  new_calls p (snd r) = emitted p (snd r) ++ [c] /\
  (forall dev',
      (forall src, eventSource = Some src -> ScryptedDevice.id src <> Some dev') ->
      lastEmissionTime (snd r) !! dev' = lastEmissionTime p !! dev') /\
  (emitted p (snd r) = [] -> lastEmissionTime (snd r) = lastEmissionTime p).
Proof.
  intros r Hin Hc. subst r.
  destruct (handleEvent_cases eventSource eventDetails eventData now p)
    as (lines & calls & [[Hb ->] | (src & dev & did & a & elems & H)]).
  - rewrite (becomes_new_calls _ _ _ _ _ Hb) in Hin. destruct Hin.
  - destruct H as (_ & _ & _ & _ & _ & _ & _ & _ & _ & H).
    destruct H as [(_ & _ & Hret & Hb) | (e' & _ & Hdone & Hout & Hlast & Hb)];
      unfold emitted in *; rewrite (becomes_new_calls _ _ _ _ _ Hb) in *.
    + exfalso. rewrite List.Forall_forall in Hret. apply Hret in Hin.
      unfold call_returned in Hin. congruence.
    + destruct Hb as (_ & _ & Ht & Hl & _).
      destruct Hout as [Hret | (ok & c' & -> & Hok & Hc')].
      { exfalso. rewrite List.Forall_forall in Hret. apply Hret in Hin.
        unfold call_returned in Hin. congruence. }
      assert (c = c') as <-.
      { apply in_app_or in Hin as [Hin | [<- | []]]; [|reflexivity].
        exfalso. rewrite List.Forall_forall in Hok. apply Hok in Hin.
        unfold call_returned in Hin. congruence. }
      assert (e' = e) as -> by congruence.
      rewrite (filter_returned_last ok c e) by assumption.
      split; [exact Hdone|]. split; [|split; [reflexivity|split]].
      * rewrite Hl, last_app, Hlast. reflexivity.
      * intros dev' _. now rewrite Ht.
      * now intros _.
Qed.

Lemma counter_failure_is_caught_witness :
  let p := Examples.plugin "motion" Examples.brokenCounter ∅ in
  let r := handleEvent (Some Examples.camera) Examples.details
             Examples.s1 5000 p in
  fst r = Done tt /\
  last (console (snd r)) =
    Some (ErrorFailedToHandleEvent (Thrown (JStr "export failed"))) /\
  lastEmissionTime (snd r) = lastEmissionTime p.
Proof.
  intros p r.
  destruct (counter_failure_is_caught (Some Examples.camera) Examples.details
              Examples.s1 5000 p
              (Build_CounterCall 1
                 (attributes_of Examples.camera "d1" (JStr "person") "0.92"
                    (JStr "s1"))
                 (Some (Thrown (JStr "export failed"))))
              (Thrown (JStr "export failed")))
    as (Hdone & Hlast & _ & _ & Hmap).
  - vm_compute. left. reflexivity.
  - reflexivity.
  - split; [exact Hdone|]. split; [exact Hlast|]. apply Hmap. reflexivity.
Defined.

(** C4 as stated fails: the counter throws on the only emission attempt of
    the session, and the device gets no cooldown entry, although the claim
    counts the attempt as an emission. *)
Lemma counter_failure_counts_as_emitted_counterexample :
  let p := Examples.plugin "motion" Examples.brokenCounter ∅ in
  let p' := snd (handleEvent (Some Examples.camera) Examples.details
                   Examples.s1 5000 p) in
  (exists c, In c (new_calls p p') /\ call_thrown c <> None) /\
  lastEmissionTime p' !! "d1" <> Some 5000.
Proof.
  intros p p'. split.
  - eexists. split; [vm_compute; left; reflexivity|]. discriminate.
  - vm_compute. discriminate.
Qed.

(** ** The cooldown gate *)

(** No reachable plugin holds the timestamp [0], the one value [Map.get]
    can return that the gate would take for "no entry". *)
Lemma reachable_nonzero p :
  reachable p ->
  forall dev t, lastEmissionTime p !! dev = Some t -> t <> 0.
Proof.
  induction 1 as [s c out calls|p s c _ IH|p src ed data now _ IH Hnow];
    intros dev t; cbn [lastEmissionTime].
  - rewrite lookup_empty. discriminate.
  - apply IH.
  - destruct (handleEvent_cases src ed data now p)
      as (lines & calls & [[Hb _] | (s & d & did & a & elems & H)]).
    + rewrite (becomes_times _ _ _ _ _ Hb). apply IH.
    + destruct H as (_ & _ & _ & _ & _ & _ & _ & _ & _ & H).
      destruct H as [(_ & _ & _ & Hb) | (e & _ & _ & _ & _ & Hb)];
        rewrite (becomes_times _ _ _ _ _ Hb); [|apply IH].
      destruct (decide (d = dev)) as [->|Hne].
      * rewrite lookup_insert_eq. now intros [= <-].
      * rewrite lookup_insert_ne by assumption. apply IH.
Qed.

Lemma new_lines_same p : new_lines p p = [].
Proof. unfold new_lines. apply drop_all. Qed.

Lemma new_lines_write_console l p : new_lines p (write_console l p) = [l].
Proof. unfold new_lines. cbn. apply drop_app_length. Qed.

Lemma new_calls_same p : new_calls p p = [].
Proof. unfold new_calls. apply drop_all. Qed.

Lemma new_calls_write_console l p : new_calls p (write_console l p) = [].
Proof. unfold new_calls. cbn. apply drop_all. Qed.

(** C2: when the device has an entry in the cooldown map and
    [now - lastEmissionTimestamp < cooldownDuration], the session is
    suppressed as a whole: the counter receives no call, the loop over the
    detections is not entered (no per-detection line is written) and the
    cooldown map is unchanged. For an enabled plugin and a session with an
    identifier, the only effect is the cooldown diagnostic. *)
Theorem cooldown_suppresses_session src eventDetails eventData now p dev last :
  reachable p ->
  ScryptedDevice.id src = Some dev ->
  lastEmissionTime p !! dev = Some last ->
  now - last < cooldownMs (settings p) ->
  let r := handleEvent (Some src) eventDetails eventData now p in
  new_calls p (snd r) = [] /\
  lastEmissionTime (snd r) = lastEmissionTime p /\
  (forall className score,
      ~ In (LogDetection className score) (new_lines p (snd r))) /\
  (forall detectionId,
      disabled p = false -> JsString.truthy dev = true ->
      get_property eventData "detectionId" = inl detectionId ->
      truthy detectionId = true ->
      r = (Returned,
           write_console
             (LogCooldown (ScryptedDevice.name src) (timeRemaining p dev now))
             p)).
Proof.
  intros Hreach Hdev Hlast Hlt r.
  assert (Hcool : inCooldown (lastEmissionTime p !! dev) now
                    (cooldownMs (settings p)) = true).
  { rewrite Hlast. cbn [inCooldown].
    pose proof (reachable_nonzero p Hreach dev last Hlast) as Hnz.
    apply andb_true_iff. split.
    - apply negb_true_iff, Z.eqb_neq, Hnz.
    - now apply Z.ltb_lt. }
  subst r. rewrite handleEvent_catch, handleEvent_try_eq, Hdev, Hcool.
  assert (Hsame : new_calls p p = [] /\ lastEmissionTime p = lastEmissionTime p /\
                  forall className score,
                    ~ In (LogDetection className score) (new_lines p p)).
  { rewrite new_calls_same, new_lines_same. auto. }
  assert (Hline : forall l, (forall c s, l <> LogDetection c s) ->
            new_calls p (write_console l p) = [] /\
            lastEmissionTime (write_console l p) = lastEmissionTime p /\
            forall className score,
              ~ In (LogDetection className score)
                   (new_lines p (write_console l p))).
  { intros l Hl. rewrite new_lines_write_console.
    split; [apply new_calls_write_console|]. split; [reflexivity|].
    intros c s [H|[]]. now apply (Hl c s). }
  destruct (disabled p).
  { cbn [snd]. destruct Hsame as (H1 & H2 & H3). repeat split; auto.
    discriminate. }
  destruct (JsString.truthy dev); cbn [negb].
  2:{ cbn [snd]. destruct Hsame as (H1 & H2 & H3). repeat split; auto.
      discriminate. }
  destruct (get_property eventData "detectionId") as [did|e].
  2:{ cbn [snd]. destruct (Hline (ErrorFailedToHandleEvent e)) as (H1 & H2 & H3);
        [discriminate|]. repeat split; auto. discriminate. }
  destruct (truthy did) eqn:Hdid; cbn [negb snd].
  - destruct (Hline (LogCooldown (ScryptedDevice.name src)
                       (timeRemaining p dev now))) as (H1 & H2 & H3);
      [discriminate|]. repeat split; auto.
  - destruct Hsame as (H1 & H2 & H3). repeat split; auto.
    intros did' _ _ [= <-]. congruence.
Qed.

Lemma cooldown_suppresses_session_witness :
  let p0 := Examples.plugin "" Examples.okCounter ∅ in
  let p := snd (handleEvent (Some Examples.camera) Examples.details
                  Examples.s2 1000000 p0) in
  handleEvent (Some Examples.camera) Examples.details Examples.s2 1007000 p
  = (Returned, write_console (LogCooldown (Some "Front Door Camera") 3) p).
Proof.
  intros p0 p.
  destruct (cooldown_suppresses_session Examples.camera Examples.details
              Examples.s2 1007000 p "d1" 1000000) as (_ & _ & _ & H).
  - apply reachable_event; [apply reachable_new|lia].
  - reflexivity.
  - vm_compute. reflexivity.
  - vm_compute. reflexivity.
  - apply (H (JStr "s2")); reflexivity.
Defined.

(** ** [toFixed(2)] *)

Lemma digit_char_is_digit d : 0 <= d < 10 -> is_digit (JsNumber.digit_char d) = true.
Proof.
  intros H.
  assert (d = 0 \/ d = 1 \/ d = 2 \/ d = 3 \/ d = 4 \/
          d = 5 \/ d = 6 \/ d = 7 \/ d = 8 \/ d = 9) as Hd by lia.
  repeat (destruct Hd as [-> | Hd]; [reflexivity|]). now subst.
Qed.

Lemma digits_go_all_digits fuel : forall n acc,
  all_digits acc = true ->
  all_digits (JsNumber.digits_go fuel n acc) = true /\ JsNumber.digits_go fuel n acc <> "".
Proof.
  induction fuel as [|fuel IH]; intros n acc Hacc; cbn [JsNumber.digits_go].
  - split; [|discriminate]. cbn [all_digits]. rewrite Hacc, andb_true_r.
    apply digit_char_is_digit, Z.mod_pos_bound. lia.
  - assert (Hstep : all_digits (String (JsNumber.digit_char (n mod 10)) acc) = true).
    { cbn [all_digits]. rewrite Hacc, andb_true_r.
      apply digit_char_is_digit, Z.mod_pos_bound. lia. }
    destruct (n <? 10); [split; [exact Hstep|discriminate]|].
    now apply IH.
Qed.

Lemma digits_all_digits n :
  all_digits (JsNumber.digits n) = true /\ JsNumber.digits n <> "".
Proof. unfold JsNumber.digits. now apply digits_go_all_digits. Qed.

(** For a finite number below [10^21] in magnitude, [toFixed(2)] gives a
    string with exactly two decimals. *)
Lemma toFixed2_two_decimals x :
  JsNumber.fixed_range x = true -> two_decimals (JsNumber.toFixed2 x).
Proof.
  destruct x as [s|s| |s m e]; cbn [JsNumber.fixed_range]; try discriminate.
  - intros _. exists "", "0", "0"%char, "0"%char.
    split; [reflexivity|]. split; [now left|]. split; [discriminate|].
    repeat split; reflexivity.
  - intros Hsmall. apply negb_true_iff in Hsmall. cbn [JsNumber.toFixed2].
    rewrite Hsmall. set (n := JsNumber.round_hundredths m e).
    destruct (digits_all_digits (n / 100)) as [Hall Hne].
    exists (if s then "-" else ""), (JsNumber.digits (n / 100)),
      (JsNumber.digit_char (n mod 100 / 10)), (JsNumber.digit_char (n mod 10)).
    split; [reflexivity|]. split; [destruct s; auto|].
    split; [exact Hne|]. split; [exact Hall|].
    split; apply digit_char_is_digit.
    + pose proof (Z.mod_pos_bound n 100 ltac:(lia)).
      split; [apply Z.div_pos; lia|apply Z.div_lt_upper_bound; lia].
    + apply Z.mod_pos_bound. lia.
Qed.

(** C7: every call the counter receives is [add(1, attributes)], with
    exactly the six attributes of the schema: the device's id, name and
    type, the class of a detection of the session, that detection's score
    as [toFixed(2)] prints it (two decimals for any finite score below
    [10^21] in magnitude), and the session's [detectionId]. *)
Theorem metric_has_fixed_schema eventSource eventDetails eventData now p c :
  In c (new_calls p (snd (handleEvent eventSource eventDetails eventData
                            now p))) ->
  call_value c = 1 /\
  List.map fst (call_attributes c) = attribute_names /\
  exists src dev did a elems d x,
    eventSource = Some src /\ ScryptedDevice.id src = Some dev /\
    get_property eventData "detectionId" = inl did /\
    property_of eventData "detections" = JArr a elems /\
    In d elems /\ score_of d = JNum x /\
    call_attributes c =
      [ ("scrypted.device.id", JStr dev);
        ("scrypted.device.name", JStr (or_unknown (ScryptedDevice.name src)));
        ("scrypted.device.type", JStr (or_unknown (ScryptedDevice.type src)));
        ("scrypted.detection.class", className_of d);
        ("scrypted.detection.score", JStr (JsNumber.toFixed2 x));
        ("scrypted.detection.id", did) ] /\
    (JsNumber.fixed_range x = true -> two_decimals (JsNumber.toFixed2 x)).
Proof.
  intros Hin.
  destruct (handleEvent_cases eventSource eventDetails eventData now p)
    as (lines & calls & [[Hb ->] | (src & dev & did & a & elems & H)]).
  { rewrite (becomes_new_calls _ _ _ _ _ Hb) in Hin. destruct Hin. }
  destruct H as (_ & -> & Hdev & Hdid & _ & Hdets & _ & Hfrom & _ & H).
  assert (Hcalls : new_calls p (snd (handleEvent (Some src) eventDetails
                                       eventData now p)) = calls).
  { destruct H as [(_ & _ & _ & Hb) | (e & _ & _ & _ & _ & Hb)];
      exact (becomes_new_calls _ _ _ _ _ Hb). }
  rewrite Hcalls in Hin. rewrite List.Forall_forall in Hfrom.
  destruct (Hfrom c Hin) as (Hv & d & x & Hd & Hx & Ha & _).
  split; [exact Hv|]. split; [now rewrite Ha|].
  exists src, dev, did, a, elems, d, x.
  do 6 (split; [assumption || reflexivity|]).
  split; [exact Ha|]. apply toFixed2_two_decimals.
Qed.

Lemma metric_has_fixed_schema_witness :
  let c := call_of Examples.camera "d1" (JStr "s1")
             (Examples.detection "person" JsNumber.d0_92) in
  call_value c = 1 /\
  List.map fst (call_attributes c) = attribute_names /\
  two_decimals "0.92".
Proof.
  intros c.
  destruct (metric_has_fixed_schema (Some Examples.camera) Examples.details
              Examples.s1 5000 (Examples.plugin "motion" Examples.okCounter ∅) c)
    as (Hv & Hn & src & dev & did & a & elems & d & x & _ & _ & _ & Hdets & Hd & Hx & Ha & H2).
  - vm_compute. left. reflexivity.
  - split; [exact Hv|]. split; [exact Hn|].
    vm_compute in Hdets. injection Hdets as <- <-.
    destruct Hd as [<- | [<- | []]]; vm_compute in Hx; injection Hx as <-.
    + apply H2. reflexivity.
    + discriminate Ha.
Defined.

(** ** Well-formed sessions *)

Lemma well_formed_inv d :
  well_formed d = true ->
  exists c0 s x,
    get_property d "className" = inl c0 /\
    className_of d = JStr s /\ score_of d = JNum x.
Proof.
  unfold well_formed. intros H.
  apply andb_true_iff in H as [H Hx]. apply andb_true_iff in H as [Hn Hs].
  destruct (className_of d) as [| | | |s| |] eqn:Ec; try discriminate.
  destruct (score_of d) as [| | |x| | |] eqn:Ex; try discriminate.
  assert (exists c0, get_property d "className" = inl c0) as [c0 Hc0].
  { destruct d; try discriminate Hn; eexists; reflexivity. }
  exists c0, s, x. auto.
Qed.

Lemma extends_after_line l p p' lines calls :
  extends (write_console l p) p' lines calls ->
  extends p p' (l :: lines) calls.
Proof.
  intros H.
  exact (extends_trans _ _ _ [l] _ [] _ (extends_write_console l p) H).
Qed.

Lemma extends_after_call c p p' lines calls :
  extends (record_call c p) p' lines calls ->
  extends p p' lines (c :: calls).
Proof.
  intros H.
  exact (extends_trans _ _ _ [] _ [c] _ (extends_record_call c p) H).
Qed.

(** On well-formed detections and with a counter that never throws, the
    loop runs to its end and calls the counter once per survivor. *)
Lemma forDetections_well_formed src dev did ctr ds :
  accepts ctr ->
  Forall (fun d => well_formed d = true) ds ->
  forall me seen p,
    eventCounter p = Some ctr ->
    exists p' lines,
      forDetections src dev did ds me seen p =
        (Done (me || nonempty (survivors (denylist (settings p)) seen ds)), p') /\
      extends p p' lines
        (List.map (call_of src dev did)
           (survivors (denylist (settings p)) seen ds)).
Proof.
  intros Hacc Hwf. induction Hwf as [|d rest Hd _ IH]; intros me seen p Hctr.
  - exists p, []. split; [cbn; now rewrite orb_false_r|apply extends_refl].
  - rewrite forDetections_cons.
    destruct (well_formed_inv d Hd) as (c0 & s & x & -> & Hc & Hx).
    rewrite Hx. cbv zeta. cbn [survivors]. rewrite Hc.
    rewrite shouldSkip_result_skipped by reflexivity.
    destruct (skipped (denylist (settings p)) (JStr s)); cbn [orb].
    + edestruct (IH me seen (write_console (LogFilteredOut (JStr s))
                   (write_console (LogDetection (JStr s) (JsNumber.toFixed2 x)) p)))
        as (p' & lines & -> & Hext); [exact Hctr|].
      exists p'. eexists. split; [reflexivity|].
      do 2 apply extends_after_line. exact Hext.
    + destruct (JsSet.has seen (JStr s)).
      * edestruct (IH me seen (write_console (LogSkippedDuplicate (JStr s))
                     (write_console (LogDetection (JStr s) (JsNumber.toFixed2 x)) p)))
          as (p' & lines & -> & Hext); [exact Hctr|].
        exists p'. eexists. split; [reflexivity|].
        do 2 apply extends_after_line. exact Hext.
      * rewrite Hctr, Hacc.
        edestruct (IH true (JsSet.add seen (JStr s))
                     (write_console (LogMetricEmitted (JStr s))
                        (record_call
                           {| call_value := 1;
                              call_attributes :=
                                attributes_of src dev (JStr s)
                                  (JsNumber.toFixed2 x) did;
                              call_thrown := None |}
                           (write_console
                              (LogDetection (JStr s) (JsNumber.toFixed2 x)) p))))
          as (p' & lines & -> & Hext); [exact Hctr|].
        exists p'. eexists. split; [cbn; now rewrite orb_true_r|].
        cbn [List.map].
        apply extends_after_line, extends_after_call, extends_after_line.
        unfold call_of at 1. rewrite Hc, Hx. exact Hext.
Qed.

Lemma passes_gate_inv p src data now :
  passes_gate p src data now = true ->
  exists dev did,
    disabled p = false /\ ScryptedDevice.id src = Some dev /\
    deviceId_of src = dev /\ JsString.truthy dev = true /\
    get_property data "detectionId" = inl did /\
    property_of data "detectionId" = did /\ truthy did = true /\
    inCooldown (lastEmissionTime p !! dev) now (cooldownMs (settings p)) = false.
Proof.
  unfold passes_gate, deviceId_of. intros H.
  apply andb_true_iff in H as [Hdis H]. apply negb_true_iff in Hdis.
  destruct (ScryptedDevice.id src) as [dev|]; [|discriminate].
  apply andb_true_iff in H as [H Hcool]. apply negb_true_iff in Hcool.
  apply andb_true_iff in H as [Hdev Hdid].
  exists dev, (property_of data "detectionId").
  do 4 (split; [assumption || reflexivity|]).
  split; [|auto]. unfold property_of in *.
  destruct (get_property data "detectionId"); [reflexivity|discriminate].
Qed.

(** A well-formed session that passes the gate, with a counter that never
    throws: one call per survivor, all returned, and the cooldown entry set
    exactly when there is a survivor. *)
Lemma handleEvent_well_formed src eventDetails data now p ctr :
  eventCounter p = Some ctr -> accepts ctr ->
  passes_gate p src data now = true ->
  forallb well_formed (detections_of data) = true ->
  let r := handleEvent (Some src) eventDetails data now p in
  let kept := survivors (denylist (settings p)) JsSet.empty (detections_of data) in
  fst r = Done tt /\
  emitted p (snd r) = List.map (metric_of src data) kept /\
  new_calls p (snd r) = List.map (metric_of src data) kept /\
  lastEmissionTime (snd r) =
    if nonempty kept then <[deviceId_of src := now]> (lastEmissionTime p)
    else lastEmissionTime p.
Proof.
  intros Hctr Hacc Hgate Hwf r kept. subst r.
  destruct (passes_gate_inv _ _ _ _ Hgate)
    as (dev & did & Hdis & Hdev & Hdev' & Htdev & Hget & Hdid & Htdid & Hcool).
  rewrite handleEvent_catch, handleEvent_try_eq, Hdis, Hdev, Htdev, Hget,
    Htdid, Hcool.
  cbn [negb]. cbv zeta.
  pose proof (extends_session_header src dev did data p) as Hhdr.
  set (p1 := session_header src dev did data p) in *.
  unfold metric_of. rewrite Hdev', Hdid.
  unfold detections_of in kept, Hwf.
  destruct (property_of data "detections") as [| |b|x|s|a elems|a l];
    try (subst kept; cbn [fst snd survivors nonempty List.map];
         pose proof (becomes_write_console _ _ _ _ _ LogEnd
                       (proj1 (extends_becomes _ _ _ _) Hhdr)) as Hb;
         unfold emitted; rewrite (becomes_new_calls _ _ _ _ _ Hb);
         rewrite (becomes_times _ _ _ _ _ Hb); auto).
  rewrite List.forallb_forall in Hwf. rewrite <- List.Forall_forall in Hwf.
  destruct (forDetections_well_formed src dev did ctr elems Hacc Hwf
              false JsSet.empty
              (write_console (LogDetections (List.length elems)) p1) Hctr)
    as (p2 & lines & -> & Hext).
  change (survivors _ JsSet.empty elems) with kept in Hext |- *.
  apply extends_after_line in Hext.
  pose proof (extends_trans _ _ _ _ _ _ _ Hhdr Hext) as Hp2.
  cbn [app orb fst snd] in *.
  assert (Hret : Forall call_returned (List.map (call_of src dev did) kept)).
  { apply List.Forall_forall. intros c Hc. apply in_map_iff in Hc as (d & <- & _).
    reflexivity. }
  destruct (nonempty kept).
  - pose proof (becomes_write_console _ _ _ _ _ LogEnd
                  (becomes_set_lastEmissionTime _ _ _ _ _ dev now
                     (proj1 (extends_becomes _ _ _ _) Hp2))) as Hb.
    unfold emitted. rewrite (becomes_new_calls _ _ _ _ _ Hb).
    rewrite (becomes_times _ _ _ _ _ Hb), filter_returned_all by assumption.
    auto.
  - pose proof (becomes_write_console _ _ _ _ _ LogEnd
                  (proj1 (extends_becomes _ _ _ _) Hp2)) as Hb.
    unfold emitted. rewrite (becomes_new_calls _ _ _ _ _ Hb).
    rewrite (becomes_times _ _ _ _ _ Hb), filter_returned_all by assumption.
    auto.
Qed.

(** ** Deduplication *)

Lemma same_value_zero_str c v :
  same_value_zero (JStr c) v = true <-> v = JStr c.
Proof.
  split.
  - destruct v; try discriminate. cbn. intros H.
    apply String.eqb_eq in H. now subst.
  - intros ->. cbn. apply String.eqb_refl.
Qed.

Lemma same_value_zero_str_false c v :
  v <> JStr c -> same_value_zero (JStr c) v = false.
Proof.
  intros H. destruct (same_value_zero (JStr c) v) eqn:E; [|reflexivity].
  now apply same_value_zero_str in E.
Qed.

Lemma has_add seen v w :
  JsSet.has seen v = false ->
  JsSet.has (JsSet.add seen v) w = JsSet.has seen w || same_value_zero w v.
Proof.
  intros H. unfold JsSet.add. rewrite H. unfold JsSet.has.
  rewrite existsb_app. cbn. now rewrite orb_false_r.
Qed.

Lemma class_of_call_of src dev did d :
  class_of_call (call_of src dev did d) = className_of d.
Proof. reflexivity. Qed.

Lemma score_of_call_of src dev did d :
  score_of_call (call_of src dev did d)
  = JStr (JsNumber.toFixed2 (number_of (score_of d))).
Proof. reflexivity. Qed.

Lemma filter_has_class c src dev did ds :
  List.filter (has_class c) (List.map (call_of src dev did) ds)
  = List.map (call_of src dev did) (List.filter (is_class c) ds).
Proof.
  induction ds as [|d ds IH]; [reflexivity|].
  cbn [List.map List.filter]. rewrite IH.
  unfold has_class at 1. rewrite class_of_call_of. fold (is_class c d).
  now destruct (is_class c d).
Qed.

(** Once a class is in the set, no later detection of that class
    survives. *)
Lemma survivors_seen filters c ds : forall seen,
  JsSet.has seen (JStr c) = true ->
  List.filter (is_class c) (survivors filters seen ds) = [].
Proof.
  induction ds as [|d ds IH]; intros seen Hseen; [reflexivity|].
  cbn [survivors].
  destruct (skipped filters (className_of d)); cbn [orb]; [now apply IH|].
  destruct (JsSet.has seen (className_of d)) eqn:Hd; [now apply IH|].
  cbn [List.filter]. unfold is_class at 1.
  destruct (same_value_zero (JStr c) (className_of d)) eqn:E.
  - apply same_value_zero_str in E. congruence.
  - apply IH. rewrite has_add by assumption. now rewrite Hseen.
Qed.

(** The first detection of a class the filter lets through is the one
    survivor of that class. *)
Lemma survivors_first filters c d post pre : forall seen,
  JsSet.has seen (JStr c) = false ->
  matches filters c = false ->
  className_of d = JStr c ->
  Forall (fun d' => className_of d' <> JStr c) pre ->
  List.filter (is_class c) (survivors filters seen (pre ++ d :: post)) = [d].
Proof.
  intros seen Hseen Hmatch Hd Hpre. revert seen Hseen.
  induction Hpre as [|d' pre Hd' _ IH]; intros seen Hseen.
  - cbn [app survivors]. rewrite Hd. cbn [skipped]. rewrite Hmatch, Hseen.
    cbn [orb List.filter]. unfold is_class at 1. rewrite Hd.
    cbn [same_value_zero]. rewrite String.eqb_refl. f_equal.
    apply survivors_seen. rewrite has_add by assumption.
    cbn [same_value_zero]. rewrite String.eqb_refl. apply orb_true_r.
  - cbn [app survivors].
    destruct (skipped filters (className_of d')); cbn [orb]; [now apply IH|].
    destruct (JsSet.has seen (className_of d')) eqn:Hs; [now apply IH|].
    cbn [List.filter]. unfold is_class at 1.
    rewrite same_value_zero_str_false by assumption.
    apply IH. rewrite has_add by assumption.
    now rewrite Hseen, same_value_zero_str_false.
Qed.

(** A class that occurs in a list has a first occurrence. *)
Lemma first_occurrence c ds d :
  In d ds -> className_of d = JStr c ->
  exists pre d0 post,
    ds = pre ++ d0 :: post /\ className_of d0 = JStr c /\
    Forall (fun d' => className_of d' <> JStr c) pre.
Proof.
  induction ds as [|d1 ds IH]; intros Hin Hd; [destruct Hin|].
  destruct (is_class c d1) eqn:E.
  - apply same_value_zero_str in E. exists [], d1, ds. auto.
  - assert (Hne : className_of d1 <> JStr c).
    { intros H. unfold is_class in E. rewrite H in E. cbn in E.
      now rewrite String.eqb_refl in E. }
    destruct Hin as [-> | Hin]; [contradiction|].
    destruct (IH Hin Hd) as (pre & d0 & post & -> & H0 & Hpre).
    exists (d1 :: pre), d0, post. auto.
Qed.

(** C1: in a well-formed session that passes the gate, a class name that
    occurs any number of times and is not on the denylist gets exactly one
    metric, and that metric carries the score of the first occurrence,
    whatever the scores of the later ones. *)
Theorem first_occurrence_wins src eventDetails data now p ctr
    className pre d post :
  eventCounter p = Some ctr -> accepts ctr ->
  passes_gate p src data now = true ->
  forallb well_formed (detections_of data) = true ->
  detections_of data = pre ++ d :: post ->
  className_of d = JStr className ->
  Forall (fun d' => className_of d' <> JStr className) pre ->
  matches (denylist (settings p)) className = false ->
  let p' := snd (handleEvent (Some src) eventDetails data now p) in
  exists c,
    List.filter (has_class className) (emitted p p') = [c] /\
    c = metric_of src data d /\
    call_value c = 1 /\
    class_of_call c = JStr className /\
    score_of_call c = JStr (JsNumber.toFixed2 (number_of (score_of d))).
Proof.
  intros Hctr Hacc Hgate Hwf Hds Hd Hpre Hmatch p'. subst p'.
  destruct (handleEvent_well_formed src eventDetails data now p ctr
              Hctr Hacc Hgate Hwf) as (_ & -> & _).
  exists (metric_of src data d). unfold metric_of.
  rewrite filter_has_class, Hds, survivors_first by (assumption || reflexivity).
  rewrite class_of_call_of, score_of_call_of, Hd. auto.
Qed.

Lemma first_occurrence_wins_witness :
  let p := Examples.plugin "" Examples.okCounter ∅ in
  let p' := snd (handleEvent (Some Examples.camera) Examples.details
                   Examples.s2 5000 p) in
  exists c,
    List.filter (has_class "vehicle") (emitted p p') = [c] /\
    score_of_call c = JStr "0.83".
Proof.
  intros p p'.
  destruct (first_occurrence_wins Examples.camera Examples.details Examples.s2
              5000 p Examples.okCounter "vehicle" []
              (Examples.detection "vehicle" JsNumber.d0_83)
              [Examples.detection "vehicle" JsNumber.d0_89;
               Examples.detection "vehicle" JsNumber.d0_94])
    as (c & Hc & _ & _ & _ & Hscore);
    try reflexivity.
  - intros calls v a. reflexivity.
  - constructor.
  - exists c. split; [exact Hc|exact Hscore].
Defined.

Lemma matches_lower filters c1 c2 :
  JsString.toLowerCase c1 = JsString.toLowerCase c2 ->
  matches filters c1 = matches filters c2.
Proof. unfold matches. now intros ->. Qed.

(** In a well-formed session that passes the gate, every class that occurs
    and is not on the denylist has exactly one metric. *)
Lemma one_metric_per_class src eventDetails data now p ctr c d :
  eventCounter p = Some ctr -> accepts ctr ->
  passes_gate p src data now = true ->
  forallb well_formed (detections_of data) = true ->
  In d (detections_of data) -> className_of d = JStr c ->
  matches (denylist (settings p)) c = false ->
  let p' := snd (handleEvent (Some src) eventDetails data now p) in
  exists d0,
    In d0 (detections_of data) /\ className_of d0 = JStr c /\
    List.filter (has_class c) (emitted p p') = [metric_of src data d0].
Proof.
  intros Hctr Hacc Hgate Hwf Hin Hd Hmatch p'. subst p'.
  destruct (handleEvent_well_formed src eventDetails data now p ctr
              Hctr Hacc Hgate Hwf) as (_ & -> & _).
  destruct (first_occurrence c _ d Hin Hd) as (pre & d0 & post & Hds & Hd0 & Hpre).
  exists d0. split; [rewrite Hds; apply in_elt|]. split; [exact Hd0|].
  unfold metric_of.
  now rewrite filter_has_class, Hds, survivors_first by (assumption || reflexivity).
Qed.

(** C9: the deduplication set compares class names as they are, the filter
    compares them lower-cased. So two detections of one session whose class
    names differ only in letter case are filtered alike, and when the
    denylist lets them through each gets a metric of its own. *)
Theorem dedup_is_case_sensitive src eventDetails data now p ctr c1 c2 d1 d2 :
  eventCounter p = Some ctr -> accepts ctr ->
  passes_gate p src data now = true ->
  forallb well_formed (detections_of data) = true ->
  In d1 (detections_of data) -> In d2 (detections_of data) ->
  className_of d1 = JStr c1 -> className_of d2 = JStr c2 ->
  c1 <> c2 -> JsString.toLowerCase c1 = JsString.toLowerCase c2 ->
  matches (denylist (settings p)) c1 = false ->
  let p' := snd (handleEvent (Some src) eventDetails data now p) in
  matches (denylist (settings p)) c2 = false /\
  JsSet.has (JsSet.add JsSet.empty (JStr c1)) (JStr c2) = false /\
  exists m1 m2,
    List.filter (has_class c1) (emitted p p') = [m1] /\
    List.filter (has_class c2) (emitted p p') = [m2] /\
    class_of_call m1 = JStr c1 /\ class_of_call m2 = JStr c2 /\
    m1 <> m2.
Proof.
  intros Hctr Hacc Hgate Hwf Hin1 Hin2 Hd1 Hd2 Hne Hlower Hm1 p'.
  assert (Hm2 : matches (denylist (settings p)) c2 = false).
  { now rewrite <- (matches_lower _ c1 c2). }
  split; [exact Hm2|]. split.
  { cbn. rewrite orb_false_r. apply String.eqb_neq. congruence. }
  destruct (one_metric_per_class src eventDetails data now p ctr c1 d1)
    as (e1 & _ & He1 & Hf1); try assumption.
  destruct (one_metric_per_class src eventDetails data now p ctr c2 d2)
    as (e2 & _ & He2 & Hf2); try assumption.
  exists (metric_of src data e1), (metric_of src data e2).
  split; [exact Hf1|]. split; [exact Hf2|].
  unfold metric_of. rewrite !class_of_call_of.
  split; [exact He1|]. split; [exact He2|].
  intros Heq. apply (f_equal class_of_call) in Heq.
  rewrite !class_of_call_of in Heq. congruence.
Qed.

Lemma dedup_is_case_sensitive_witness :
  let p := Examples.plugin "motion" Examples.okCounter ∅ in
  let p' := snd (handleEvent (Some Examples.camera) Examples.details
                   Examples.s9 5000 p) in
  exists m1 m2,
    List.filter (has_class "Person") (emitted p p') = [m1] /\
    List.filter (has_class "person") (emitted p p') = [m2] /\
    m1 <> m2.
Proof.
  intros p p'.
  destruct (dedup_is_case_sensitive Examples.camera Examples.details
              Examples.s9 5000 p Examples.okCounter "Person" "person"
              (Examples.detection "Person" JsNumber.d0_92)
              (Examples.detection "person" JsNumber.d0_83))
    as (_ & _ & m1 & m2 & H1 & H2 & _ & _ & Hne);
    try reflexivity.
  - intros calls v a. reflexivity.
  - left. reflexivity.
  - right. left. reflexivity.
  - discriminate.
  - exists m1, m2. auto.
Defined.

(** C5: a detection whose lower-cased class name contains a denylist entry
    (entries are never empty, and are compared lower-cased) gets no metric,
    whatever its score, the payload and the counter; and with an empty
    denylist nothing is filtered: every detection of a well-formed session
    that passes the gate has a metric of its class. *)
Theorem denylist_filters_by_substring eventSource eventDetails data now p :
  let p' := snd (handleEvent eventSource eventDetails data now p) in
  (forall entry d className,
      In entry (denylist (settings p)) ->
      In d (detections_of data) -> className_of d = JStr className ->
      JsString.includes (JsString.toLowerCase className)
                        (JsString.toLowerCase entry) = true ->
      entry <> "" /\
      forall c, In c (new_calls p p') -> class_of_call c <> className_of d) /\
  (forall src ctr d,
      denylist (settings p) = [] ->
      eventSource = Some src ->
      eventCounter p = Some ctr -> accepts ctr ->
      passes_gate p src data now = true ->
      forallb well_formed (detections_of data) = true ->
      In d (detections_of data) ->
      exists c, In c (emitted p p') /\ class_of_call c = className_of d).
Proof.
  intros p'. subst p'. split.
  - intros entry d className Hentry _ Hd Hinc. split.
    { unfold denylist, filters_of in Hentry.
      destruct (eventFilter (settings p)) as [f|]; [|destruct Hentry].
      destruct (JsString.truthy f); [|destruct Hentry].
      apply filter_In in Hentry as [_ Htruthy]. now intros ->. }
    intros c Hc Hclass. rewrite Hd in Hclass.
    destruct (handleEvent_cases eventSource eventDetails data now p)
      as (lines & calls & [[Hb ->] | (src & dev & did & a & elems & H)]).
    { rewrite (becomes_new_calls _ _ _ _ _ Hb) in Hc. destruct Hc. }
    destruct H as (_ & _ & _ & _ & _ & _ & _ & Hfrom & _ & H).
    assert (Hcalls : new_calls p (snd (handleEvent eventSource eventDetails
                                         data now p)) = calls).
    { destruct H as [(_ & _ & _ & Hb) | (e & _ & _ & _ & _ & Hb)];
        exact (becomes_new_calls _ _ _ _ _ Hb). }
    rewrite Hcalls in Hc. rewrite List.Forall_forall in Hfrom.
    destruct (Hfrom c Hc) as (_ & d' & x & _ & _ & Ha & Hskip).
    unfold class_of_call in Hclass. rewrite Ha in Hclass. cbn in Hclass.
    rewrite Hclass in Hskip. unfold shouldSkip_result in Hskip.
    destruct (denylist (settings p)) as [|f fs] eqn:Ef; [destruct Hentry|].
    injection Hskip as Hskip.
    assert (matches (f :: fs) className = true) as Htrue.
    { apply existsb_exists. exists entry. auto. }
    change (matches (f :: fs) className = false) in Hskip. congruence.
  - intros src ctr d Hnil -> Hctr Hacc Hgate Hwf Hin.
    assert (exists s, className_of d = JStr s) as [s Hs].
    { rewrite List.forallb_forall in Hwf.
      destruct (well_formed_inv d (Hwf d Hin)) as (_ & s & _ & _ & Hs & _).
      now exists s. }
    destruct (one_metric_per_class src eventDetails data now p ctr s d)
      as (d0 & _ & Hd0 & Hf); try assumption.
    { now rewrite Hnil. }
    exists (metric_of src data d0). split.
    + eapply (proj1 (filter_In (has_class s) _ _)). rewrite Hf. now left.
    + unfold metric_of. rewrite class_of_call_of. congruence.
Qed.

Lemma denylist_filters_by_substring_witness :
  let p := Examples.plugin "motion" Examples.okCounter ∅ in
  let p' := snd (handleEvent (Some Examples.camera) Examples.details
                   Examples.s1 5000 p) in
  Forall (fun c => class_of_call c <> JStr "motion") (new_calls p p').
Proof.
  intros p p'. apply List.Forall_forall.
  destruct (denylist_filters_by_substring (Some Examples.camera)
              Examples.details Examples.s1 5000 p) as [H _].
  apply (H "motion" (Examples.detection "motion" JsNumber.d1) "motion");
    try reflexivity.
  - left. reflexivity.
  - right. left. reflexivity.
Defined.

(** ** Defaults *)

(** The loop reads a detection only through its [view]. *)
Lemma forDetections_view src dev did ds ds' :
  Forall2 (fun d d' => view d = view d') ds ds' ->
  forall me seen p,
    forDetections src dev did ds me seen p
    = forDetections src dev did ds' me seen p.
Proof.
  induction 1 as [|d d' ds ds' Hv _ IH]; intros me seen p; [reflexivity|].
  rewrite !forDetections_cons. unfold view in Hv.
  injection Hv as Hthrow Hclass Hscore. rewrite Hclass, Hscore.
  destruct (get_property d "className") as [c|e],
           (get_property d' "className") as [c'|e']; try discriminate.
  - destruct (score_of d'); try reflexivity. cbv zeta.
    destruct (shouldSkip_result _ _) as [[|]| |]; try reflexivity;
      [apply IH|].
    destruct (JsSet.has seen _); [apply IH|].
    destruct (eventCounter p); [|reflexivity].
    destruct (add_throws _ _ _ _); [reflexivity|apply IH].
  - now injection Hthrow as ->.
Qed.

(** The handler reads a payload only through its [detectionId], its
    [timestamp] and the views of its detections. *)
Lemma handleEvent_view eventSource eventDetails now p b b' a a' ds ds' rest :
  Forall2 (fun d d' => view d = view d') ds ds' ->
  handleEvent eventSource eventDetails
    (JObj b (("detections", JArr a ds) :: rest)) now p
  = handleEvent eventSource eventDetails
      (JObj b' (("detections", JArr a' ds') :: rest)) now p.
Proof.
  intros Hv. rewrite !handleEvent_catch, !handleEvent_try_eq.
  destruct (disabled p); [reflexivity|].
  destruct eventSource as [src|]; [|reflexivity].
  destruct (ScryptedDevice.id src) as [dev|]; [|reflexivity].
  destruct (negb (JsString.truthy dev)); [reflexivity|].
  change (get_property (JObj b (("detections", JArr a ds) :: rest)) "detectionId")
    with (get_property (JObj b' (("detections", JArr a' ds') :: rest)) "detectionId").
  destruct (get_property _ "detectionId") as [did|e]; [|reflexivity].
  destruct (negb (truthy did)); [reflexivity|].
  destruct (inCooldown _ _ _); [reflexivity|].
  cbv zeta.
  change (property_of (JObj b (("detections", JArr a ds) :: rest)) "detections")
    with (JArr a ds).
  change (property_of (JObj b' (("detections", JArr a' ds') :: rest)) "detections")
    with (JArr a' ds').
  change (session_header src dev did (JObj b (("detections", JArr a ds) :: rest)) p)
    with (session_header src dev did (JObj b' (("detections", JArr a' ds') :: rest)) p).
  cbv beta iota. rewrite (Forall2_length _ _ _ Hv).
  now rewrite (forDetections_view src dev did ds ds' Hv).
Qed.

(** The first detection of a class that is not on the denylist is the one
    emitted for the class. *)
Lemma first_survivor_emitted src eventDetails data now p ctr
    className pre d post :
  eventCounter p = Some ctr -> accepts ctr ->
  passes_gate p src data now = true ->
  forallb well_formed (detections_of data) = true ->
  detections_of data = pre ++ d :: post ->
  className_of d = JStr className ->
  Forall (fun d' => className_of d' <> JStr className) pre ->
  matches (denylist (settings p)) className = false ->
  List.filter (has_class className)
    (emitted p (snd (handleEvent (Some src) eventDetails data now p)))
  = [metric_of src data d].
Proof.
  intros Hctr Hacc Hgate Hwf Hds Hd Hpre Hmatch.
  destruct (handleEvent_well_formed src eventDetails data now p ctr
              Hctr Hacc Hgate Hwf) as (_ & -> & _).
  unfold metric_of.
  now rewrite filter_has_class, Hds, survivors_first
    by (assumption || reflexivity).
Qed.

(** C10: the defaults apply to every falsy value, not only to a missing
    field. A detection whose [className] is present but falsy (the empty
    string, say) has class "unknown" and is handled exactly as the same
    detection without the field: when the session passes the gate and
    "unknown" is neither on the denylist nor the class of an earlier
    detection, the counter receives a call for it whose class attribute is
    "unknown". Likewise a falsy [score] is handled as a missing one, as
    [0]: the call made for the detection carries the score "0.00". *)
Theorem falsy_fields_take_defaults eventSource eventDetails now p
    b a rest pre post addr addr' props v :
  truthy v = false ->
  let session ds := JObj b (("detections", JArr a ds) :: rest) in
  (own_property props "className" = None ->
   let absent := JObj addr props in
   let present := JObj addr' (("className", v) :: props) in
   let r := handleEvent eventSource eventDetails
              (session (pre ++ present :: post)) now p in
   className_of present = JStr "unknown" /\
   className_of absent = JStr "unknown" /\
   r = handleEvent eventSource eventDetails
         (session (pre ++ absent :: post)) now p /\
   forall src ctr,
     eventSource = Some src ->
     eventCounter p = Some ctr -> accepts ctr ->
     passes_gate p src (session (pre ++ present :: post)) now = true ->
     forallb well_formed (pre ++ present :: post) = true ->
     Forall (fun d' => className_of d' <> JStr "unknown") pre ->
     matches (denylist (settings p)) "unknown" = false ->
     exists c,
       List.filter (has_class "unknown") (emitted p (snd r)) = [c] /\
       In c (counterCalls (snd r)) /\
       call_value c = 1 /\ call_thrown c = None /\
       class_of_call c = JStr "unknown" /\
       score_of_call c
       = JStr (JsNumber.toFixed2 (number_of (score_of present)))) /\
  (own_property props "score" = None ->
   let absent := JObj addr props in
   let present := JObj addr' (("score", v) :: props) in
   let r := handleEvent eventSource eventDetails
              (session (pre ++ present :: post)) now p in
   score_of present = JNum JsNumber.zero /\
   score_of absent = JNum JsNumber.zero /\
   r = handleEvent eventSource eventDetails
         (session (pre ++ absent :: post)) now p /\
   forall src ctr className,
     eventSource = Some src ->
     eventCounter p = Some ctr -> accepts ctr ->
     passes_gate p src (session (pre ++ present :: post)) now = true ->
     forallb well_formed (pre ++ present :: post) = true ->
     className_of present = JStr className ->
     Forall (fun d' => className_of d' <> JStr className) pre ->
     matches (denylist (settings p)) className = false ->
     exists c,
       List.filter (has_class className) (emitted p (snd r)) = [c] /\
       In c (counterCalls (snd r)) /\
       call_value c = 1 /\ call_thrown c = None /\
       class_of_call c = JStr className /\
       score_of_call c = JStr "0.00").
Proof.
  intros Hv session.
  assert (Hrefl : Forall2 (fun d d' : value => view d = view d') pre pre /\
                  Forall2 (fun d d' : value => view d = view d') post post).
  { split; apply Forall_Forall2_diag, List.Forall_forall; reflexivity. }
  destruct Hrefl as [Hpre Hpost].
  assert (Hcall : forall src ctr className present,
            eventCounter p = Some ctr -> accepts ctr ->
            passes_gate p src (session (pre ++ present :: post)) now = true ->
            forallb well_formed (pre ++ present :: post) = true ->
            className_of present = JStr className ->
            Forall (fun d' => className_of d' <> JStr className) pre ->
            matches (denylist (settings p)) className = false ->
            let r := handleEvent (Some src) eventDetails
                       (session (pre ++ present :: post)) now p in
            exists c,
              List.filter (has_class className) (emitted p (snd r)) = [c] /\
              In c (counterCalls (snd r)) /\
              call_value c = 1 /\ call_thrown c = None /\
              class_of_call c = JStr className /\
              score_of_call c
              = JStr (JsNumber.toFixed2 (number_of (score_of present)))).
  { intros src ctr className present Hctr Hacc Hgate Hwf Hclass Hfirst Hmatch r.
    pose proof (first_survivor_emitted src eventDetails
                  (session (pre ++ present :: post)) now p ctr className
                  pre present post Hctr Hacc Hgate Hwf eq_refl Hclass Hfirst
                  Hmatch) as Hf.
    fold r in Hf.
    exists (metric_of src (session (pre ++ present :: post)) present).
    split; [exact Hf|].
    assert (In (metric_of src (session (pre ++ present :: post)) present)
              (emitted p (snd r))) as Hin.
    { eapply (proj1 (filter_In (has_class className) _ _)).
      rewrite Hf. now left. }
    split.
    { unfold emitted in Hin. apply filter_In in Hin as [Hin _].
      unfold new_calls in Hin.
      rewrite <- (firstn_skipn (length (counterCalls p))
                    (counterCalls (snd r))).
      apply in_or_app. now right. }
    unfold metric_of. rewrite class_of_call_of, score_of_call_of.
    repeat split; auto. }
  split; intros Hnone absent present r.
  - assert (Hc1 : className_of present = JStr "unknown").
    { unfold className_of, property_of, or_else. cbn. now rewrite Hv. }
    assert (Hc2 : className_of absent = JStr "unknown").
    { unfold className_of, property_of. cbn. now rewrite Hnone. }
    split; [exact Hc1|]. split; [exact Hc2|]. split.
    + apply handleEvent_view, Forall2_app; [exact Hpre|].
      constructor; [|exact Hpost].
      unfold view. rewrite Hc1, Hc2. reflexivity.
    + intros src ctr -> Hctr Hacc Hgate Hwf Hfirst Hmatch.
      exact (Hcall src ctr "unknown" present Hctr Hacc Hgate Hwf Hc1 Hfirst
               Hmatch).
  - assert (Hc1 : score_of present = JNum JsNumber.zero).
    { unfold score_of, property_of, or_else. cbn. now rewrite Hv. }
    assert (Hc2 : score_of absent = JNum JsNumber.zero).
    { unfold score_of, property_of. cbn. now rewrite Hnone. }
    split; [exact Hc1|]. split; [exact Hc2|]. split.
    + apply handleEvent_view, Forall2_app; [exact Hpre|].
      constructor; [|exact Hpost].
      unfold view. rewrite Hc1, Hc2. reflexivity.
    + intros src ctr className -> Hctr Hacc Hgate Hwf Hclass Hfirst Hmatch.
      destruct (Hcall src ctr className present Hctr Hacc Hgate Hwf Hclass
                  Hfirst Hmatch) as (c & H1 & H2 & H3 & H4 & H5 & H6).
      exists c. rewrite Hc1 in H6. repeat split; auto.
Qed.

Lemma falsy_fields_take_defaults_witness :
  let p := Examples.plugin "" Examples.okCounter ∅ in
  let session ds :=
    JObj 1 [("detections", JArr 2 ds); ("detectionId", JStr "s10")] in
  let present := JObj 0 [("className", JStr ""); ("score", JNum JsNumber.d0_92)] in
  let absent := JObj 0 [("score", JNum JsNumber.d0_92)] in
  let zero := JObj 0 [("score", JNum JsNumber.zero); ("className", JStr "person")] in
  let r := handleEvent (Some Examples.camera) Examples.details
             (session [present]) 5000 p in
  let r0 := handleEvent (Some Examples.camera) Examples.details
              (session [zero]) 5000 p in
  (className_of present = JStr "unknown" /\
   r = handleEvent (Some Examples.camera) Examples.details
         (session [absent]) 5000 p /\
   exists c,
     List.filter (has_class "unknown") (emitted p (snd r)) = [c] /\
     In c (counterCalls (snd r)) /\
     call_value c = 1 /\ call_thrown c = None /\
     class_of_call c = JStr "unknown" /\
     score_of_call c = JStr "0.92") /\
  exists c,
    List.filter (has_class "person") (emitted p (snd r0)) = [c] /\
    In c (counterCalls (snd r0)) /\
    call_value c = 1 /\ call_thrown c = None /\
    class_of_call c = JStr "person" /\
    score_of_call c = JStr "0.00".
Proof.
  intros p session present absent zero r r0. split.
  - destruct (falsy_fields_take_defaults (Some Examples.camera)
                Examples.details 5000 p 1 2 [("detectionId", JStr "s10")]
                [] [] 0 0 [("score", JNum JsNumber.d0_92)] (JStr ""))
      as [H _]; [reflexivity|].
    destruct H as (H1 & _ & H2 & H3); [reflexivity|].
    split; [exact H1|]. split; [exact H2|].
    apply (H3 Examples.camera Examples.okCounter); try reflexivity.
    + intros calls x attributes. reflexivity.
    + constructor.
  - destruct (falsy_fields_take_defaults (Some Examples.camera)
                Examples.details 5000 p 1 2 [("detectionId", JStr "s10")]
                [] [] 0 0 [("className", JStr "person")]
                (JNum JsNumber.zero))
      as [_ H]; [reflexivity|].
    destruct H as (_ & _ & _ & H3); [reflexivity|].
    apply (H3 Examples.camera Examples.okCounter "person"); try reflexivity.
    + intros calls x attributes. reflexivity.
    + constructor.
Defined.

(** * More properties of the handler *)

(** ** The loop, for any payload and any counter *)

Lemma one_per_class_nil seen : one_per_class seen [].
Proof. intros c. cbn. lia. Qed.

Lemma has_class_call c src dev did className score r :
  has_class c {| call_value := 1;
                 call_attributes :=
                   attributes_of src dev className score did;
                 call_thrown := r |}
  = same_value_zero (JStr c) className.
Proof. reflexivity. Qed.

Lemma one_per_class_single seen src dev did className score r :
  JsSet.has seen className = false ->
  one_per_class seen
    [{| call_value := 1;
        call_attributes := attributes_of src dev className score did;
        call_thrown := r |}].
Proof.
  intros Hseen c. cbn [List.filter]. rewrite has_class_call.
  destruct (same_value_zero (JStr c) className) eqn:E; cbn [List.length].
  - apply same_value_zero_str in E. subst. rewrite Hseen. lia.
  - lia.
Qed.

Lemma one_per_class_cons seen src dev did className score r calls :
  JsSet.has seen className = false ->
  one_per_class (JsSet.add seen className) calls ->
  one_per_class seen
    ({| call_value := 1;
        call_attributes := attributes_of src dev className score did;
        call_thrown := r |} :: calls).
Proof.
  intros Hseen IH c. specialize (IH c). cbn [List.filter].
  rewrite has_class_call. rewrite has_add in IH by assumption.
  destruct (same_value_zero (JStr c) className) eqn:E.
  - apply same_value_zero_str in E. subst.
    rewrite Hseen in *. cbn [orb List.length] in *. lia.
  - rewrite orb_false_r in IH. exact IH.
Qed.

(** Whatever the payload and the counter: the calls of the loop are made
    for a subsequence of the detections, in their order, with at most one
    call per class; the lines written are the loop's own. *)
Lemma forDetections_trace src dev did ds : forall me seen p o p',
  forDetections src dev did ds me seen p = (o, p') ->
  exists lines calls kept,
    extends p p' lines calls /\
    kept `sublist_of` ds /\
    List.map call_attributes calls
      = List.map (attributes_for src dev did) kept /\
    forallb is_loop_line lines = true /\
    one_per_class seen calls.
Proof.
  induction ds as [|d rest IH]; intros me seen p o p' H.
  - injection H as <- <-. exists [], [], [].
    split; [apply extends_refl|]. split; [constructor|].
    split; [reflexivity|]. split; [reflexivity|apply one_per_class_nil].
  - rewrite forDetections_cons in H.
    assert (Hstop : forall l,
      forallb is_loop_line l = true -> extends p p' l [] ->
      exists lines calls kept,
        extends p p' lines calls /\ kept `sublist_of` (d :: rest) /\
        List.map call_attributes calls
          = List.map (attributes_for src dev did) kept /\
        forallb is_loop_line lines = true /\ one_per_class seen calls).
    { intros l Hl Hext. exists l, [], [].
      split; [exact Hext|]. split; [apply sublist_nil_l|].
      split; [reflexivity|]. split; [exact Hl|apply one_per_class_nil]. }
    destruct (get_property d "className") as [c0|e0] eqn:Ec.
    2:{ injection H as <- <-. apply (Hstop []); [reflexivity|apply extends_refl]. }
    destruct (score_of d) as [| |b|x|s|a l|a l] eqn:Ex;
      try (injection H as <- <-;
           apply (Hstop []); [reflexivity|apply extends_refl]).
    cbv zeta in H.
    set (c := className_of d) in *.
    set (l0 := LogDetection c (JsNumber.toFixed2 x)) in *.
    assert (Hskip : forall l1,
      is_loop_line l1 = true ->
      forDetections src dev did rest me seen (write_console l1 (write_console l0 p))
        = (o, p') ->
      exists lines calls kept,
        extends p p' lines calls /\ kept `sublist_of` (d :: rest) /\
        List.map call_attributes calls
          = List.map (attributes_for src dev did) kept /\
        forallb is_loop_line lines = true /\ one_per_class seen calls).
    { intros l1 Hl1 Hrun.
      apply IH in Hrun as (lines & calls & kept & Hext & Hsub & Hmap & Hl & Hone).
      exists (l0 :: l1 :: lines), calls, kept.
      split; [now do 2 apply extends_after_line|].
      split; [now apply sublist_cons|]. split; [exact Hmap|].
      split; [|exact Hone]. cbn [forallb]. now rewrite Hl1, Hl. }
    destruct (shouldSkip_result (denylist (settings p)) c) as [[|]| |e] eqn:Ef.
    + now apply (Hskip (LogFilteredOut c)).
    + destruct (JsSet.has seen c) eqn:Hseen.
      * now apply (Hskip (LogSkippedDuplicate c)).
      * destruct (eventCounter p) as [ctr|].
        2:{ injection H as <- <-.
            apply (Hstop [l0]); [reflexivity|apply extends_write_console]. }
        assert (Hattr : attributes_of src dev c (JsNumber.toFixed2 x) did
                        = attributes_for src dev did d).
        { unfold attributes_for, call_of. cbn [call_attributes].
          fold c. now rewrite Ex. }
        destruct (add_throws ctr (counterCalls p) 1 _) as [e|].
        -- injection H as <- <-. eexists [l0], [_], [d].
           split; [apply extends_after_line, extends_record_call|].
           split; [apply sublist_skip, sublist_nil_l|].
           split; [cbn; now rewrite Hattr|]. split; [reflexivity|].
           now apply one_per_class_single.
        -- apply IH in H as (lines & calls & kept & Hext & Hsub & Hmap & Hl & Hone).
           eexists (l0 :: LogMetricEmitted c :: lines), (_ :: calls), (d :: kept).
           split; [apply extends_after_line, extends_after_call,
                     extends_after_line, Hext|].
           split; [now apply sublist_skip|].
           split; [cbn [List.map call_attributes]; now rewrite Hattr, Hmap|].
           split; [cbn [forallb is_loop_line]; exact Hl|].
           now apply one_per_class_cons.
    + injection H as <- <-.
      apply (Hstop [l0]); [reflexivity|apply extends_write_console].
    + injection H as <- <-.
      apply (Hstop [l0]); [reflexivity|apply extends_write_console].
Qed.

(** ** The handler, for any event *)

Lemma becomes_self p p' lines calls :
  settings p' = settings p -> eventCounter p' = eventCounter p ->
  console p' = console p ++ lines -> counterCalls p' = counterCalls p ++ calls ->
  becomes p p' lines calls (lastEmissionTime p').
Proof. unfold becomes. auto. Qed.

Lemma extends_becomes_self p p' lines calls :
  extends p p' lines calls ->
  becomes p p' lines calls (lastEmissionTime p').
Proof. intros (Hs & He & _ & Hl & Hc). now apply becomes_self. Qed.

Lemma loop_lines_not_cooldown lines :
  forallb is_loop_line lines = true ->
  Forall (fun l => forall n t, l <> LogCooldown n t) lines.
Proof.
  intros H. apply List.Forall_forall. intros l Hl n t ->.
  rewrite List.forallb_forall in H. now apply H in Hl.
Qed.

(** Every event, whatever it carries: the plugin only gains console lines
    and counter calls. Either the one line is the cooldown diagnostic of a
    suppressed session, or no cooldown line is written; the calls are those
    of a subsequence of the payload's detections, one per class at most. *)
Lemma handleEvent_trace eventSource eventDetails eventData now p :
  let r := handleEvent eventSource eventDetails eventData now p in
  exists lines calls,
    becomes p (snd r) lines calls (lastEmissionTime (snd r)) /\
    ((calls = [] /\
      exists src dev last,
        eventSource = Some src /\ ScryptedDevice.id src = Some dev /\
        lastEmissionTime p !! dev = Some last /\ last <> 0 /\
        now - last < cooldownMs (settings p) /\
        lines = [LogCooldown (ScryptedDevice.name src)
                   (ceil_seconds (cooldownMs (settings p) - (now - last)))])
     \/ Forall (fun l => forall n t, l <> LogCooldown n t) lines) /\
    (calls = [] \/
     exists src kept,
       eventSource = Some src /\
       kept `sublist_of` detections_of eventData /\
       List.map call_attributes calls
         = List.map (fun d => call_attributes (metric_of src eventData d)) kept) /\
    one_per_class JsSet.empty calls.
Proof.
  intros r. subst r. rewrite handleEvent_catch, handleEvent_try_eq.
  assert (Hnone : exists lines calls,
            becomes p p lines calls (lastEmissionTime p) /\
            ((calls = [] /\ exists src dev last,
                eventSource = Some src /\ ScryptedDevice.id src = Some dev /\
                lastEmissionTime p !! dev = Some last /\ last <> 0 /\
                now - last < cooldownMs (settings p) /\
                lines = [LogCooldown (ScryptedDevice.name src)
                   (ceil_seconds (cooldownMs (settings p) - (now - last)))])
             \/ Forall (fun l => forall n t, l <> LogCooldown n t) lines) /\
            (calls = [] \/ exists src kept,
               eventSource = Some src /\
               kept `sublist_of` detections_of eventData /\
               List.map call_attributes calls
               = List.map (fun d => call_attributes (metric_of src eventData d)) kept) /\
            one_per_class JsSet.empty calls).
  { exists [], []. split; [apply extends_becomes_self, extends_refl|].
    split; [right; constructor|]. split; [now left|apply one_per_class_nil]. }
  destruct (disabled p); [exact Hnone|].
  destruct eventSource as [src|]; [|exact Hnone].
  destruct (ScryptedDevice.id src) as [dev|] eqn:Edev; [|exact Hnone].
  destruct (negb (JsString.truthy dev)); [exact Hnone|].
  destruct (get_property eventData "detectionId") as [did|e] eqn:Edid.
  2:{ cbn [snd]. exists [ErrorFailedToHandleEvent e], [].
      split; [apply extends_becomes_self, extends_write_console|].
      split; [right; constructor; [intros ? ?; discriminate|constructor]|].
      split; [now left|apply one_per_class_nil]. }
  destruct (negb (truthy did)); [exact Hnone|]. clear Hnone.
  destruct (inCooldown _ _ _) eqn:Ecool.
  { cbn [snd]. eexists [_], [].
    split; [apply extends_becomes_self, extends_write_console|].
    split; [|split; [now left|apply one_per_class_nil]].
    left. split; [reflexivity|]. unfold inCooldown, timeRemaining in *.
    destruct (lastEmissionTime p !! dev) as [last|] eqn:Elast; [|discriminate].
    apply andb_true_iff in Ecool as [Hnz Hlt].
    apply negb_true_iff, Z.eqb_neq in Hnz. apply Z.ltb_lt in Hlt.
    exists src, dev, last. repeat (split; [assumption || reflexivity|]).
    reflexivity. }
  cbv zeta.
  pose proof (extends_session_header src dev did eventData p) as Hhdr.
  set (p1 := session_header src dev did eventData p) in *.
  assert (Hdid : property_of eventData "detectionId" = did).
  { unfold property_of. now rewrite Edid. }
  destruct (property_of eventData "detections") as [| |b|x|s|a elems|a l] eqn:Edets;
    try (cbn [snd]; eexists _, [];
         split; [apply extends_becomes_self;
                 apply (extends_trans _ _ _ _ _ _ _ Hhdr
                          (extends_write_console LogEnd p1))|];
         split; [right; repeat (constructor; [intros ? ?; discriminate|]);
                 constructor|];
         split; [now left|apply one_per_class_nil]).
  destruct (forDetections _ _ _ _ _ _ _) as [o2 p2] eqn:Eloop.
  apply forDetections_trace in Eloop
    as (lines & calls & kept & Hext & Hsub & Hmap & Hl & Hone).
  apply extends_after_line in Hext.
  pose proof (extends_trans _ _ _ _ _ _ _ Hhdr Hext) as Hp2.
  cbn [app] in Hp2. apply extends_becomes in Hp2.
  set (L := LogDetectionEvent :: _) in Hp2.
  assert (HL : Forall (fun l => forall n t, l <> LogCooldown n t) L).
  { subst L. repeat (constructor; [intros ? ?; discriminate|]).
    now apply loop_lines_not_cooldown. }
  assert (Hlines : forall l, (forall n t, l <> LogCooldown n t) ->
            Forall (fun l => forall n t, l <> LogCooldown n t) (L ++ [l])).
  { intros l Hlast. apply Forall_app. split; [exact HL|now repeat constructor]. }
  assert (Hcalls : calls = [] \/ exists src0 kept0,
            Some src = Some src0 /\
            kept0 `sublist_of` detections_of eventData /\
            List.map call_attributes calls
            = List.map (fun d => call_attributes (metric_of src0 eventData d))
                kept0).
  { right. exists src, kept. split; [reflexivity|].
    split; [unfold detections_of; now rewrite Edets|].
    rewrite Hmap. apply List.map_ext. intros d.
    unfold metric_of, deviceId_of, attributes_for. now rewrite Edev, Hdid. }
  destruct o2 as [b| |e]; cbn [snd].
  - exists (L ++ [LogEnd]), calls.
    split; [|split; [right; apply Hlines; intros ? ?; discriminate|auto]].
    destruct Hp2 as (Hs & He & _ & Hc & Hk).
    destruct b; apply becomes_self; cbn;
      [exact Hs|exact He|now rewrite Hc, <- app_assoc|exact Hk
      |exact Hs|exact He|now rewrite Hc, <- app_assoc|exact Hk].
  - exists L, calls. split; [|split; [now right|auto]].
    apply becomes_self; destruct Hp2 as (Hs & He & _ & Hc & Hk); auto.
  - exists (L ++ [ErrorFailedToHandleEvent e]), calls.
    split; [|split; [right; apply Hlines; intros ? ?; discriminate|auto]].
    destruct Hp2 as (Hs & He & _ & Hc & Hk).
    apply becomes_self; cbn;
      [exact Hs|exact He|now rewrite Hc, <- app_assoc|exact Hk].
Qed.

Lemma becomes_new_lines p p' lines calls times :
  becomes p p' lines calls times -> new_lines p p' = lines.
Proof.
  intros (_ & _ & _ & Hl & _). unfold new_lines. rewrite Hl.
  apply drop_app_length.
Qed.

(** X1: whatever the payload and however the counter behaves, an event
    makes at most one counter call per class name. *)
Theorem at_most_one_call_per_class eventSource eventDetails eventData now p
    className :
  let p' := snd (handleEvent eventSource eventDetails eventData now p) in
  (List.length (List.filter (has_class className) (new_calls p p')) <= 1)%nat.
Proof.
  intros p'. subst p'.
  destruct (handleEvent_trace eventSource eventDetails eventData now p)
    as (lines & calls & Hb & _ & _ & Hone).
  rewrite (becomes_new_calls _ _ _ _ _ Hb). exact (Hone className).
Qed.

(** X2: the counter calls of an event are made in the detector's reporting
    order, at most one per detection: their attribute lists are those of a
    subsequence of [results.detections]. So an event never makes more calls
    than its payload has detections, and none when the payload has no
    detections array. *)
Theorem calls_follow_reporting_order eventSource eventDetails eventData now p :
  let p' := snd (handleEvent eventSource eventDetails eventData now p) in
  (new_calls p p' = [] \/
   exists src kept,
     eventSource = Some src /\
     kept `sublist_of` detections_of eventData /\
     List.map call_attributes (new_calls p p')
       = List.map (fun d => call_attributes (metric_of src eventData d)) kept) /\
  (List.length (new_calls p p') <= List.length (detections_of eventData))%nat.
Proof.
  intros p'. subst p'.
  destruct (handleEvent_trace eventSource eventDetails eventData now p)
    as (lines & calls & Hb & _ & Hcalls & _).
  rewrite (becomes_new_calls _ _ _ _ _ Hb). split; [exact Hcalls|].
  destruct Hcalls as [-> | (src & kept & _ & Hsub & Hmap)]; [cbn; lia|].
  apply (f_equal (@List.length _)) in Hmap. rewrite !List.length_map in Hmap.
  rewrite Hmap. now apply sublist_length.
Qed.

(** X3: an event only adds to the console and to the counter's record, and
    leaves the settings, the counter and the cooldown entries of all other
    devices as they were. *)
Theorem handleEvent_frame eventSource eventDetails eventData now p :
  let p' := snd (handleEvent eventSource eventDetails eventData now p) in
  settings p' = settings p /\
  eventCounter p' = eventCounter p /\
  console p `prefix_of` console p' /\
  counterCalls p `prefix_of` counterCalls p' /\
  forall dev,
    (forall src, eventSource = Some src -> ScryptedDevice.id src <> Some dev) ->
    lastEmissionTime p' !! dev = lastEmissionTime p !! dev.
Proof.
  intros p'. subst p'.
  destruct (handleEvent_trace eventSource eventDetails eventData now p)
    as (lines & calls & (Hs & He & _ & Hl & Hc) & _).
  split; [exact Hs|]. split; [exact He|].
  split; [rewrite Hl; now apply prefix_app_r|].
  split; [rewrite Hc; now apply prefix_app_r|].
  intros dev Hother.
  destruct (handleEvent_cases eventSource eventDetails eventData now p)
    as (lines' & calls' & [[Hb _] | (src & d & did & a & elems & H)]).
  - now rewrite (becomes_times _ _ _ _ _ Hb).
  - destruct H as (_ & Hsrc & Hd & _ & _ & _ & _ & _ & _ & H).
    destruct H as [(_ & _ & _ & Hb) | (e & _ & _ & _ & _ & Hb)];
      rewrite (becomes_times _ _ _ _ _ Hb); [|reflexivity].
    apply lookup_insert_ne. intros ->. exact (Hother src Hsrc Hd).
Qed.

Lemma handleEvent_frame_witness :
  let p := Examples.plugin "" Examples.okCounter {[ "d2" := 4000 ]} in
  let p' := snd (handleEvent (Some Examples.camera) Examples.details
                   Examples.s2 5000 p) in
  lastEmissionTime p' !! "d2" = Some 4000.
Proof.
  intros p p'.
  destruct (handleEvent_frame (Some Examples.camera) Examples.details
              Examples.s2 5000 p) as (_ & _ & _ & _ & H).
  unfold p'. rewrite (H "d2"); [reflexivity|].
  intros src [= <-]. discriminate.
Defined.

(** X4: the cooldown diagnostic appears only inside the window, and it is
    then all the event does. When [handleEvent] writes the [COOLDOWN] line,
    the device has a stored emission less than the cooldown ago, the line
    names the device, and nothing else happens: the handler returns, no
    other line is written, the counter is not called and the cooldown map
    stays as it was. *)
Theorem cooldown_diagnostic_is_sole_effect eventSource eventDetails eventData
    now p name t :
  let r := handleEvent eventSource eventDetails eventData now p in
  In (LogCooldown name t) (new_lines p (snd r)) ->
  fst r = Returned /\
  new_lines p (snd r) = [LogCooldown name t] /\
  new_calls p (snd r) = [] /\
  lastEmissionTime (snd r) = lastEmissionTime p /\
  exists src dev last,
    eventSource = Some src /\ ScryptedDevice.id src = Some dev /\
    name = ScryptedDevice.name src /\
    lastEmissionTime p !! dev = Some last /\ last <> 0 /\
    now - last < cooldownMs (settings p).
Proof.
  intros r Hin. subst r.
  destruct (handleEvent_trace eventSource eventDetails eventData now p)
    as (lines & calls & Hb & Hlines & _).
  rewrite (becomes_new_calls _ _ _ _ _ Hb).
  rewrite (becomes_new_lines _ _ _ _ _ Hb) in *.
  destruct Hlines as [(-> & src & dev & last & -> & Hdev & Hlast & Hnz & Hlt & ->)
                     | Hno].
  2:{ rewrite List.Forall_forall in Hno. now destruct (Hno _ Hin name t). }
  destruct Hin as [[= <- <-] | []].
  assert (inCooldown (lastEmissionTime p !! dev) now (cooldownMs (settings p))
          = true) as Hcool.
  { rewrite Hlast. cbn. apply andb_true_iff. split.
    - apply negb_true_iff, Z.eqb_neq. exact Hnz.
    - apply Z.ltb_lt. exact Hlt. }
  destruct (handleEvent_cases (Some src) eventDetails eventData now p)
    as (lines' & calls' & [[Hb' _] | (src' & dev' & did & a & elems & H)]).
  - assert (fst (handleEvent (Some src) eventDetails eventData now p)
            = Returned) as Hret.
    { pose proof (becomes_new_lines _ _ _ _ _ Hb) as Hl.
      rewrite handleEvent_catch, handleEvent_try_eq in Hl |- *.
      destruct (disabled p); [reflexivity|]. rewrite Hdev in Hl |- *.
      destruct (negb (JsString.truthy dev)); [reflexivity|].
      destruct (get_property eventData "detectionId") as [did|e];
        [|exfalso; unfold new_lines in Hl; cbn in Hl;
          rewrite drop_app_length in Hl; discriminate Hl].
      destruct (negb (truthy did)); [reflexivity|].
      rewrite Hcool. reflexivity. }
    split; [exact Hret|]. split; [reflexivity|]. split; [reflexivity|].
    split; [now apply becomes_times in Hb'|].
    exists src, dev, last. repeat split; assumption.
  - destruct H as (_ & [= <-] & Hdev' & _ & _ & _ & Hcool' & _).
    rewrite Hdev in Hdev'. injection Hdev' as <-. congruence.
Qed.

Lemma cooldown_diagnostic_is_sole_effect_witness :
  let p := Examples.plugin "" Examples.okCounter {[ "d1" := 1000000 ]} in
  let r := handleEvent (Some Examples.camera) Examples.details
             Examples.s2 1007000 p in
  fst r = Returned /\
  new_lines p (snd r) = [LogCooldown (Some "Front Door Camera") 3] /\
  new_calls p (snd r) = [] /\
  lastEmissionTime (snd r) = lastEmissionTime p.
Proof.
  intros p r.
  destruct (cooldown_diagnostic_is_sole_effect (Some Examples.camera)
              Examples.details Examples.s2 1007000 p
              (Some "Front Door Camera") 3)
    as (H1 & H2 & H3 & H4 & _).
  - vm_compute. left. reflexivity.
  - repeat split; assumption.
Defined.

(** ** Two events in a row *)

Lemma handleEvent_keeps_settings eventSource eventDetails eventData now p :
  let p' := snd (handleEvent eventSource eventDetails eventData now p) in
  settings p' = settings p /\ eventCounter p' = eventCounter p.
Proof.
  intros p'. subst p'.
  destruct (handleEvent_trace eventSource eventDetails eventData now p)
    as (lines & calls & (Hs & He & _) & _).
  auto.
Qed.

(** Only an event that passes the gate reaches the counter. *)
Lemma calls_pass_gate src eventDetails eventData now p :
  new_calls p (snd (handleEvent (Some src) eventDetails eventData now p)) <> [] ->
  passes_gate p src eventData now = true.
Proof.
  rewrite handleEvent_catch, handleEvent_try_eq. unfold passes_gate.
  destruct (disabled p); cbn [negb andb snd];
    [now rewrite new_calls_same|].
  destruct (ScryptedDevice.id src) as [dev|]; [|now rewrite new_calls_same].
  destruct (JsString.truthy dev); cbn [negb andb snd];
    [|now rewrite new_calls_same].
  unfold property_of.
  destruct (get_property eventData "detectionId") as [did|e]; cbn [snd];
    [|now rewrite new_calls_write_console].
  destruct (truthy did); cbn [negb andb snd]; [|now rewrite new_calls_same].
  destruct (inCooldown _ _ _); cbn [negb snd];
    [now rewrite new_calls_write_console|reflexivity].
Qed.

Lemma suppressed_in_cooldown src eventDetails eventData now p dev :
  ScryptedDevice.id src = Some dev ->
  inCooldown (lastEmissionTime p !! dev) now (cooldownMs (settings p)) = true ->
  let p' := snd (handleEvent (Some src) eventDetails eventData now p) in
  new_calls p p' = [] /\ lastEmissionTime p' = lastEmissionTime p.
Proof.
  intros Hdev Hcool p'. subst p'.
  destruct (handleEvent_cases (Some src) eventDetails eventData now p)
    as (lines & calls & [[Hb ->] | (s & d & did & a & elems & H)]).
  - now rewrite (becomes_new_calls _ _ _ _ _ Hb), (becomes_times _ _ _ _ _ Hb).
  - destruct H as (_ & [= <-] & Hd & _ & _ & _ & Hno & _). congruence.
Qed.

(** X5: the cooldown window is half-open and is not moved by suppressed
    sessions. After an event at [t0] that emitted and ran to its end
    without an exception, the device's entry is
    [t0]; a later event of the device at [t1] with
    [t1 - t0 < cooldownMs] reaches no counter and leaves the entry at [t0];
    one with [t1 - t0 >= cooldownMs] (equality included) is handled as a
    fresh session: for well-formed detections one call per survivor, and
    the entry moves to [t1] when there is one. *)
Theorem cooldown_window src eventDetails data0 data1 t0 t1 p0 ctr dev :
  let p1 := snd (handleEvent (Some src) eventDetails data0 t0 p0) in
  let p2 := snd (handleEvent (Some src) eventDetails data1 t1 p1) in
  let kept :=
    survivors (denylist (settings p0)) JsSet.empty (detections_of data1) in
  t0 <> 0 ->
  ScryptedDevice.id src = Some dev ->
  eventCounter p0 = Some ctr -> accepts ctr ->
  emitted p0 p1 <> [] ->
  (forall e,
      fst (handleEvent_try (Some src) eventDetails data0 t0 p0) <> Threw e) ->
  lastEmissionTime p1 !! dev = Some t0 /\
  (t1 - t0 < cooldownMs (settings p0) ->
   new_calls p1 p2 = [] /\ lastEmissionTime p2 = lastEmissionTime p1) /\
  (cooldownMs (settings p0) <= t1 - t0 ->
   truthy (property_of data1 "detectionId") = true ->
   forallb well_formed (detections_of data1) = true ->
   emitted p1 p2 = List.map (metric_of src data1) kept /\
   lastEmissionTime p2 =
     if nonempty kept then <[dev := t1]> (lastEmissionTime p1)
     else lastEmissionTime p1).
Proof.
  intros p1 p2 kept Ht0 Hdev Hctr Hacc Hem Hend.
  assert (Hcalls : new_calls p0 p1 <> []).
  { intros H. apply Hem. unfold emitted. now rewrite H. }
  pose proof (calls_pass_gate _ _ _ _ _ Hcalls) as Hgate0.
  destruct (passes_gate_inv _ _ _ _ Hgate0)
    as (dev' & did & Hdis & Hdev' & _ & Htdev & _ & _ & _ & _).
  assert (dev' = dev) as -> by congruence.
  destruct (handleEvent_keeps_settings (Some src) eventDetails data0 t0 p0)
    as (Hs & He).
  fold p1 in Hs, He.
  assert (Hentry : lastEmissionTime p1 !! dev = Some t0).
  { subst p1.
    destruct (handleEvent_cases (Some src) eventDetails data0 t0 p0)
      as (lines & calls & [[Hb ->] | (s & d & did' & a & elems & H)]).
    - now rewrite (becomes_new_calls _ _ _ _ _ Hb) in Hcalls.
    - destruct H as (_ & [= <-] & Hd & _ & _ & _ & _ & _ & _ & H).
      assert (d = dev) as -> by congruence.
      destruct H as [(_ & _ & _ & Hb) | (e & Hthrew & _)].
      + rewrite (becomes_times _ _ _ _ _ Hb). apply lookup_insert_eq.
      + now destruct (Hend e). }
  split; [exact Hentry|].
  assert (Hcool : inCooldown (lastEmissionTime p1 !! dev) t1
                    (cooldownMs (settings p1))
                  = (t1 - t0 <? cooldownMs (settings p0))).
  { rewrite Hentry, Hs. cbn [inCooldown].
    apply Z.eqb_neq in Ht0. now rewrite Ht0. }
  split.
  - intros Hlt. apply (suppressed_in_cooldown src eventDetails data1 t1 p1 dev Hdev).
    rewrite Hcool. now apply Z.ltb_lt.
  - intros Hge Hdid Hwf.
    assert (Hgate : passes_gate p1 src data1 t1 = true).
    { assert (Hdis1 : disabled p1 = false).
      { unfold disabled in *. now rewrite Hs, He. }
      unfold passes_gate. rewrite Hdis1, Hdev, Htdev, Hdid, Hcool. cbn.
      apply negb_true_iff, Z.ltb_ge, Hge. }
    destruct (handleEvent_well_formed src eventDetails data1 t1 p1 ctr)
      as (_ & Hem2 & _ & Hmap); try assumption; [congruence|].
    fold p2 in Hem2, Hmap. rewrite Hs in Hem2, Hmap. fold kept in Hem2, Hmap.
    split; [exact Hem2|]. unfold deviceId_of in Hmap. now rewrite Hdev in Hmap.
Qed.

Lemma cooldown_window_witness :
  let p0 := Examples.plugin "" Examples.okCounter ∅ in
  let p1 := snd (handleEvent (Some Examples.camera) Examples.details
                   Examples.s2 1000000 p0) in
  let p2 := snd (handleEvent (Some Examples.camera) Examples.details
                   Examples.s1 1010000 p1) in
  lastEmissionTime p1 !! "d1" = Some 1000000 /\
  lastEmissionTime p2 = <["d1" := 1010000]> (lastEmissionTime p1).
Proof.
  intros p0 p1 p2.
  destruct (cooldown_window Examples.camera Examples.details Examples.s2
              Examples.s1 1000000 1010000 p0 Examples.okCounter "d1")
    as (H1 & _ & H2); try reflexivity.
  - lia.
  - intros calls v a. reflexivity.
  - vm_compute. discriminate.
  - intros e. vm_compute. discriminate.
  - split; [exact H1|].
    destruct H2 as [_ H2]; [vm_compute; discriminate|reflexivity|reflexivity|].
    exact H2.
Defined.

(** ** The denylist as configured *)

Lemma trimEnd_idempotent s : JsString.trimEnd (JsString.trimEnd s) = JsString.trimEnd s.
Proof.
  induction s as [|c s IH]; [reflexivity|].
  cbn [JsString.trimEnd].
  destruct (JsString.trimEnd s) as [|c' t] eqn:E.
  - destruct (JsString.is_white_space c) eqn:Hc; [reflexivity|].
    cbn [JsString.trimEnd]. now rewrite Hc.
  - cbn [JsString.trimEnd]. cbn [JsString.trimEnd] in IH.
    destruct (JsString.trimEnd t) as [|c'' t'] eqn:E'.
    + destruct (JsString.is_white_space c'); [discriminate|].
      now rewrite IH.
    + now rewrite IH.
Qed.

Lemma trimStart_no_space s :
  starts_with_space s = false -> JsString.trimStart s = s.
Proof. destruct s as [|c s]; [reflexivity|]. cbn. now intros ->. Qed.

Lemma starts_with_space_trimStart s :
  starts_with_space (JsString.trimStart s) = false.
Proof.
  induction s as [|c s IH]; [reflexivity|]. cbn [JsString.trimStart].
  destruct (JsString.is_white_space c) eqn:Hc; [exact IH|]. cbn. exact Hc.
Qed.

Lemma starts_with_space_trimEnd s :
  starts_with_space s = false ->
  starts_with_space (JsString.trimEnd s) = false.
Proof.
  destruct s as [|c s]; [reflexivity|]. cbn [starts_with_space JsString.trimEnd].
  intros Hc. destruct (JsString.trimEnd s); rewrite ?Hc; cbn; now rewrite ?Hc.
Qed.

Lemma trim_idempotent s : JsString.trim (JsString.trim s) = JsString.trim s.
Proof.
  unfold JsString.trim.
  rewrite (trimStart_no_space (JsString.trimEnd (JsString.trimStart s))).
  - apply trimEnd_idempotent.
  - apply starts_with_space_trimEnd, starts_with_space_trimStart.
Qed.

Lemma comma_free_trimStart s :
  comma_free s = true -> comma_free (JsString.trimStart s) = true.
Proof.
  induction s as [|c s IH]; [reflexivity|]. cbn [JsString.trimStart].
  destruct (JsString.is_white_space c); [|auto].
  unfold comma_free. cbn. intros H. apply andb_true_iff in H as [_ H].
  now apply IH.
Qed.

Lemma comma_free_trimEnd s :
  comma_free s = true -> comma_free (JsString.trimEnd s) = true.
Proof.
  induction s as [|c s IH]; [reflexivity|]. unfold comma_free in *.
  cbn [JsString.trimEnd list_ascii_of_string forallb]. intros H.
  apply andb_true_iff in H as [Hc H]. specialize (IH H).
  destruct (JsString.trimEnd s) as [|c' t].
  - destruct (JsString.is_white_space c); [reflexivity|]. cbn.
    now rewrite Hc.
  - cbn [list_ascii_of_string forallb] in *. now rewrite Hc, IH.
Qed.

Lemma comma_free_split s :
  Forall (fun w => comma_free w = true) (JsString.split "," s).
Proof.
  induction s as [|c s IH]; [repeat constructor|].
  cbn [JsString.split]. destruct (Ascii.eqb c ",") eqn:Hc.
  - constructor; [reflexivity|exact IH].
  - destruct (JsString.split "," s) as [|w ws]; [|inversion IH; subst].
    + constructor; [|constructor]. unfold comma_free. cbn. now rewrite Hc.
    + constructor; [|assumption]. unfold comma_free in *. cbn.
      now rewrite Hc.
Qed.

Lemma truthy_nonempty s : JsString.truthy s = true <-> s <> "".
Proof. destruct s; cbn; split; congruence. Qed.

(** X6: every entry of the denylist read from [eventFilter] is non-empty,
    holds no comma and has no white space at either end; a filter made of
    commas and blanks only gives an empty denylist. *)
Theorem filters_of_normal eventFilter :
  Forall normal_entry (filters_of eventFilter) /\
  (Forall (fun w => JsString.trim w = "") (JsString.split "," eventFilter) ->
   filters_of eventFilter = []).
Proof.
  unfold filters_of. split.
  - apply List.Forall_forall. intros e He.
    apply filter_In in He as [He Hne]. apply in_map_iff in He as (w & <- & Hw).
    split; [now apply truthy_nonempty|]. split; [|apply trim_idempotent].
    pose proof (comma_free_split eventFilter) as Hall.
    rewrite List.Forall_forall in Hall.
    apply comma_free_trimEnd, comma_free_trimStart, Hall, Hw.
  - induction 1 as [|w ws Hw _ IH]; [reflexivity|].
    cbn [List.map List.filter]. now rewrite Hw.
Qed.

Lemma filters_of_normal_witness : filters_of " , ,," = [].
Proof.
  destruct (filters_of_normal " , ,,") as [_ H]. apply H.
  repeat constructor.
Defined.

Lemma split_comma_free w :
  comma_free w = true -> JsString.split "," w = [w].
Proof.
  induction w as [|c w IH]; [reflexivity|]. unfold comma_free in *.
  cbn [list_ascii_of_string forallb JsString.split String.append].
  intros H. apply andb_true_iff in H as [Hc H]. apply negb_true_iff in Hc.
  rewrite Hc. now rewrite (IH H).
Qed.

Lemma split_append w rest :
  comma_free w = true ->
  JsString.split "," (w ++ String "," rest)%string = w :: JsString.split "," rest.
Proof.
  induction w as [|c w IH].
  - intros _. change ("" ++ String "," rest)%string with (String "," rest).
    reflexivity.
  - unfold comma_free in *. cbn [list_ascii_of_string forallb].
    intros H. apply andb_true_iff in H as [Hc H]. apply negb_true_iff in Hc.
    change (String c w ++ String "," rest)%string
      with (String c (w ++ String "," rest)%string).
    cbn [JsString.split]. rewrite Hc. now rewrite (IH H).
Qed.

(** X7: writing a denylist as a comma-separated string and reading it back
    gives the same entries, in order, for entries that are non-empty, hold
    no comma and have no white space at their ends. *)
Theorem filters_of_concat entries :
  Forall normal_entry entries ->
  filters_of (String.concat "," entries) = entries.
Proof.
  unfold filters_of. intros Hall.
  assert (Hsplit : entries <> [] ->
            JsString.split "," (String.concat "," entries) = entries).
  { induction Hall as [|e es (Hne & Hcf & Htrim) Hes IH]; [congruence|].
    intros _. destruct es as [|e' es'].
    - now apply split_comma_free.
    - change (String.concat "," (e :: e' :: es'))
        with (e ++ String "," (String.concat "," (e' :: es')))%string.
      rewrite split_append by assumption.
      f_equal. now apply IH. }
  destruct entries as [|e es]; [reflexivity|].
  rewrite Hsplit by discriminate. clear Hsplit.
  induction Hall as [|e0 es0 (Hne & Hcf & Htrim) _ IH]; [reflexivity|].
  cbn [List.map List.filter]. rewrite Htrim.
  apply truthy_nonempty in Hne. rewrite Hne. now f_equal.
Qed.

Lemma filters_of_concat_witness :
  filters_of "motion,clip,plate" = ["motion"; "clip"; "plate"].
Proof.
  apply (filters_of_concat ["motion"; "clip"; "plate"]).
  repeat constructor; discriminate.
Defined.

Lemma prefix_spec a s :
  String.prefix a s = true <-> exists post, s = (a ++ post)%string.
Proof.
  revert s. induction a as [|c a IH]; intros s.
  - split; [intros _; now exists s|intros _; now destruct s].
  - destruct s as [|c' s]; cbn [String.prefix].
    + split; [discriminate|]. intros [post H]. discriminate.
    + destruct (Ascii.ascii_dec c c') as [->|Hne].
      * rewrite IH. split; intros [post H]; exists post.
        -- now rewrite H.
        -- now injection H.
      * split; [discriminate|]. intros [post H]. injection H as -> _.
        contradiction.
Qed.

Lemma includes_spec s sub :
  JsString.includes s sub = true <->
  exists pre post, s = (pre ++ sub ++ post)%string.
Proof.
  induction s as [|c s IH]; cbn [JsString.includes].
  - rewrite orb_false_r, prefix_spec. split.
    + intros [post H]. now exists "", post.
    + intros (pre & post & H). destruct pre; [now exists post|discriminate].
  - rewrite orb_true_iff, prefix_spec, IH. split.
    + intros [[post H] | (pre & post & H)].
      * now exists "", post.
      * exists (String c pre), post. now rewrite H.
    + intros (pre & post & H). destruct pre as [|c' pre].
      * left. now exists post.
      * right. injection H as -> H. now exists pre, post.
Qed.

(** X8: the filter test of the handler is a substring test and nothing
    else. For a class name that is a string, [shouldSkip] (lines 202-204)
    always answers, leaves the plugin as it is, and answers [true] exactly
    when the lower-cased class name can be written as some text, a
    lower-cased entry of the configured filter, and some text. *)
Theorem denylist_match_is_substring className p :
  (shouldSkip (JStr className) p = (Done true, p) \/
   shouldSkip (JStr className) p = (Done false, p)) /\
  (shouldSkip (JStr className) p = (Done true, p) <->
   exists configured entry pre post,
     eventFilter (settings p) = Some configured /\
     In entry (filters_of configured) /\
     JsString.toLowerCase className
     = (pre ++ JsString.toLowerCase entry ++ post)%string).
Proof.
  rewrite shouldSkip_eq.
  assert (shouldSkip_result (denylist (settings p)) (JStr className)
          = Done (matches (denylist (settings p)) className)) as ->.
  { unfold shouldSkip_result. now destruct (denylist (settings p)). }
  split; [destruct (matches _ _); auto|].
  assert (forall entry,
            In entry (denylist (settings p)) <->
            exists configured,
              eventFilter (settings p) = Some configured /\
              In entry (filters_of configured)) as Hentries.
  { intros entry. unfold denylist.
    destruct (eventFilter (settings p)) as [f|].
    - destruct f as [|c f]; cbn [JsString.truthy].
      + split; [intros []|]. intros (f' & [= <-] & Hin). exact Hin.
      + split; [intros Hin; eauto|]. intros (f' & [= <-] & Hin). exact Hin.
    - split; [intros []|]. intros (f' & Hf & _). discriminate Hf. }
  split.
  - intros [= Hm]. unfold matches in Hm. apply existsb_exists in Hm
      as (entry & Hin & Hinc).
    apply Hentries in Hin as (f & Hf & Hin).
    apply includes_spec in Hinc as (pre & post & Hinc).
    now exists f, entry, pre, post.
  - intros (f & entry & pre & post & Hf & Hin & Hlower).
    f_equal. f_equal. unfold matches. apply existsb_exists.
    exists entry. split; [apply Hentries; eauto|].
    apply includes_spec. now exists pre, post.
Qed.

(** ** Numbers through [toString] and [parseInt] *)

Lemma digit_value_digit_char d :
  0 <= d < 10 ->
  JsConvert.digit_value 10 (JsNumber.digit_char d) = Some d.
Proof.
  intros H.
  assert (d = 0 \/ d = 1 \/ d = 2 \/ d = 3 \/ d = 4 \/
          d = 5 \/ d = 6 \/ d = 7 \/ d = 8 \/ d = 9) as Hd by lia.
  repeat (destruct Hd as [-> | Hd]; [reflexivity|]). now subst.
Qed.

Lemma parse_digits_digits_go fuel : forall n acc,
  0 <= n < 10 ^ (Z.of_nat fuel + 1) ->
  JsConvert.parse_digits 10 (JsNumber.digits_go fuel n acc) None
  = JsConvert.parse_digits 10 acc (Some n).
Proof.
  induction fuel as [|fuel IH]; intros n acc Hn.
  - change (10 ^ (Z.of_nat 0 + 1)) with 10 in Hn.
    cbn [JsNumber.digits_go JsConvert.parse_digits].
    rewrite Z.mod_small by lia. rewrite digit_value_digit_char by lia.
    reflexivity.
  - cbn [JsNumber.digits_go]. destruct (n <? 10) eqn:Hlt.
    + apply Z.ltb_lt in Hlt. cbn [JsConvert.parse_digits].
      rewrite Z.mod_small by lia. rewrite digit_value_digit_char by lia.
      reflexivity.
    + apply Z.ltb_ge in Hlt. rewrite IH.
      * cbn [JsConvert.parse_digits].
        rewrite digit_value_digit_char by (apply Z.mod_pos_bound; lia).
        cbn [default]. do 2 f_equal. rewrite Z.mul_comm.
        symmetry. apply Z.div_mod. lia.
      * split; [apply Z.div_pos; lia|].
        apply Z.div_lt_upper_bound; [lia|].
        replace (Z.of_nat (S fuel) + 1) with (Z.succ (Z.of_nat fuel + 1)) in Hn
          by lia.
        rewrite Z.pow_succ_r in Hn by lia. lia.
Qed.

Lemma lt_pow10_log2 n : 0 <= n -> n < 10 ^ (Z.log2 n + 1).
Proof.
  intros Hn. destruct (Z.eq_dec n 0) as [->|Hnz]; [reflexivity|].
  pose proof (Z.log2_spec n ltac:(lia)) as [_ Hlt].
  pose proof (Z.log2_nonneg n).
  replace (Z.succ (Z.log2 n)) with (Z.log2 n + 1) in Hlt by lia.
  eapply Z.lt_le_trans; [exact Hlt|].
  apply Z.pow_le_mono_l. lia.
Qed.

Lemma parse_digits_digits n :
  0 <= n -> JsConvert.parse_digits 10 (JsNumber.digits n) None = Some n.
Proof.
  intros Hn. unfold JsNumber.digits. rewrite parse_digits_digits_go.
  - reflexivity.
  - rewrite Z2Nat.id by apply Z.log2_nonneg. split; [lia|].
    now apply lt_pow10_log2.
Qed.

Lemma digits_go_length fuel : forall n acc k,
  0 <= n < 10 ^ k -> 1 <= k ->
  (Z.of_nat (String.length (JsNumber.digits_go fuel n acc))
   <= k + Z.of_nat (String.length acc)).
Proof.
  induction fuel as [|fuel IH]; intros n acc k Hn Hk; cbn [JsNumber.digits_go].
  - cbn [String.length]. lia.
  - destruct (n <? 10) eqn:Hlt; [cbn [String.length]; lia|].
    apply Z.ltb_ge in Hlt.
    assert (2 <= k).
    { destruct (Z.eq_dec k 1) as [->|]; [|lia]. change (10 ^ 1) with 10 in Hn. lia. }
    specialize (IH (n / 10) (String (JsNumber.digit_char (n mod 10)) acc) (k - 1)).
    cbn [String.length] in IH.
    assert (0 <= n / 10 < 10 ^ (k - 1)).
    { split; [apply Z.div_pos; lia|]. apply Z.div_lt_upper_bound; [lia|].
      replace k with (Z.succ (k - 1)) in Hn by lia.
      rewrite Z.pow_succ_r in Hn by lia. lia. }
    lia.
Qed.

Lemma digits_length n k :
  0 <= n < 10 ^ k -> 1 <= k ->
  Z.of_nat (String.length (JsNumber.digits n)) <= k.
Proof.
  intros Hn Hk. unfold JsNumber.digits.
  pose proof (digits_go_length (Z.to_nat (Z.log2 n)) n "" k Hn Hk) as H.
  cbn [String.length] in H. lia.
Qed.

Lemma digits_head n :
  exists d rest, JsNumber.digits n = String d rest /\ is_digit d = true.
Proof.
  destruct (digits_all_digits n) as [Hall Hne].
  destruct (JsNumber.digits n) as [|d rest]; [contradiction|].
  exists d, rest. split; [reflexivity|]. cbn in Hall.
  now apply andb_true_iff in Hall as [Hd _].
Qed.
(** ** Integers through [toString] *)

Lemma interval_of_integral m :
  Z.pos m < 2 ^ 53 -> integral (JsConvert.interval_of m 0) (Z.pos m).
Proof.
  intros Hm. set (M := Z.pos m) in *.
  assert (0 <= Z.log2 M <= 52) as Hlog.
  { split; [apply Z.log2_nonneg|].
    assert (Z.log2 M < 53); [|lia].
    apply Z.log2_lt_pow2; unfold M; lia. }
  unfold integral, JsConvert.interval_of. fold M.
  cbn [JsConvert.unit JsConvert.X JsConvert.LOW JsConvert.HIGH].
  replace (Z.max (Z.log2 M + 0 - 52) (-1074)) with (Z.log2 M - 52) by lia.
  replace (Z.min 0 (Z.log2 M - 52 - 2)) with (- (54 - Z.log2 M)) by lia.
  replace (Z.log2 M - 52 - 1 - - (54 - Z.log2 M)) with 1 by lia.
  replace (0 - - (54 - Z.log2 M)) with (54 - Z.log2 M) by lia.
  change (2 ^ 1) with 2. change (2 / 2) with 1.
  exists (54 - Z.log2 M).
  exists (if (M =? 2 ^ Z.log2 M) && (-1074 <? Z.log2 M - 52) then 1 else 2).
  split; [lia|]. split; [destruct (_ && _); lia|].
  repeat split; reflexivity.
Qed.

Lemma reads_back_integral i M s j :
  integral i M -> 0 <= j ->
  JsConvert.reads_back i s j = (s * 10 ^ j =? M).
Proof.
  intros (k & c & Hk & Hc & Hu & HX & HL & HH) Hj.
  unfold JsConvert.reads_back, JsConvert.scaled_compare.
  rewrite Hu, HL, HH.
  replace (Z.min (- k) 0) with (- k) by lia.
  replace (Z.min 0 (- k)) with (- k) by lia.
  replace (Z.min 0 j) with 0 by lia. replace (Z.min j 0) with 0 by lia.
  replace (- k - - k) with 0 by lia. replace (0 - - k) with k by lia.
  replace (0 - 0) with 0 by lia. replace (j - 0) with j by lia.
  change (2 ^ 0) with 1. change (10 ^ 0) with 1.
  assert (4 <= 2 ^ k) as HP.
  { change 4 with (2 ^ 2). apply Z.pow_le_mono_r; lia. }
  set (P := 2 ^ k) in *. set (T := s * 10 ^ j).
  replace (s * P * 10 ^ j) with (T * P) by (unfold T; ring).
  rewrite !Z.mul_1_r.
  destruct (Z.eqb_spec T M) as [->|Hne].
  - replace (M * P - c ?= M * P) with Lt by (symmetry; apply Z.compare_lt_iff; lia).
    replace (M * P ?= M * P + 2) with Lt by (symmetry; apply Z.compare_lt_iff; lia).
    reflexivity.
  - destruct (Z.lt_ge_cases T M) as [Hlt|Hge].
    + replace (M * P - c ?= T * P) with Gt; [reflexivity|].
      symmetry. apply Z.compare_gt_iff. nia.
    + replace (M * P - c ?= T * P) with Lt
        by (symmetry; apply Z.compare_lt_iff; nia).
      replace (T * P ?= M * P + 2) with Gt; [reflexivity|].
      symmetry. apply Z.compare_gt_iff. nia.
Qed.

Lemma floor_scaled_integral i M j :
  integral i M -> 0 <= j -> JsConvert.floor_scaled i j = M / 10 ^ j.
Proof.
  intros (k & c & Hk & Hc & Hu & HX & HL & HH) Hj.
  unfold JsConvert.floor_scaled. rewrite Hu, HX.
  replace (Z.max (- k) 0) with 0 by lia.
  replace (Z.max (- j) 0) with 0 by lia.
  replace (Z.max (- - k) 0) with k by lia.
  replace (Z.max j 0) with j by lia.
  change (2 ^ 0) with 1. change (10 ^ 0) with 1. rewrite !Z.mul_1_r.
  rewrite (Z.mul_comm M). apply Z.div_mul_cancel_l.
  - assert (0 < 10 ^ j) by (apply Z.pow_pos_nonneg; lia). lia.
  - assert (0 < 2 ^ k) by (apply Z.pow_pos_nonneg; lia). lia.
Qed.

Lemma candidate_integral i M j :
  integral i M -> 0 <= j ->
  JsConvert.candidate i j
  = if M / 10 ^ j * 10 ^ j =? M then Some (M / 10 ^ j) else None.
Proof.
  intros Hi Hj. unfold JsConvert.candidate.
  rewrite (floor_scaled_integral i M j Hi Hj).
  rewrite !(reads_back_integral i M _ j Hi Hj).
  assert (0 < 10 ^ j) as Hpos by (apply Z.pow_pos_nonneg; lia).
  pose proof (Z.div_mod M (10 ^ j) ltac:(lia)) as Hdm.
  pose proof (Z.mod_pos_bound M (10 ^ j) Hpos) as Hmod.
  replace ((M / 10 ^ j + 1) * 10 ^ j =? M) with false
    by (symmetry; apply Z.eqb_neq; nia).
  destruct (_ =? M); reflexivity.
Qed.

Lemma shortest_go_integral i M : forall fuel j,
  integral i M -> 0 <= j -> (Z.to_nat j < fuel)%nat ->
  exists s j', JsConvert.shortest_go fuel i j = (s, j') /\
               0 <= j' /\ s * 10 ^ j' = M.
Proof.
  induction fuel as [|fuel IH]; intros j Hi Hj Hfuel; [lia|].
  cbn [JsConvert.shortest_go]. rewrite (candidate_integral i M j Hi Hj).
  destruct (Z.eqb_spec (M / 10 ^ j * 10 ^ j) M) as [Heq|Hne].
  - exists (M / 10 ^ j), j. auto.
  - destruct (Z.eq_dec j 0) as [->|Hnz].
    + exfalso. apply Hne. change (10 ^ 0) with 1. rewrite Z.div_1_r. lia.
    + apply IH; [assumption|lia|lia].
Qed.

Lemma digits_length_pos n : (1 <= String.length (JsNumber.digits n))%nat.
Proof.
  destruct (digits_head n) as (d & rest & -> & _). cbn. lia.
Qed.

Lemma toString_integer neg m :
  Z.pos m < 2 ^ 53 ->
  JsConvert.toString (S754_finite neg m 0)
  = ((if neg then "-" else "") ++ JsNumber.digits (Z.pos m))%string.
Proof.
  intros Hm. pose proof (interval_of_integral m Hm) as Hi.
  cbn [JsConvert.toString]. set (i := JsConvert.interval_of m 0) in *.
  assert (Z.of_nat (String.length (JsNumber.digits (Z.pos m))) <= 16) as Hlen.
  { apply digits_length; [|lia]. split; [lia|].
    eapply Z.lt_trans; [exact Hm|]. reflexivity. }
  assert (JsConvert.decimal_exponent i
          = Z.of_nat (String.length (JsNumber.digits (Z.pos m)))) as Hexp.
  { unfold JsConvert.decimal_exponent.
    rewrite (floor_scaled_integral i (Z.pos m) 0 Hi ltac:(lia)).
    change (10 ^ 0) with 1. rewrite Z.div_1_r.
    destruct (Z.leb_spec 1 (Z.pos m)); [reflexivity|lia]. }
  pose proof (digits_length_pos (Z.pos m)) as Hpos.
  destruct (shortest_go_integral i (Z.pos m) 17
              (JsConvert.decimal_exponent i - 1) Hi) as (s & j & Hgo & Hj & Hs).
  { rewrite Hexp. lia. }
  { rewrite Hexp. lia. }
  unfold JsConvert.shortest. rewrite Hgo. f_equal.
  unfold JsConvert.render.
  destruct (Z.leb_spec 0 j); [|lia]. rewrite Hs.
  destruct (Z.leb_spec (Z.of_nat (String.length (JsNumber.digits (Z.pos m)))) 21);
    [reflexivity|lia].
Qed.
(** ** [parseInt] after [toString] *)

Lemma digit_is_plain c :
  is_digit c = true ->
  JsString.is_white_space c = false /\ Ascii.eqb c "-"%char = false /\
  Ascii.eqb c "+"%char = false /\ Ascii.eqb c "x"%char = false /\
  Ascii.eqb c "X"%char = false.
Proof.
  destruct c as [[] [] [] [] [] [] [] []]; intros H;
    try discriminate H; repeat split; reflexivity.
Qed.

Lemma round_to_double_small neg M :
  0 < M < 2 ^ 53 ->
  JsConvert.round_to_double neg M = S754_finite neg (Z.to_pos M) 0.
Proof.
  intros [Hpos Hlt]. unfold JsConvert.round_to_double.
  destruct (Z.eqb_spec M 0); [lia|].
  assert (Z.log2 M < 53) by (apply Z.log2_lt_pow2; lia).
  destruct (Z.leb_spec (Z.log2 M) 52); [reflexivity|lia].
Qed.

Lemma parseInt_digits (neg : bool) (M : Z) :
  0 <= M ->
  JsConvert.parseInt ((if neg then "-" else "") ++ JsNumber.digits M)%string
  = JsConvert.round_to_double neg M.
Proof.
  intros HM. pose proof (parse_digits_digits M HM) as Hparse.
  destruct (digits_all_digits M) as [Hall _].
  destruct (JsNumber.digits M) as [|d rest] eqn:E; [discriminate Hparse|].
  cbn [all_digits] in Hall. apply andb_true_iff in Hall as [Hd Hrest].
  destruct (digit_is_plain d Hd) as (Hws & Hminus & Hplus & _).
  assert (match String d rest with
          | String c (String x r) =>
              if Ascii.eqb c "0"%char && (Ascii.eqb x "x"%char || Ascii.eqb x "X"%char)
              then (16, r) else (10, String d rest)
          | _ => (10, String d rest)
          end = (10, String d rest)) as Hradix.
  { destruct rest as [|x r]; [reflexivity|].
    cbn [all_digits] in Hrest. apply andb_true_iff in Hrest as [Hx _].
    destruct (digit_is_plain x Hx) as (_ & _ & _ & -> & ->).
    now rewrite andb_false_r. }
  unfold JsConvert.parseInt. destruct neg.
  - change ("-" ++ String d rest)%string with (String "-" (String d rest)).
    cbn [JsString.trimStart].
    change (JsString.is_white_space "-"%char) with false. cbv iota.
    change (Ascii.eqb "-"%char "-"%char) with true. cbv iota.
    rewrite Hradix, Hparse. reflexivity.
  - change ("" ++ String d rest)%string with (String d rest).
    cbn [JsString.trimStart]. rewrite Hws, Hminus, Hplus.
    rewrite Hradix, Hparse. reflexivity.
Qed.

Lemma of_Z_nonzero z :
  z <> 0 -> Z.abs z < 2 ^ 53 ->
  JsConvert.of_Z z = S754_finite (z <? 0) (Z.to_pos (Z.abs z)) 0.
Proof.
  intros Hz Hlt. unfold JsConvert.of_Z. apply round_to_double_small. lia.
Qed.

Lemma toString_of_Z z :
  Z.abs z < 2 ^ 53 ->
  JsConvert.toString (JsConvert.of_Z z)
  = ((if (z <? 0)%Z then "-" else "") ++ JsNumber.digits (Z.abs z))%string.
Proof.
  intros Hlt. destruct (Z.eq_dec z 0) as [->|Hz]; [reflexivity|].
  rewrite of_Z_nonzero by assumption.
  rewrite toString_integer by (rewrite Z2Pos.id; lia).
  rewrite Z2Pos.id by lia. reflexivity.
Qed.

Lemma parseInt_toString x :
  Config.stable x -> JsConvert.parseInt (JsConvert.toString x) = x.
Proof.
  intros [->|(z & Hlt & ->)]; [reflexivity|].
  rewrite toString_of_Z by assumption.
  rewrite parseInt_digits by lia. reflexivity.
Qed.

Lemma toString_stable_truthy x :
  Config.stable x -> JsString.truthy (JsConvert.toString x) = true.
Proof.
  intros [->|(z & Hlt & ->)]; [reflexivity|].
  rewrite toString_of_Z by assumption.
  destruct (digits_head (Z.abs z)) as (d & rest & -> & _).
  destruct (z <? 0); reflexivity.
Qed.

Lemma parseInt_number_or x fallback :
  Config.stable_or_unset x ->
  JsConvert.parseInt (Config.number_or x fallback)
  = default (JsConvert.parseInt fallback) x.
Proof.
  destruct x as [n|]; [|reflexivity]. cbn [Config.stable_or_unset].
  intros Hn. unfold Config.number_or.
  rewrite toString_stable_truthy by assumption.
  now apply parseInt_toString.
Qed.

Lemma number_or_truthy x fallback :
  JsString.truthy fallback = true ->
  JsString.truthy (Config.number_or x fallback) = true.
Proof.
  intros Hf. unfold Config.number_or. destruct x as [n|]; [|assumption].
  destruct (JsString.truthy (JsConvert.toString n)) eqn:E; assumption.
Qed.

Lemma item_or_present (storage : gmap string string) key s fallback :
  storage !! key = Some s -> JsString.truthy s = true ->
  Config.item_or storage key fallback = s.
Proof.
  intros Hk Hs. unfold Config.item_or. now rewrite Hk, Hs.
Qed.

(** What [saveSettings] leaves under each of its keys. *)
Lemma saveSettings_lookup s (st : gmap string string) :
  Config.saveSettings s st !! "deviceCooldown"
    = Some (Config.number_or (Config.deviceCooldown s) "10") /\
  Config.saveSettings s st !! "exportInterval"
    = Some (Config.number_or (Config.exportInterval s) "10000") /\
  Config.saveSettings s st !! "eventFilter"
    = Some (to_string (or_else (Config.eventFilter s) (JStr ""))) /\
  Config.saveSettings s st !! "enabled"
    = Some (if default false (Config.enabled s) then "true" else "false") /\
  Config.saveSettings s st !! "endpoint"
    = match Config.endpoint s with
      | Some e => if JsString.truthy e then Some e else st !! "endpoint"
      | None => st !! "endpoint"
      end.
Proof.
  unfold Config.saveSettings.
  repeat split;
    repeat first [ rewrite lookup_insert_eq | rewrite lookup_insert_ne by done ];
    try reflexivity.
  destruct (Config.endpoint s) as [[|c e]|]; cbn [JsString.truthy];
    [reflexivity| |reflexivity].
  now rewrite lookup_insert_eq.
Qed.
(** ** Settings through storage *)

Lemma saveSettings_other s (st : gmap string string) k :
  k <> "endpoint" -> k <> "enabled" -> k <> "eventFilter" ->
  k <> "exportInterval" -> k <> "deviceCooldown" ->
  Config.saveSettings s st !! k = st !! k.
Proof.
  intros H1 H2 H3 H4 H5. unfold Config.saveSettings.
  repeat rewrite lookup_insert_ne by congruence.
  destruct (Config.endpoint s) as [e|]; [|reflexivity].
  destruct (JsString.truthy e); [|reflexivity].
  now rewrite lookup_insert_ne by congruence.
Qed.

Lemma loadSettings_saveSettings s (st : gmap string string) :
  Config.stable_or_unset (Config.exportInterval s) ->
  Config.stable_or_unset (Config.deviceCooldown s) ->
  Config.loadSettings (Config.saveSettings s st)
  = {| Config.endpoint :=
         match Config.endpoint s with
         | Some e => if JsString.truthy e then Some e
                     else Config.endpoint (Config.loadSettings st)
         | None => Config.endpoint (Config.loadSettings st)
         end;
       Config.enabled := Some (default false (Config.enabled s));
       Config.eventFilter :=
         JStr (to_string (or_else (Config.eventFilter s) (JStr "")));
       Config.exportInterval :=
         Some (default (JsConvert.of_Z 10000) (Config.exportInterval s));
       Config.deviceCooldown :=
         Some (default (JsConvert.of_Z 10) (Config.deviceCooldown s)) |}.
Proof.
  intros Hint Hcool.
  destruct (saveSettings_lookup s st) as (Hdc & Hei & Hef & Hen & Hep).
  unfold Config.loadSettings, Config.item_or.
  rewrite Hdc, Hei, Hef, Hen, Hep.
  rewrite !number_or_truthy by reflexivity.
  rewrite !parseInt_number_or by assumption.
  f_equal.
  - destruct (Config.endpoint s) as [[|c e]|]; reflexivity.
  - f_equal. destruct (default false (Config.enabled s)); reflexivity.
  - f_equal. destruct (to_string _); reflexivity.
Qed.

(** X9: what was saved is what is loaded.  [saveSettings] followed by
    [loadSettings] gives back [enabled], [eventFilter] and the two numbers,
    an unset field as its default, provided each number is NaN or an integer
    below [2^53] in magnitude; a truthy endpoint comes back too, while an
    unset or empty one loads as whatever the storage held before. *)
Theorem settings_survive_reload s (st : gmap string string) :
  Config.stable_or_unset (Config.exportInterval s) ->
  Config.stable_or_unset (Config.deviceCooldown s) ->
  let s' := Config.loadSettings (Config.saveSettings s st) in
  Config.enabled s' = Some (default false (Config.enabled s)) /\
  Config.eventFilter s'
    = JStr (to_string (or_else (Config.eventFilter s) (JStr ""))) /\
  Config.exportInterval s'
    = Some (default (JsConvert.of_Z 10000) (Config.exportInterval s)) /\
  Config.deviceCooldown s'
    = Some (default (JsConvert.of_Z 10) (Config.deviceCooldown s)) /\
  Config.endpoint s'
    = match Config.endpoint s with
      | Some e => if JsString.truthy e then Some e
                  else Config.endpoint (Config.loadSettings st)
      | None => Config.endpoint (Config.loadSettings st)
      end.
Proof.
  intros Hint Hcool s'. subst s'.
  rewrite loadSettings_saveSettings by assumption.
  repeat split; reflexivity.
Qed.

Lemma settings_survive_reload_witness :
  let s := {| Config.endpoint := Some "http://collector:4318/v1/metrics";
              Config.enabled := Some true;
              Config.eventFilter := JStr "motion, clip";
              Config.exportInterval := Some (JsConvert.of_Z 5000);
              Config.deviceCooldown := None |} in
  let s' := Config.loadSettings (Config.saveSettings s ∅) in
  Config.enabled s' = Some true /\
  Config.eventFilter s' = JStr "motion, clip" /\
  Config.exportInterval s' = Some (JsConvert.of_Z 5000) /\
  Config.deviceCooldown s' = Some (JsConvert.of_Z 10) /\
  Config.endpoint s' = Some "http://collector:4318/v1/metrics".
Proof.
  intros s.
  apply (settings_survive_reload s ∅).
  - right. exists 5000. split; reflexivity.
  - exact I.
Defined.

(** X10: saving again what was loaded changes nothing.  After a
    [saveSettings], the sequence [loadSettings] then [saveSettings] (a
    restart followed by a [putSetting]) leaves the storage as it is. *)
Theorem reload_then_save_is_identity s (st : gmap string string) :
  Config.stable_or_unset (Config.exportInterval s) ->
  Config.stable_or_unset (Config.deviceCooldown s) ->
  let st' := Config.saveSettings s st in
  Config.saveSettings (Config.loadSettings st') st' = st'.
Proof.
  intros Hint Hcool st'. subst st'.
  set (st' := Config.saveSettings s st).
  pose proof (loadSettings_saveSettings s st Hint Hcool) as Hload.
  fold st' in Hload.
  destruct (saveSettings_lookup s st) as (Hdc & Hei & Hef & Hen & Hep).
  fold st' in Hdc, Hei, Hef, Hen, Hep.
  destruct (saveSettings_lookup (Config.loadSettings st') st')
    as (Hdc' & Hei' & Hef' & Hen' & Hep').
  rewrite Hload in Hdc', Hei', Hef', Hen', Hep'.
  cbn [Config.deviceCooldown Config.exportInterval Config.eventFilter
       Config.enabled Config.endpoint default] in *.
  rewrite Hload. apply map_eq. intros k.
  destruct (decide (k = "deviceCooldown")) as [->|H5].
  { rewrite Hdc', Hdc. f_equal.
    destruct (Config.deviceCooldown s) as [n|]; [|reflexivity]. reflexivity. }
  destruct (decide (k = "exportInterval")) as [->|H4].
  { rewrite Hei', Hei. f_equal.
    destruct (Config.exportInterval s) as [n|]; reflexivity. }
  destruct (decide (k = "eventFilter")) as [->|H3].
  { rewrite Hef', Hef. f_equal.
    destruct (to_string (or_else (Config.eventFilter s) (JStr "")));
      reflexivity. }
  destruct (decide (k = "enabled")) as [->|H2].
  { rewrite Hen', Hen. reflexivity. }
  destruct (decide (k = "endpoint")) as [->|H1].
  { rewrite Hep', !Hep. unfold Config.loadSettings. cbn [Config.endpoint].
    destruct (Config.endpoint s) as [[|c e]|]; cbn [JsString.truthy];
      try reflexivity;
      destruct (st !! "endpoint") as [[|c0 e0]|]; reflexivity. }
  now apply saveSettings_other.
Qed.

Lemma reload_then_save_is_identity_witness :
  let s := {| Config.endpoint := None;
              Config.enabled := Some true;
              Config.eventFilter := JUndefined;
              Config.exportInterval := Some S754_nan;
              Config.deviceCooldown := Some (JsConvert.of_Z (-3)) |} in
  let st' := Config.saveSettings s {["endpoint" := "http://old:4318"]} in
  Config.saveSettings (Config.loadSettings st') st' = st'.
Proof.
  intros s.
  apply (reload_then_save_is_identity s {["endpoint" := "http://old:4318"]}).
  - left. reflexivity.
  - right. exists (-3). split; reflexivity.
Defined.

(** X11: what [saveSettings] writes and what it leaves alone.  It always
    writes the four keys [enabled], [eventFilter], [exportInterval] and
    [deviceCooldown], the two numbers never as an empty string; it changes no
    key other than its five; it removes nothing; and with an unset or empty
    endpoint it leaves the stored endpoint as it is, so an endpoint once
    stored is never cleared. *)
Theorem saveSettings_frame s (st : gmap string string) :
  let st' := Config.saveSettings s st in
  (exists en ef ei dc,
     st' !! "enabled" = Some en /\ (en = "true" \/ en = "false") /\
     st' !! "eventFilter" = Some ef /\
     st' !! "exportInterval" = Some ei /\ ei <> "" /\
     st' !! "deviceCooldown" = Some dc /\ dc <> "") /\
  (forall k, ~ In k ["endpoint"; "enabled"; "eventFilter"; "exportInterval";
                      "deviceCooldown"] -> st' !! k = st !! k) /\
  (forall k, is_Some (st !! k) -> is_Some (st' !! k)) /\
  (JsString.truthy (default "" (Config.endpoint s)) = false ->
   st' !! "endpoint" = st !! "endpoint").
Proof.
  intros st'. subst st'.
  destruct (saveSettings_lookup s st) as (Hdc & Hei & Hef & Hen & Hep).
  assert (forall x fb, JsString.truthy fb = true -> Config.number_or x fb <> "")
    as Hne.
  { intros x fb Hfb E. pose proof (number_or_truthy x fb Hfb) as Ht.
    rewrite E in Ht. discriminate Ht. }
  split; [|split; [|split]].
  - do 4 eexists.
    split; [exact Hen|]. split; [destruct (default false _); auto|].
    split; [exact Hef|]. split; [exact Hei|]. split; [now apply Hne|].
    split; [exact Hdc|]. now apply Hne.
  - intros k Hk. apply saveSettings_other; intros ->; apply Hk; cbn; auto 6.
  - intros k Hsome.
    destruct (decide (k = "deviceCooldown")) as [->|H5]; [now rewrite Hdc|].
    destruct (decide (k = "exportInterval")) as [->|H4]; [now rewrite Hei|].
    destruct (decide (k = "eventFilter")) as [->|H3]; [now rewrite Hef|].
    destruct (decide (k = "enabled")) as [->|H2]; [now rewrite Hen|].
    destruct (decide (k = "endpoint")) as [->|H1].
    + rewrite Hep. destruct (Config.endpoint s) as [e|]; [|assumption].
      destruct (JsString.truthy e); [eauto|assumption].
    + now rewrite saveSettings_other.
  - intros Hfalsy. rewrite Hep.
    destruct (Config.endpoint s) as [e|]; [|reflexivity].
    cbn in Hfalsy. now rewrite Hfalsy.
Qed.

(** A fractional cooldown does not survive a reload: [2.5] is stored as
    [2.5] and read back by [parseInt] as [2]. *)
Example fraction_is_truncated_on_reload :
  let s := {| Config.endpoint := None; Config.enabled := None;
              Config.eventFilter := JUndefined; Config.exportInterval := None;
              Config.deviceCooldown := Some (S754_finite false 5 (-1)) |} in
  Config.saveSettings s ∅ !! "deviceCooldown" = Some "2.5" /\
  Config.deviceCooldown (Config.loadSettings (Config.saveSettings s ∅))
  = Some (JsConvert.of_Z 2).
Proof. split; vm_compute; reflexivity. Qed.

(** ** The conversions on concrete inputs *)

Example toString_examples :
  JsConvert.toString (S754_finite false 7205759403792794 (-56)) = "0.1" /\
  JsConvert.toString (S754_finite true 8687443681197687 (-46)) = "-123.456" /\
  JsConvert.toString (S754_finite false 7629394531250000 17) = "1e+21" /\
  JsConvert.toString (S754_finite false 7555786372591432 (-76)) = "1e-7" /\
  JsConvert.toString (S754_finite false 4722366482869645 (-72)) = "0.000001" /\
  JsConvert.toString (S754_finite false 9007199254740991 971)
    = "1.7976931348623157e+308" /\
  JsConvert.toString (S754_finite false 1 (-1074)) = "5e-324" /\
  JsConvert.toString (S754_zero true) = "0" /\
  JsConvert.toString (JsConvert.of_Z 60000) = "60000".
Proof. repeat split; vm_compute; reflexivity. Qed.

Example parseInt_examples :
  JsConvert.parseInt "10000" = JsConvert.of_Z 10000 /\
  JsConvert.parseInt "  -42.9px" = JsConvert.of_Z (-42) /\
  JsConvert.parseInt "0x1F" = JsConvert.of_Z 31 /\
  JsConvert.parseInt "1e3" = JsConvert.of_Z 1 /\
  JsConvert.parseInt "-0" = S754_zero true /\
  JsConvert.parseInt "ten" = S754_nan /\
  JsConvert.parseInt "9007199254740993"
    = S754_finite false 4503599627370496 1.
Proof. repeat split; vm_compute; reflexivity. Qed.

(** * The lifecycle: settings, initialisation and shutdown *)

Section LifecycleFacts.
Local Notation pluginCounter := eventCounter (only parsing).
Import Lifecycle.
Local Open Scope host_scope.

Lemma preserves_ret {A T} (f : Host -> T) (a : A) : preserves f (ret a).
Proof. intros h. reflexivity. Qed.

Lemma preserves_throw {A T} (f : Host -> T) e : preserves f (@throw A e).
Proof. intros h. reflexivity. Qed.

Lemma preserves_gets {A T} (f : Host -> T) (g : Host -> A) :
  preserves f (gets g).
Proof. intros h. reflexivity. Qed.

Lemma preserves_lift {A T} (f : Host -> T) (r : A + thrown) :
  preserves f (lift r).
Proof. intros h. destruct r; reflexivity. Qed.

Lemma preserves_modify {T} (f : Host -> T) (g : Host -> Host) :
  (forall h, f (g h) = f h) -> preserves f (modify g).
Proof. intros Hg h. apply Hg. Qed.

Lemma preserves_bind {A B T} (f : Host -> T) (m : H A) (k : A -> H B) :
  preserves f m -> (forall a, preserves f (k a)) -> preserves f (bind m k).
Proof.
  intros Hm Hk h. unfold bind. specialize (Hm h).
  destruct (m h) as [[a| |e] h1]; cbn [snd] in *; [|assumption..].
  now rewrite Hk.
Qed.

Lemma preserves_try_catch {A T} (f : Host -> T) (m : H A) handler :
  preserves f m -> (forall e, preserves f (handler e)) ->
  preserves f (try_catch m handler).
Proof.
  intros Hm Hk h. unfold try_catch. specialize (Hm h).
  destruct (m h) as [[a| |e] h1]; cbn [snd] in *; [assumption..|].
  now rewrite Hk.
Qed.

Lemma preserves_console_log {T} (f : Host -> T) l :
  (forall h, f (write l h) = f h) -> preserves f (console_log l).
Proof. intros Hf. now apply preserves_modify. Qed.

Lemma preserves_if {A T} (f : Host -> T) (b : bool) (m1 m2 : H A) :
  preserves f m1 -> preserves f m2 -> preserves f (if b then m1 else m2).
Proof. destruct b; auto. Qed.

(** One step of a proof that a function preserves a view of the host. *)
Ltac preserve_step :=
  first
    [ apply preserves_ret | apply preserves_throw | apply preserves_gets
    | apply preserves_lift
    | apply preserves_console_log; intros; reflexivity
    | apply preserves_modify; intros; reflexivity
    | apply preserves_bind; [|intros]
    | apply preserves_try_catch; [|intros]
    | apply preserves_if
    | match goal with
      | |- preserves _ (match ?x with _ => _ end) => destruct x
      end ].

Ltac preserve := repeat (intros; preserve_step).

Lemma validateEndpoint_frame sdk endpoint :
  preserves but_console (validateEndpoint sdk endpoint).
Proof. unfold validateEndpoint. preserve. Qed.

Lemma removeListeners_frame l : preserves but_console (removeListeners l).
Proof.
  induction l as [|[deviceId listener] rest IH]; cbn [removeListeners].
  - preserve.
  - apply preserves_bind; [preserve|intros; exact IH].
Qed.

Lemma value_of_frame {T} (f : Host -> T) deviceState key :
  preserves f (value_of deviceState key).
Proof. unfold value_of. preserve. Qed.

Lemma interfaces_include_frame {T} (f : Host -> T) deviceState name :
  preserves f (interfaces_include deviceState name).
Proof.
  unfold interfaces_include.
  apply preserves_bind; [apply value_of_frame|intros]. preserve.
Qed.

Lemma interfaces_join_frame {T} (f : Host -> T) deviceState :
  preserves f (interfaces_join deviceState).
Proof.
  unfold interfaces_join.
  apply preserves_bind; [apply value_of_frame|intros]. preserve.
Qed.

Lemma subscribe_frame sdk deviceId deviceState :
  preserves but_listeners (subscribe sdk deviceId deviceState).
Proof.
  unfold subscribe.
  apply preserves_try_catch; [|intros; preserve].
  apply preserves_bind; [preserve|intros].
  apply preserves_bind; [apply value_of_frame|intros].
  apply preserves_bind; [preserve|intros].
  apply preserves_bind; [apply value_of_frame|intros].
  apply preserves_bind; [preserve|intros].
  apply preserves_bind; [apply interfaces_join_frame|intros].
  preserve.
Qed.

Lemma forDevices_frame sdk l : preserves but_listeners (forDevices sdk l).
Proof.
  induction l as [|[deviceId deviceState] rest IH]; cbn [forDevices].
  - preserve.
  - apply preserves_bind; [apply value_of_frame|intros].
    apply preserves_bind; [apply interfaces_include_frame|intros].
    apply preserves_bind; [apply interfaces_include_frame|intros].
    apply preserves_bind; [|intros; exact IH].
    apply preserves_if; [apply subscribe_frame|preserve].
Qed.

Lemma setupDeviceListeners_frame sdk :
  preserves but_listeners (setupDeviceListeners sdk).
Proof.
  unfold setupDeviceListeners.
  apply preserves_try_catch; [|intros; preserve].
  apply preserves_bind; [preserve|intros].
  apply preserves_bind; [preserve|intros].
  apply preserves_bind; [apply forDevices_frame|intros].
  preserve.
Qed.

Lemma cleanup_frame awaited : preserves configuration (cleanup awaited).
Proof.
  unfold cleanup.
  apply preserves_bind; [preserve|intros listeners].
  apply preserves_bind.
  { intros h. pose proof (removeListeners_frame listeners h) as Hf.
    unfold but_console in Hf. unfold configuration. congruence. }
  intros _. unfold suspend. preserve.
Qed.

Lemma preserves_weaken {A T U} (f : Host -> T) (g : Host -> U) (m : H A) :
  (forall h h', f h' = f h -> g h' = g h) ->
  preserves f m -> preserves g m.
Proof. intros Hfg Hm h. apply Hfg, Hm. Qed.

Lemma but_console_write l h : but_console (write l h) = but_console h.
Proof. reflexivity. Qed.

(** [validateEndpoint] answers whether the endpoint is accepted, and
    writes one line when it is not. *)
Lemma validateEndpoint_accepted sdk endpoint h :
  accepted sdk endpoint ->
  validateEndpoint sdk endpoint h = (Done true, h).
Proof.
  intros (protocol & Hurl & Hok).
  unfold validateEndpoint, try_catch, bind, lift. rewrite Hurl. cbn.
  now rewrite Hok.
Qed.

Lemma validateEndpoint_rejected sdk endpoint h :
  ~ accepted sdk endpoint ->
  exists line, validateEndpoint sdk endpoint h = (Done false, write line h).
Proof.
  intros Hno. unfold validateEndpoint, try_catch, bind, lift.
  destruct (URL_protocol sdk endpoint) as [protocol|error] eqn:Hurl; cbn.
  - destruct (allowed_protocol protocol) eqn:Hok.
    + exfalso. apply Hno. now exists protocol.
    + cbn. now exists (ErrorInvalidProtocol protocol).
  - now exists (ErrorInvalidEndpointURL error).
Qed.

Lemma accepted_dec sdk endpoint :
  accepted sdk endpoint \/ ~ accepted sdk endpoint.
Proof.
  unfold accepted.
  destruct (URL_protocol sdk endpoint) as [protocol|error] eqn:Hurl.
  - destruct (allowed_protocol protocol) eqn:Hok.
    + left. now exists protocol.
    + right. intros (p & Hp & Hallowed). congruence.
  - right. intros (p & Hp & _). discriminate Hp.
Qed.

(** [putSetting], statement by statement. *)
Lemma putSetting_eq sdk key v h :
  putSetting sdk key v h =
  let h1 := write (LogSetting key v) h in
  match update sdk key v h1 with
  | (Done _, h2) =>
      let h3 :=
        set_storage (Config.saveSettings (settings h2) (storage h2)) h2 in
      if needsReinit key (is_enabled h) (Config.endpoint (settings h)) h3
      then initialize sdk h3
      else if negb (is_enabled h3) && is_enabled h then
        (let* completed := cleanup true in
         if completed then suspend AfterCleanup else ret tt) h3
      else (Done tt, h3)
  | (Returned, h2) => (Returned, h2)
  | (Threw e, h2) => (Threw e, h2)
  end.
Proof.
  unfold putSetting, bind at 1 2 3 4. cbn [console_log modify gets].
  change (is_enabled (write (LogSetting key v) h)) with (is_enabled h).
  change (settings (write (LogSetting key v) h)) with (settings h).
  cbv zeta.
  destruct (update sdk key v (write (LogSetting key v) h)) as [[[]| |e] h2];
    [|reflexivity..].
  unfold bind at 1 2. cbn [saveSettings modify gets].
  destruct (needsReinit _ _ _ _); [reflexivity|].
  unfold bind at 1. cbn [gets].
  destruct (negb _ && _); reflexivity.
Qed.

(** What the [switch] of [putSetting] does to the endpoint. *)
Lemma update_endpoint sdk key v h :
  let r := update sdk key v h in
  (exists e, fst r = Threw e /\ but_console (snd r) = but_console h /\
             key = "endpoint" /\
             exists endpoint, v = JStr endpoint /\
               JsString.truthy endpoint = true /\ ~ accepted sdk endpoint) \/
  (fst r = Done tt /\
   but_console (set_settings (settings h) (snd r)) = but_console h /\
   (Config.endpoint (settings (snd r)) = Config.endpoint (settings h) \/
    key = "endpoint" /\
    exists endpoint, v = JStr endpoint /\ JsString.truthy endpoint = true /\
      accepted sdk endpoint /\
      Config.endpoint (settings (snd r)) = Some endpoint)).
Proof.
  unfold update.
  destruct (String.eqb_spec key "enabled") as [->|_];
    [right; repeat split; auto|].
  destruct (String.eqb_spec key "endpoint") as [->|_].
  - destruct v as [| | | |endpoint| |]; try (right; repeat split; auto; fail).
    destruct (JsString.truthy endpoint) eqn:Ht;
      [|right; repeat split; auto].
    destruct (accepted_dec sdk endpoint) as [Hyes|Hno].
    + right. unfold bind. rewrite validateEndpoint_accepted by assumption.
      cbn. repeat split; auto. right. split; [reflexivity|].
      now exists endpoint.
    + left. unfold bind.
      destruct (validateEndpoint_rejected sdk endpoint h Hno) as [line ->].
      cbn. exists (Error "Invalid endpoint URL. Only http and https protocols are allowed.").
      repeat split; auto. now exists endpoint.
  - destruct (String.eqb key "eventFilter");
      [right; repeat split; auto|].
    destruct (String.eqb key "exportInterval");
      [right; repeat split; auto|].
    destruct (String.eqb key "deviceCooldown");
      right; repeat split; auto.
Qed.

Lemma saveSettings_idempotent s (st : gmap string string) :
  Config.saveSettings s (Config.saveSettings s st) = Config.saveSettings s st.
Proof.
  destruct (saveSettings_lookup s st) as (Hdc & Hei & Hef & Hen & Hep).
  destruct (saveSettings_lookup s (Config.saveSettings s st))
    as (Hdc' & Hei' & Hef' & Hen' & Hep').
  apply map_eq. intros k.
  destruct (decide (k = "deviceCooldown")) as [->|H5]; [congruence|].
  destruct (decide (k = "exportInterval")) as [->|H4]; [congruence|].
  destruct (decide (k = "eventFilter")) as [->|H3]; [congruence|].
  destruct (decide (k = "enabled")) as [->|H2]; [congruence|].
  destruct (decide (k = "endpoint")) as [->|H1].
  - rewrite Hep', Hep. destruct (Config.endpoint s) as [e|]; [|reflexivity].
    destruct (JsString.truthy e); reflexivity.
  - now apply saveSettings_other.
Qed.

Lemma in_sync_configuration h h' :
  configuration h' = configuration h -> in_sync h -> in_sync h'.
Proof.
  unfold configuration, in_sync. intros [= -> ->]. auto.
Qed.

Lemma in_sync_saved h :
  in_sync (set_storage
             (Config.saveSettings (settings h) (storage h)) h).
Proof. unfold in_sync. cbn. apply saveSettings_idempotent. Qed.

Lemma but_console_configuration h h' :
  but_console h' = but_console h -> configuration h' = configuration h.
Proof. unfold but_console, configuration. congruence. Qed.

Lemma but_listeners_configuration h h' :
  but_listeners h' = but_listeners h -> configuration h' = configuration h.
Proof. unfold but_listeners, configuration. congruence. Qed.

(** The [try] block of [initialize] and its [catch]. *)
Lemma initialize_eq sdk endpoint h :
  truthy_endpoint h = Some endpoint -> accepted sdk endpoint ->
  initialize sdk h =
  try_catch
    (cleanup false ;;;
     let* interval := gets (fun h => exportIntervalMillis (settings h)) in
     match create sdk endpoint interval with
     | FailedBeforeProvider error => throw error
     | FailedAfterProvider provider error =>
         modify (set_meterProvider (Some provider)) ;;;
         throw error
     | Created provider counter =>
         modify (set_meterProvider (Some provider)) ;;;
         modify (set_eventCounter (Some counter)) ;;;
         setupDeviceListeners sdk ;;;
         console_log (LogInitialized endpoint)
     end)
    (fun error =>
       console_error (ErrorFailedToInitialize error) ;;;
       assign (set_enabled false) ;;;
       saveSettings) h.
Proof.
  intros He Hok. unfold initialize. unfold bind at 1. cbn [gets].
  rewrite He. unfold bind at 1.
  rewrite validateEndpoint_accepted by assumption. reflexivity.
Qed.

Lemma initialize_body_configuration sdk endpoint :
  preserves configuration
    (cleanup false ;;;
     let* interval := gets (fun h => exportIntervalMillis (settings h)) in
     match create sdk endpoint interval with
     | FailedBeforeProvider error => throw error
     | FailedAfterProvider provider error =>
         modify (set_meterProvider (Some provider)) ;;;
         throw error
     | Created provider counter =>
         modify (set_meterProvider (Some provider)) ;;;
         modify (set_eventCounter (Some counter)) ;;;
         setupDeviceListeners sdk ;;;
         console_log (LogInitialized endpoint)
     end).
Proof.
  apply preserves_bind; [apply cleanup_frame|intros _].
  apply preserves_bind; [preserve|intros interval].
  destruct (create sdk endpoint interval); [|preserve..].
  apply preserves_bind; [preserve|intros _].
  apply preserves_bind; [preserve|intros _].
  apply preserves_bind; [|preserve].
  eapply preserves_weaken; [|apply setupDeviceListeners_frame].
  apply but_listeners_configuration.
Qed.

Lemma try_catch_cases {A} (m : H A) handler h :
  (exists e, m h = (Threw e, snd (m h)) /\
             try_catch m handler h = handler e (snd (m h))) \/
  (try_catch m handler h = m h /\ forall e, fst (m h) <> Threw e).
Proof.
  unfold try_catch. destruct (m h) as [[a| |e] h1]; cbn [fst snd].
  - right. split; [reflexivity|discriminate].
  - right. split; [reflexivity|discriminate].
  - left. now exists e.
Qed.

Lemma initialize_in_sync sdk h :
  in_sync h -> in_sync (snd (initialize sdk h)).
Proof.
  intros Hsync.
  destruct (truthy_endpoint h) as [endpoint|] eqn:He.
  - destruct (accepted_dec sdk endpoint) as [Hok|Hno].
    + rewrite (initialize_eq sdk endpoint h He Hok).
      pose proof (initialize_body_configuration sdk endpoint h) as Hbody.
      match goal with
      | |- context [try_catch ?m ?k h] =>
          destruct (try_catch_cases m k h) as [(e & _ & ->)|[-> _]]
      end.
      * match goal with
        | |- in_sync (snd (_ (snd ?r))) =>
            apply (in_sync_saved
                     (set_settings (set_enabled false (settings (snd r)))
                        (write (ErrorFailedToInitialize e) (snd r))))
        end.
      * eapply in_sync_configuration; eassumption.
    + unfold initialize. unfold bind at 1. cbn [gets]. rewrite He.
      unfold bind at 1.
      destruct (validateEndpoint_rejected sdk endpoint h Hno) as [line ->].
      apply (in_sync_saved
               (set_settings (set_enabled false (settings h))
                  (write ErrorInvalidEndpoint (write line h)))).
  - unfold initialize. unfold bind at 1. cbn [gets]. rewrite He.
    exact Hsync.
Qed.

Lemma cleanup_then_suspend_configuration :
  preserves configuration
    (let* completed := cleanup true in
     if completed then suspend AfterCleanup else ret tt).
Proof.
  apply preserves_bind; [apply cleanup_frame|intros completed].
  unfold suspend. preserve.
Qed.

Lemma no_throw_bind {A B} (m : H A) (k : A -> H B) :
  no_throw m -> (forall a, no_throw (k a)) -> no_throw (bind m k).
Proof.
  intros Hm Hk h e. unfold bind. specialize (Hm h).
  destruct (m h) as [[a| |e'] h1]; cbn [fst] in *.
  - apply Hk.
  - discriminate.
  - now destruct (Hm e').
Qed.

Lemma no_throw_try_catch {A} (m : H A) handler :
  (forall e, no_throw (handler e)) -> no_throw (try_catch m handler).
Proof.
  intros Hk h e. unfold try_catch.
  destruct (m h) as [[a| |e'] h1]; cbn [fst]; try discriminate.
  apply Hk.
Qed.

Lemma no_throw_ret {A} (a : A) : no_throw (ret a).
Proof. intros h e. discriminate. Qed.

Lemma no_throw_gets {A} (g : Host -> A) : no_throw (gets g).
Proof. intros h e. discriminate. Qed.

Lemma no_throw_modify g : no_throw (modify g).
Proof. intros h e. discriminate. Qed.

Lemma no_throw_if {A} (b : bool) (m1 m2 : H A) :
  no_throw m1 -> no_throw m2 -> no_throw (if b then m1 else m2).
Proof. destruct b; auto. Qed.

Ltac no_throw_step :=
  first
    [ apply no_throw_ret | apply no_throw_gets | apply no_throw_modify
    | apply no_throw_bind; [|intros]
    | apply no_throw_try_catch; intros
    | apply no_throw_if
    | match goal with
      | |- no_throw (match ?x with _ => _ end) => destruct x
      end ].

Ltac never_throws := repeat (intros; no_throw_step).

Lemma validateEndpoint_no_throw sdk endpoint :
  no_throw (validateEndpoint sdk endpoint).
Proof. unfold validateEndpoint, console_error, console_log. never_throws. Qed.

Lemma removeListeners_no_throw l : no_throw (removeListeners l).
Proof.
  induction l as [|[deviceId listener] rest IH]; cbn [removeListeners].
  - never_throws.
  - apply no_throw_bind; [|intros; exact IH].
    unfold console_error, console_log. never_throws.
Qed.

Lemma cleanup_no_throw awaited : no_throw (cleanup awaited).
Proof.
  unfold cleanup.
  apply no_throw_bind; [never_throws|intros listeners].
  apply no_throw_bind; [apply removeListeners_no_throw|intros _].
  unfold console_error, console_log, suspend. never_throws.
Qed.

Lemma initialize_no_throw sdk : no_throw (initialize sdk).
Proof.
  unfold initialize.
  apply no_throw_bind; [never_throws|intros [endpoint|]].
  - apply no_throw_bind; [apply validateEndpoint_no_throw|intros valid].
    unfold console_error, console_log, assign, saveSettings. never_throws.
  - unfold console_error, console_log. never_throws.
Qed.

Lemma validateEndpoint_fixed {T} (f : Host -> T) sdk endpoint :
  (forall h h', but_console h' = but_console h -> f h' = f h) ->
  preserves f (validateEndpoint sdk endpoint).
Proof.
  intros Hf. eapply preserves_weaken; [exact Hf|].
  apply validateEndpoint_frame.
Qed.

Lemma initialize_fixed_settings sdk :
  preserves fixed_settings (initialize sdk).
Proof.
  unfold initialize.
  apply preserves_bind; [preserve|intros [endpoint|]]; [|preserve].
  apply preserves_bind.
  { apply validateEndpoint_fixed. unfold but_console, fixed_settings.
    intros h h' [= -> _ _ _ _ _]. reflexivity. }
  intros valid. apply preserves_if.
  { unfold console_error, assign, saveSettings. preserve. }
  apply preserves_try_catch;
    [|unfold console_error, assign, saveSettings; preserve].
  eapply preserves_weaken; [|apply initialize_body_configuration].
  unfold configuration, fixed_settings. intros h h' [= -> _]. reflexivity.
Qed.

Lemma cleanup_then_suspend_no_throw :
  no_throw
    (let* completed := cleanup true in
     if completed then suspend AfterCleanup else ret tt).
Proof.
  apply no_throw_bind; [apply cleanup_no_throw|intros completed].
  unfold suspend. never_throws.
Qed.

(** The three ways [putSetting] goes on after [saveSettings]. *)
Lemma putSetting_rest sdk key (oldEnabled : bool) oldEndpoint h3 :
  let r :=
    if needsReinit key oldEnabled oldEndpoint h3 then initialize sdk h3
    else if negb (is_enabled h3) && oldEnabled then
      (let* completed := cleanup true in
       if completed then suspend AfterCleanup else ret tt) h3
    else (Done tt, h3) in
  (forall e, fst r <> Threw e) /\
  fixed_settings (snd r) = fixed_settings h3 /\
  (in_sync h3 -> in_sync (snd r)).
Proof.
  cbv zeta. destruct (needsReinit key oldEnabled oldEndpoint h3).
  - split; [intros e; apply initialize_no_throw|].
    split; [apply initialize_fixed_settings|apply initialize_in_sync].
  - destruct (negb (is_enabled h3) && oldEnabled).
    + split; [intros e; apply cleanup_then_suspend_no_throw|].
      pose proof (cleanup_then_suspend_configuration h3) as Hc.
      split.
      * revert Hc. unfold configuration, fixed_settings.
        intros [= -> _]. reflexivity.
      * intros Hs. eapply in_sync_configuration; eassumption.
    + split; [discriminate|]. split; [reflexivity|auto].
Qed.

(** X12: an endpoint that [validateEndpoint] does not accept is rejected
    before anything is assigned. [putSetting('endpoint', value)] with a
    non-empty string whose URL does not parse, or whose protocol is neither
    [http:] nor [https:], throws; the settings, the storage, the SDK objects
    and the listeners stay as they were, and the console gets the line
    that announces the setting and the one that reports the endpoint. *)
Theorem invalid_endpoint_is_rejected sdk endpoint h :
  JsString.truthy endpoint = true -> ~ accepted sdk endpoint ->
  exists line,
    putSetting sdk "endpoint" (JStr endpoint) h
    = (Threw (Error "Invalid endpoint URL. Only http and https protocols are allowed."),
       write line (write (LogSetting "endpoint" (JStr endpoint)) h)) /\
    match URL_protocol sdk endpoint with
    | inl protocol => line = ErrorInvalidProtocol protocol
    | inr error => line = ErrorInvalidEndpointURL error
    end.
Proof.
  intros Ht Hno. rewrite putSetting_eq. cbv zeta.
  unfold update. cbn [String.eqb Ascii.eqb Bool.eqb]. rewrite Ht.
  unfold bind at 1.
  set (h1 := write (LogSetting "endpoint" (JStr endpoint)) h).
  unfold validateEndpoint, try_catch, bind, lift.
  destruct (URL_protocol sdk endpoint) as [protocol|error] eqn:Hurl; cbn.
  - destruct (allowed_protocol protocol) eqn:Hok.
    + exfalso. apply Hno. now exists protocol.
    + cbn. now exists (ErrorInvalidProtocol protocol).
  - now exists (ErrorInvalidEndpointURL error).
Qed.

Lemma putSetting_cases sdk key v h :
  let r := putSetting sdk key v h in
  (exists e endpoint,
     fst r = Threw e /\ configuration (snd r) = configuration h /\
     key = "endpoint" /\ v = JStr endpoint /\
     JsString.truthy endpoint = true /\ ~ accepted sdk endpoint) \/
  ((forall e, fst r <> Threw e) /\ in_sync (snd r) /\
   (Config.endpoint (settings (snd r)) = Config.endpoint (settings h) \/
    key = "endpoint" /\
    exists endpoint, v = JStr endpoint /\ JsString.truthy endpoint = true /\
      accepted sdk endpoint /\
      Config.endpoint (settings (snd r)) = Some endpoint)).
Proof.
  cbv zeta. rewrite putSetting_eq. cbv zeta.
  set (h1 := write (LogSetting key v) h).
  destruct (update_endpoint sdk key v h1)
    as [(e & Hfst & Hsnd & -> & endpoint & -> & Ht & Hno)
       |(Hfst & Hsnd & Hendpoint)].
  - left. exists e, endpoint.
    destruct (update sdk "endpoint" (JStr endpoint) h1) as [o h2].
    cbn [fst snd] in *. subst o. cbn [fst snd].
    repeat split; auto.
    apply but_console_configuration. now rewrite Hsnd.
  - right.
    destruct (update sdk key v h1) as [o h2].
    cbn [fst snd] in *. subst o.
    set (h3 := set_storage _ h2).
    destruct (putSetting_rest sdk key (is_enabled h)
                (Config.endpoint (settings h)) h3) as (Hno & Hfixed & Hsync).
    cbv zeta in Hno, Hfixed, Hsync.
    split; [exact Hno|]. split; [apply Hsync, in_sync_saved|].
    assert (Config.endpoint (settings (snd
              (if needsReinit key (is_enabled h)
                    (Config.endpoint (settings h)) h3
               then initialize sdk h3
               else if negb (is_enabled h3) && is_enabled h
                    then (let* completed := cleanup true in
                          if completed then suspend AfterCleanup else ret tt)
                           h3
                    else (Done tt, h3))))
            = Config.endpoint (settings h2)) as ->.
    { revert Hfixed. unfold fixed_settings. intros [= -> _ _ _]. reflexivity. }
    exact Hendpoint.
Qed.

(** X13: [putSetting] keeps the storage up to date. Unless it throws, it
    ends with the storage holding the settings as [saveSettings] writes
    them, also when the initialisation it started failed and switched the
    plugin off; when it throws, settings and storage are as before. So the
    settings a restart loads are those in force. *)
Theorem putSetting_persists sdk key v h :
  let r := putSetting sdk key v h in
  match fst r with
  | Threw _ => configuration (snd r) = configuration h
  | _ => exists st, storage (snd r)
                    = Config.saveSettings (settings (snd r)) st
  end.
Proof.
  cbv zeta.
  destruct (putSetting_cases sdk key v h)
    as [(e & endpoint & Hfst & Hsame & _)|(Hno & Hsync & _)];
    cbv zeta in *.
  - now rewrite Hfst.
  - assert (exists st, storage (snd (putSetting sdk key v h))
                       = Config.saveSettings
                           (settings (snd (putSetting sdk key v h))) st)
      as Hst by (eexists; symmetry; exact Hsync).
    destruct (fst (putSetting sdk key v h)) as [a| |e]; [assumption..|].
    now destruct (Hno e).
Qed.

(** X14: the endpoint changes only to an accepted one. Whatever the key
    and the value, after [putSetting] the endpoint is the one before, or
    the key is [endpoint] and the value a non-empty string that
    [validateEndpoint] accepts, which is then the endpoint in the settings
    and in the storage. No call clears the endpoint, and none but this one
    changes it. *)
Theorem endpoint_changes_only_when_accepted sdk key v h :
  let h' := snd (putSetting sdk key v h) in
  Config.endpoint (settings h') = Config.endpoint (settings h) \/
  key = "endpoint" /\
  exists endpoint,
    v = JStr endpoint /\ JsString.truthy endpoint = true /\
    accepted sdk endpoint /\
    Config.endpoint (settings h') = Some endpoint /\
    storage h' !! "endpoint" = Some endpoint.
Proof.
  cbv zeta.
  destruct (putSetting_cases sdk key v h)
    as [(e & endpoint & _ & Hsame & _)
       |(_ & Hsync & [Hold|(-> & endpoint & -> & Ht & Hok & Hnew)])];
    cbv zeta in *.
  - left. revert Hsame. unfold configuration. intros [= -> _]. reflexivity.
  - now left.
  - right. split; [reflexivity|]. exists endpoint.
    repeat split; auto.
    rewrite <- Hsync.
    destruct (saveSettings_lookup
                (settings (snd (putSetting sdk "endpoint" (JStr endpoint) h)))
                (storage (snd (putSetting sdk "endpoint" (JStr endpoint) h))))
      as (_ & _ & _ & _ & ->).
    now rewrite Hnew, Ht.
Qed.

Lemma write_all_app lines l h :
  write_all (lines ++ [l]) h = write l (write_all lines h).
Proof. unfold write_all. now rewrite fold_left_app. Qed.

Lemma but_console_write_all lines h :
  but_console (write_all lines h) = but_console h.
Proof.
  revert h. induction lines as [|l rest IH]; intros h; [reflexivity|].
  cbn. now rewrite IH.
Qed.

Lemma removeListeners_eq l h :
  removeListeners l h = (Done tt, write_all (remove_errors l) h).
Proof.
  revert h. induction l as [|[deviceId listener] rest IH]; intros h;
    [reflexivity|].
  cbn [removeListeners remove_errors]. unfold bind.
  destruct (removeListener_throws listener) as [error|]; cbn; apply IH.
Qed.

(** [cleanup] up to its [await], in its three cases. *)
Lemma cleanup_eq awaited h :
  cleanup awaited h =
  match meterProvider h with
  | Some p =>
      match shutdown_throws p with
      | Some error =>
          (Done true,
           set_eventCounter None
             (set_meterProvider None
                (write (ErrorFailedToShutdown error) (unsubscribed h))))
      | None =>
          (Done false,
           set_waiting (waiting h ++ [AfterShutdown awaited])
             (unsubscribed h))
      end
  | None => (Done true, unsubscribed h)
  end.
Proof.
  unfold cleanup. unfold bind at 1. cbn [gets].
  unfold bind at 1. rewrite removeListeners_eq.
  unfold bind at 1. cbn [modify]. unfold bind at 1. cbn [gets].
  assert (but_console (write_all (remove_errors (deviceListeners h)) h)
          = but_console h) as Hframe by apply but_console_write_all.
  unfold but_console in Hframe. injection Hframe as _ _ Hp _ _ Hw.
  change (meterProvider (set_deviceListeners [] ?x)) with (meterProvider x).
  rewrite Hp.
  destruct (meterProvider h) as [p|]; [|reflexivity].
  destruct (shutdown_throws p) as [error|]; [reflexivity|].
  unfold bind, suspend. cbn [modify ret]. unfold unsubscribed.
  change (waiting (set_deviceListeners [] ?x)) with (waiting x).
  now rewrite Hw.
Qed.

Lemma but_listeners_unsubscribed h :
  but_listeners (unsubscribed h) = but_listeners h.
Proof.
  unfold unsubscribed.
  pose proof (but_console_write_all (remove_errors (deviceListeners h)) h)
    as Hframe.
  unfold but_console in Hframe. unfold but_listeners. cbn.
  congruence.
Qed.

(** The part of [initialize] that follows a successful creation. *)
Lemma after_creation_frame sdk endpoint :
  preserves but_listeners
    (setupDeviceListeners sdk ;;; console_log (LogInitialized endpoint)).
Proof.
  apply preserves_bind; [apply setupDeviceListeners_frame|preserve].
Qed.

Lemma setupDeviceListeners_no_throw sdk : no_throw (setupDeviceListeners sdk).
Proof.
  unfold setupDeviceListeners. apply no_throw_try_catch. intros e.
  unfold console_error, console_log. never_throws.
Qed.

Lemma after_creation_no_throw sdk endpoint :
  no_throw
    (setupDeviceListeners sdk ;;; console_log (LogInitialized endpoint)).
Proof.
  apply no_throw_bind; [apply setupDeviceListeners_no_throw|intros _].
  unfold console_log. never_throws.
Qed.

(** [initialize] with an accepted endpoint, from the host [cleanup] leaves
    to the one [initialize] ends with. *)
Lemma initialize_after_cleanup sdk endpoint h :
  truthy_endpoint h = Some endpoint -> accepted sdk endpoint ->
  let hc := snd (cleanup false h) in
  let h1 := snd (initialize sdk h) in
  waiting h1 = waiting hc /\
  match create sdk endpoint (exportIntervalMillis (settings h)) with
  | Created provider counter =>
      meterProvider h1 = Some provider /\ eventCounter h1 = Some counter /\
      configuration h1 = configuration h /\
      deviceListeners h1
      = deviceListeners
          (snd (setupDeviceListeners sdk
                  (set_eventCounter (Some counter)
                     (set_meterProvider (Some provider) hc))))
  | FailedBeforeProvider _ =>
      meterProvider h1 = meterProvider hc /\
      eventCounter h1 = eventCounter hc /\
      settings h1 = set_enabled false (settings h) /\
      deviceListeners h1 = []
  | FailedAfterProvider provider _ =>
      meterProvider h1 = Some provider /\
      eventCounter h1 = eventCounter hc /\
      settings h1 = set_enabled false (settings h) /\
      deviceListeners h1 = []
  end.
Proof.
  intros He Hok. cbv zeta.
  pose proof (initialize_eq sdk endpoint h He Hok) as Hr.
  set (r := initialize sdk h) in *.
  pose proof (cleanup_frame false h) as Hconf.
  assert (deviceListeners (snd (cleanup false h)) = []) as Hnil.
  { rewrite cleanup_eq. destruct (meterProvider h) as [p|]; [|reflexivity].
    destruct (shutdown_throws p); reflexivity. }
  assert (exists b, fst (cleanup false h) = Done b) as [b Hb].
  { rewrite cleanup_eq. destruct (meterProvider h) as [p|]; [|eauto].
    destruct (shutdown_throws p); eauto. }
  unfold try_catch in Hr. unfold bind at 1 2 in Hr. cbn [gets] in Hr.
  destruct (cleanup false h) as [o hc]. cbn [fst snd] in *. subst o.
  unfold configuration in Hconf. injection Hconf as Hs Hst.
  rewrite Hs in Hr.
  destruct (create sdk endpoint (exportIntervalMillis (settings h)))
    as [provider counter|error|provider error].
  - unfold bind at 1 2 in Hr. cbn [modify] in Hr.
    set (h' := set_eventCounter (Some counter)
                 (set_meterProvider (Some provider) hc)) in *.
    pose proof (after_creation_frame sdk endpoint h') as Hframe.
    pose proof (after_creation_no_throw sdk endpoint h') as Hno'.
    assert (deviceListeners
              (snd ((setupDeviceListeners sdk ;;;
                     console_log (LogInitialized endpoint)) h'))
            = deviceListeners (snd (setupDeviceListeners sdk h'))) as Hl.
    { unfold bind.
      destruct (setupDeviceListeners sdk h') as [[[]| |e] h'']; reflexivity. }
    destruct ((setupDeviceListeners sdk ;;;
               console_log (LogInitialized endpoint)) h') as [[[]| |e] h1];
      cbn [fst snd] in *; [| |now destruct (Hno' e)];
      rewrite Hr; cbn [snd];
      unfold but_listeners in Hframe;
      injection Hframe as Hf1 Hf2 Hf3 Hf4 Hf5;
      (split; [exact Hf5|]); repeat split; auto;
      unfold configuration; cbn in *; congruence.
  - rewrite Hr. cbn. rewrite Hs. auto.
  - rewrite Hr. cbn. rewrite Hs. auto.
Qed.

Lemma resume_after_shutdown awaited settled h w :
  waiting h = w ++ [AfterShutdown awaited] ->
  exists h2,
    resume (length w) settled h = Some h2 /\
    meterProvider h2 = None /\ eventCounter h2 = None /\
    settings h2 = settings h /\ storage h2 = storage h /\
    deviceListeners h2 = deviceListeners h /\
    waiting h2 = (w ++ if awaited then [AfterCleanup] else []) /\
    console h2 = (console h ++
                  match settled with
                  | Some error => [ErrorFailedToShutdown error]
                  | None => []
                  end).
Proof.
  intros Hw. unfold resume. rewrite Hw.
  rewrite list_lookup_middle by reflexivity.
  rewrite delete_middle. rewrite app_nil_r.
  eexists. split; [reflexivity|].
  destruct awaited, settled as [error|]; cbn;
    rewrite ?app_nil_r; repeat split; reflexivity.
Qed.

(** *** The listeners [setupDeviceListeners] registers *)

Lemma value_of_ok deviceState key h :
  is_nullish deviceState = false ->
  value_of deviceState key h = (Done (field_value deviceState key), h).
Proof.
  intros Hobj. unfold value_of, field_value, property_of, bind, lift.
  destruct deviceState; try discriminate Hobj; cbn;
    try reflexivity.
  destruct (default JUndefined (own_property props key)); reflexivity.
Qed.

Lemma interfaces_include_ok deviceState name h :
  device_state_ok deviceState ->
  exists v, interfaces_include deviceState name h = (Done v, h) /\
            truthy v = has_interface deviceState name.
Proof.
  intros [Hobj Harr]. unfold interfaces_include, has_interface, bind.
  rewrite value_of_ok by assumption.
  destruct (field_value deviceState "interfaces"); try contradiction;
    eexists; (split; [reflexivity|reflexivity]).
Qed.

Lemma interfaces_join_ok deviceState h :
  device_state_ok deviceState ->
  exists joined, interfaces_join deviceState h = (Done joined, h).
Proof.
  intros [Hobj Harr]. unfold interfaces_join, bind.
  rewrite value_of_ok by assumption.
  destruct (field_value deviceState "interfaces"); try contradiction;
    eexists; reflexivity.
Qed.

Lemma subscribe_ok sdk deviceId deviceState h :
  device_state_ok deviceState ->
  exists h',
    subscribe sdk deviceId deviceState h = (Done tt, h') /\
    deviceListeners h'
    = match listener_of sdk deviceId with
      | Some listener => map_set deviceId listener (deviceListeners h)
      | None => deviceListeners h
      end.
Proof.
  intros Hok. pose proof Hok as [Hobj _].
  unfold subscribe, listener_of, try_catch. unfold bind at 1.
  destruct (getDeviceById sdk deviceId) as [device|error]; cbn [lift];
    [|eexists; split; reflexivity].
  cbn [ret]. unfold bind at 1. rewrite value_of_ok by assumption.
  unfold bind at 1 2. cbn [console_log modify].
  rewrite value_of_ok by assumption.
  unfold bind at 1 2. cbn [console_log modify].
  destruct (interfaces_join_ok deviceState
              (write (LogType (field_value deviceState "type"))
                 (write (LogSubscribing (field_value deviceState "name")
                           deviceId) h)) Hok) as [joined ->].
  unfold bind at 1 2. cbn [console_log modify].
  destruct device as [device|]; [|eexists; split; reflexivity].
  unfold bind.
  destruct (listen device) as [listener|error]; cbn;
    eexists; split; reflexivity.
Qed.

Lemma forDevices_ok sdk systemState : forall h,
  Forall device_state_ok (map snd systemState) ->
  exists h',
    forDevices sdk systemState h = (Done tt, h') /\
    deviceListeners h'
    = set_all (deviceListeners h) (subscriptions sdk systemState).
Proof.
  induction systemState as [|[deviceId deviceState] rest IH]; intros h Hall.
  - exists h. split; reflexivity.
  - cbn [map snd] in Hall. inversion Hall as [|? ? Hok Hrest]; subst.
    pose proof Hok as [Hobj _].
    cbn [forDevices subscriptions]. unfold bind at 1.
    rewrite value_of_ok by assumption. unfold bind at 1.
    destruct (interfaces_include_ok deviceState "ObjectDetector" h Hok)
      as (v1 & -> & Hv1).
    unfold bind at 1.
    destruct (interfaces_include_ok deviceState "MotionSensor" h Hok)
      as (v2 & -> & Hv2).
    rewrite Hv1, Hv2. fold (wanted deviceState).
    unfold bind at 1.
    destruct (wanted deviceState).
    + destruct (subscribe_ok sdk deviceId deviceState h Hok)
        as (h1 & -> & Hl).
      destruct (IH h1 Hrest) as (h' & -> & Hl').
      exists h'. split; [reflexivity|]. rewrite Hl', Hl.
      destruct (listener_of sdk deviceId); reflexivity.
    + cbn [ret]. destruct (IH h Hrest) as (h' & -> & Hl').
      exists h'. split; [reflexivity|exact Hl'].
Qed.

Lemma map_set_fresh {A} key (v : A) m :
  ~ In key (map fst m) -> map_set key v m = m ++ [(key, v)].
Proof.
  induction m as [|[k v'] rest IH]; intros Hfresh; [reflexivity|].
  cbn [map_set]. cbn in Hfresh.
  destruct (String.eqb_spec k key) as [->|Hne]; [tauto|].
  rewrite IH by tauto. reflexivity.
Qed.

Lemma set_all_fresh l : forall m,
  NoDup (map fst m ++ map fst l) -> set_all m l = m ++ l.
Proof.
  induction l as [|[k v] rest IH]; intros m Hnodup;
    [now rewrite app_nil_r|].
  cbn [set_all fold_left]. fold (set_all (map_set k v m) rest).
  cbn [map fst] in Hnodup.
  assert (~ In k (map fst m)) as Hfresh.
  { apply NoDup_app in Hnodup as (_ & Hdisjoint & _). intros Hin.
    apply (Hdisjoint k); [now apply list_elem_of_In|left]. }
  rewrite map_set_fresh by assumption.
  rewrite IH.
  - now rewrite <- app_assoc.
  - rewrite map_app. cbn [map fst]. rewrite <- app_assoc. exact Hnodup.
Qed.

Lemma subscriptions_keys sdk systemState :
  sublist (map fst (subscriptions sdk systemState)) (map fst systemState).
Proof.
  induction systemState as [|[deviceId deviceState] rest IH];
    [constructor|].
  cbn [subscriptions map fst].
  destruct (wanted deviceState); [|now constructor].
  destruct (listener_of sdk deviceId); now constructor.
Qed.

Lemma setupDeviceListeners_ok sdk systemState h :
  getSystemState sdk = inl systemState ->
  Forall device_state_ok (map snd systemState) ->
  NoDup (map fst systemState) ->
  deviceListeners h = [] ->
  deviceListeners (snd (setupDeviceListeners sdk h))
  = subscriptions sdk systemState.
Proof.
  intros Hstate Hall Hnodup Hnil.
  unfold setupDeviceListeners, try_catch. unfold bind at 1.
  rewrite Hstate. cbn [lift ret]. unfold bind at 1. cbn [console_log modify].
  unfold bind at 1.
  destruct (forDevices_ok sdk systemState
              (write (LogFound (length systemState)) h) Hall)
    as (h' & -> & Hl).
  cbn. rewrite Hl. cbn. rewrite Hnil. apply (set_all_fresh _ []).
  cbn. eapply sublist_NoDup; [eassumption|apply subscriptions_keys].
Qed.

(** *** Re-initialisation *)

Lemma no_counter_drops_events eventSource eventDetails eventData now p :
  pluginCounter p = None ->
  handleEvent eventSource eventDetails eventData now p = (Returned, p).
Proof.
  intros Hc. unfold handleEvent, disabled. rewrite Hc.
  now rewrite orb_true_r.
Qed.

(** X15: a re-initialisation loses the counter it creates. [initialize]
    calls [cleanup] without awaiting it; when a provider exists and its
    [shutdown()] returns, [cleanup] is suspended at its [await], and
    [initialize] goes on to install the new provider and counter. When the
    promise settles, fulfilled or rejected, the rest of [cleanup] runs and
    sets [meterProvider] and [eventCounter] to [undefined]: the new ones.
    The plugin is then enabled, with its listeners subscribed, and
    [handleEvent] returns at its first test for every event. [putSetting]
    runs [initialize] when the endpoint changes on an enabled plugin and
    whenever the export interval is set. *)
Theorem reinitialize_discards_counter sdk h old endpoint :
  meterProvider h = Some old -> shutdown_throws old = None ->
  truthy_endpoint h = Some endpoint -> accepted sdk endpoint ->
  let h1 := snd (initialize sdk h) in
  waiting h1 = waiting h ++ [AfterShutdown false] /\
  (forall provider counter,
     create sdk endpoint (exportIntervalMillis (settings h))
     = Created provider counter ->
     meterProvider h1 = Some provider /\ eventCounter h1 = Some counter /\
     settings h1 = settings h) /\
  forall settled,
  exists h2,
    resume (length (waiting h)) settled h1 = Some h2 /\
    meterProvider h2 = None /\ eventCounter h2 = None /\
    settings h2 = settings h1 /\ deviceListeners h2 = deviceListeners h1 /\
    waiting h2 = waiting h /\
    forall eventSource eventDetails eventData now p,
      pluginCounter p = eventCounter h2 ->
      handleEvent eventSource eventDetails eventData now p = (Returned, p).
Proof.
  intros Hp Hshut He Hok. cbv zeta.
  destruct (initialize_after_cleanup sdk endpoint h He Hok) as [Hw Hcreate].
  rewrite cleanup_eq, Hp, Hshut in Hw. cbn [snd waiting set_waiting] in Hw.
  split; [exact Hw|]. split.
  - intros provider counter Hc. rewrite Hc in Hcreate.
    destruct Hcreate as (Hprov & Hcount & Hconf & _).
    unfold configuration in Hconf. injection Hconf as Hs _. auto.
  - intros settled.
    destruct (resume_after_shutdown false settled _ _ Hw)
      as (h2 & Hres & Hp2 & Hc2 & Hs2 & _ & Hl2 & Hw2 & _).
    exists h2. rewrite app_nil_r in Hw2. repeat split; auto.
    intros eventSource eventDetails eventData now p Hpc.
    apply no_counter_drops_events. now rewrite Hpc.
Qed.

Lemma reinitialize_discards_counter_witness :
  let h1 := snd (initialize Setup.sdk Setup.running) in
  waiting h1 = waiting Setup.running ++ [AfterShutdown false] /\
  (forall provider counter,
     create Setup.sdk "http://collector:4318/v1/metrics"
       (exportIntervalMillis (settings Setup.running))
     = Created provider counter ->
     meterProvider h1 = Some provider /\ eventCounter h1 = Some counter /\
     settings h1 = settings Setup.running) /\
  forall settled,
  exists h2,
    resume (length (waiting Setup.running)) settled h1 = Some h2 /\
    meterProvider h2 = None /\ eventCounter h2 = None /\
    settings h2 = settings h1 /\ deviceListeners h2 = deviceListeners h1 /\
    waiting h2 = waiting Setup.running /\
    forall eventSource eventDetails eventData now p,
      pluginCounter p = eventCounter h2 ->
      handleEvent eventSource eventDetails eventData now p = (Returned, p).
Proof.
  apply (reinitialize_discards_counter Setup.sdk Setup.running
           {| provider_id := 1; shutdown_throws := None |}
           "http://collector:4318/v1/metrics").
  - reflexivity.
  - reflexivity.
  - reflexivity.
  - exists "http:". split; reflexivity.
Defined.

(** The first initialisation has nothing to wait for. *)
Lemma initialize_without_provider sdk h :
  meterProvider h = None -> waiting (snd (initialize sdk h)) = waiting h.
Proof.
  intros Hp.
  destruct (truthy_endpoint h) as [endpoint|] eqn:He.
  - destruct (accepted_dec sdk endpoint) as [Hok|Hno].
    + destruct (initialize_after_cleanup sdk endpoint h He Hok) as [-> _].
      rewrite cleanup_eq, Hp. cbn [snd].
      pose proof (but_listeners_unsubscribed h) as Hf.
      unfold but_listeners in Hf. congruence.
    + unfold initialize. unfold bind at 1. cbn [gets]. rewrite He.
      unfold bind at 1.
      destruct (validateEndpoint_rejected sdk endpoint h Hno) as [line ->].
      reflexivity.
  - unfold initialize. unfold bind at 1. cbn [gets]. rewrite He.
    reflexivity.
Qed.

(** X16: the listeners of an initialised plugin. When [initialize]
    succeeds in creating its SDK objects, the listeners it ends with are
    those of the devices that are cameras or have the [ObjectDetector] or
    the [MotionSensor] interface and whose [getDeviceById(id).listen]
    returned, in the order of the system state, whatever listeners there
    were before. *)
Theorem listeners_after_initialize sdk h endpoint provider counter
    systemState :
  truthy_endpoint h = Some endpoint -> accepted sdk endpoint ->
  create sdk endpoint (exportIntervalMillis (settings h))
  = Created provider counter ->
  getSystemState sdk = inl systemState ->
  Forall device_state_ok (map snd systemState) ->
  NoDup (map fst systemState) ->
  deviceListeners (snd (initialize sdk h)) = subscriptions sdk systemState.
Proof.
  intros He Hok Hc Hstate Hall Hnodup.
  destruct (initialize_after_cleanup sdk endpoint h He Hok) as [_ Hcreate].
  rewrite Hc in Hcreate. destruct Hcreate as (_ & _ & _ & ->).
  apply setupDeviceListeners_ok; try assumption.
  rewrite cleanup_eq. destruct (meterProvider h) as [p|]; [|reflexivity].
  destruct (shutdown_throws p); reflexivity.
Qed.

Lemma listeners_after_initialize_witness :
  deviceListeners (snd (initialize Setup.sdk Setup.running))
  = [("12", Setup.listener 1)].
Proof.
  apply (listeners_after_initialize Setup.sdk Setup.running
           "http://collector:4318/v1/metrics"
           {| provider_id := 2; shutdown_throws := None |}
           Examples.okCounter Setup.systemState).
  - reflexivity.
  - exists "http:". split; reflexivity.
  - reflexivity.
  - reflexivity.
  - repeat constructor.
  - cbn.
    repeat (apply NoDup_cons_2;
            [rewrite list_elem_of_In; cbn; intuition discriminate|]).
    apply NoDup_nil_2.
Defined.

(** *** [putSetting], key by key *)

Lemma putSetting_assign sdk key v h f :
  update sdk key v (write (LogSetting key v) h)
  = assign f (write (LogSetting key v) h) ->
  let h3 :=
    set_storage (Config.saveSettings (f (settings h)) (storage h))
      (set_settings (f (settings h)) (write (LogSetting key v) h)) in
  putSetting sdk key v h =
  if needsReinit key (is_enabled h) (Config.endpoint (settings h)) h3
  then initialize sdk h3
  else if negb (is_enabled h3) && is_enabled h then
    (let* completed := cleanup true in
     if completed then suspend AfterCleanup else ret tt) h3
  else (Done tt, h3).
Proof.
  intros Hupdate. cbv zeta. rewrite putSetting_eq. cbv zeta.
  rewrite Hupdate. reflexivity.
Qed.

Lemma cleanup_awaited_eq h :
  (let* completed := cleanup true in
   if completed then suspend AfterCleanup else ret tt) h =
  match meterProvider h with
  | Some p =>
      match shutdown_throws p with
      | Some error =>
          (Done tt,
           set_waiting (waiting h ++ [AfterCleanup])
             (set_eventCounter None
                (set_meterProvider None
                   (write (ErrorFailedToShutdown error) (unsubscribed h)))))
      | None =>
          (Done tt,
           set_waiting (waiting h ++ [AfterShutdown true]) (unsubscribed h))
      end
  | None =>
      (Done tt, set_waiting (waiting h ++ [AfterCleanup]) (unsubscribed h))
  end.
Proof.
  unfold bind. rewrite cleanup_eq.
  pose proof (but_listeners_unsubscribed h) as Hf.
  unfold but_listeners in Hf. injection Hf as _ _ _ _ Hw.
  destruct (meterProvider h) as [p|].
  - destruct (shutdown_throws p) as [error|]; [|reflexivity].
    unfold suspend, modify. cbn. now rewrite Hw.
  - unfold suspend, modify. cbn. now rewrite Hw.
Qed.

Lemma unsubscribed_fields h :
  settings (unsubscribed h) = settings h /\
  storage (unsubscribed h) = storage h /\
  meterProvider (unsubscribed h) = meterProvider h /\
  eventCounter (unsubscribed h) = eventCounter h /\
  waiting (unsubscribed h) = waiting h /\
  deviceListeners (unsubscribed h) = [].
Proof.
  pose proof (but_listeners_unsubscribed h) as Hf.
  unfold but_listeners in Hf. injection Hf as Hs Hst Hp Hc Hw.
  repeat split; assumption.
Qed.

Lemma resume_after_cleanup settled h w :
  waiting h = w ++ [AfterCleanup] ->
  resume (length w) settled h = Some (write LogDisabled (set_waiting w h)).
Proof.
  intros Hw. unfold resume. rewrite Hw.
  rewrite list_lookup_middle by reflexivity.
  rewrite delete_middle. now rewrite app_nil_r.
Qed.

(** X17: switching the plugin off. [putSetting('enabled', value)] with a
    value other than [true] and ['true'], on an enabled plugin, stores
    [false], forgets every listener at once, and shuts the provider down:
    when [shutdown()] returns, provider and counter are dropped once its
    promise has settled, and only after that is the [putSetting] resumed
    that writes "disabled"; when [shutdown()] throws or there is no
    provider, nothing is left to settle. *)
Theorem disabling_stops_everything sdk v h :
  is_enabled h = true -> is_true v = false ->
  let h1 := snd (putSetting sdk "enabled" v h) in
  let n := length (waiting h) in
  is_enabled h1 = false /\ storage h1 !! "enabled" = Some "false" /\
  deviceListeners h1 = [] /\
  match meterProvider h with
  | Some p =>
      match shutdown_throws p with
      | None =>
          meterProvider h1 = Some p /\
          waiting h1 = waiting h ++ [AfterShutdown true] /\
          forall settled,
          exists h2,
            resume n settled h1 = Some h2 /\
            meterProvider h2 = None /\ eventCounter h2 = None /\
            waiting h2 = waiting h ++ [AfterCleanup] /\
            forall settled',
            exists h3,
              resume n settled' h2 = Some h3 /\
              console h3 = console h2 ++ [LogDisabled] /\
              waiting h3 = waiting h
      | Some _ =>
          meterProvider h1 = None /\ eventCounter h1 = None /\
          waiting h1 = waiting h ++ [AfterCleanup]
      end
  | None => waiting h1 = waiting h ++ [AfterCleanup]
  end.
Proof.
  intros Hen Hv. cbv zeta.
  rewrite (putSetting_assign sdk "enabled" v h (set_enabled (is_true v)))
    by reflexivity.
  cbv zeta. rewrite Hv.
  set (h3 := set_storage _ _).
  assert (needsReinit "enabled" (is_enabled h)
            (Config.endpoint (settings h)) h3 = false) as ->.
  { unfold needsReinit. reflexivity. }
  change (is_enabled h3) with false. rewrite Hen. cbn [negb andb].
  rewrite cleanup_awaited_eq.
  destruct (unsubscribed_fields h3) as (Hs & Hst & Hp & Hc & Hw & Hl).
  change (meterProvider h3) with (meterProvider h) in *.
  change (waiting h3) with (waiting h) in *.
  assert (storage h3 !! "enabled" = Some "false") as Hstored.
  { unfold h3. cbn [storage set_storage].
    destruct (saveSettings_lookup (set_enabled false (settings h)) (storage h))
      as (_ & _ & _ & -> & _). reflexivity. }
  assert (is_enabled (unsubscribed h3) = false) as Hoff.
  { unfold is_enabled. now rewrite Hs. }
  assert (storage (unsubscribed h3) !! "enabled" = Some "false") as Hstored'
    by now rewrite Hst.
  set (hu := unsubscribed h3) in *.
  destruct (meterProvider h) as [p|].
  - destruct (shutdown_throws p) as [error|] eqn:Hshut.
    + cbn [snd]. split; [exact Hoff|]. split; [exact Hstored'|].
      split; [exact Hl|]. repeat split; reflexivity.
    + cbn [snd]. split; [exact Hoff|]. split; [exact Hstored'|].
      split; [exact Hl|]. split; [exact Hp|]. split; [reflexivity|].
      intros settled.
      destruct (resume_after_shutdown true settled
                  (set_waiting (waiting h ++ [AfterShutdown true]) hu)
                  (waiting h) eq_refl)
        as (h2 & Hres & Hp2 & Hc2 & _ & _ & _ & Hw2 & _).
      exists h2. repeat split; auto.
      intros settled'. eexists.
      split; [apply resume_after_cleanup; exact Hw2|].
      split; reflexivity.
  - cbn [snd]. split; [exact Hoff|]. split; [exact Hstored'|].
    split; [exact Hl|]. reflexivity.
Qed.

Lemma disabling_stops_everything_witness :
  let h1 := snd (putSetting Setup.sdk "enabled" (JBool false) Setup.running) in
  is_enabled h1 = false /\ storage h1 !! "enabled" = Some "false" /\
  deviceListeners h1 = [] /\
  meterProvider h1 = Some {| provider_id := 1; shutdown_throws := None |} /\
  waiting h1 = [] ++ [AfterShutdown true] /\
  forall settled,
  exists h2,
    resume 0 settled h1 = Some h2 /\
    meterProvider h2 = None /\ eventCounter h2 = None /\
    waiting h2 = [] ++ [AfterCleanup] /\
    forall settled',
    exists h3,
      resume 0 settled' h2 = Some h3 /\
      console h3 = console h2 ++ [LogDisabled] /\
      waiting h3 = [].
Proof.
  apply (disabling_stops_everything Setup.sdk (JBool false) Setup.running);
    reflexivity.
Defined.

(** X18: setting the export interval always initialises. Whether or not
    the plugin is enabled and whether or not the value is a new one,
    [putSetting('exportInterval', value)] with an accepted endpoint creates
    a provider and a counter; [enabled] stays as it was. *)
Theorem exportInterval_always_initializes sdk v h endpoint provider counter :
  truthy_endpoint h = Some endpoint -> accepted sdk endpoint ->
  create sdk endpoint
    (exportIntervalMillis (set_exportInterval (to_number v) (settings h)))
  = Created provider counter ->
  let h1 := snd (putSetting sdk "exportInterval" v h) in
  meterProvider h1 = Some provider /\ eventCounter h1 = Some counter /\
  settings h1 = set_exportInterval (to_number v) (settings h) /\
  is_enabled h1 = is_enabled h.
Proof.
  intros He Hok Hc. cbv zeta.
  rewrite (putSetting_assign sdk "exportInterval" v h
             (set_exportInterval (to_number v))) by reflexivity.
  cbv zeta. set (h3 := set_storage _ _).
  assert (needsReinit "exportInterval" (is_enabled h)
            (Config.endpoint (settings h)) h3 = true) as ->.
  { unfold needsReinit. apply orb_true_r. }
  destruct (initialize_after_cleanup sdk endpoint h3 He Hok) as [_ Hcreate].
  change (settings h3)
    with (set_exportInterval (to_number v) (settings h)) in Hcreate.
  rewrite Hc in Hcreate. destruct Hcreate as (Hp & Hcount & Hconf & _).
  unfold configuration in Hconf. injection Hconf as Hs _.
  repeat split; auto. unfold is_enabled. now rewrite Hs.
Qed.

Lemma exportInterval_always_initializes_witness :
  let h := snd (putSetting Setup.sdk "enabled" (JBool false)
                  (set_meterProvider None Setup.running)) in
  let h1 := snd (putSetting Setup.sdk "exportInterval" (JStr "5000") h) in
  is_enabled h = false /\
  meterProvider h1
  = Some {| provider_id := 2; shutdown_throws := None |} /\
  eventCounter h1 = Some Examples.okCounter /\
  settings h1
  = set_exportInterval (JsConvert.of_Z 5000) (settings h) /\
  is_enabled h1 = is_enabled h.
Proof.
  intros h. split; [reflexivity|].
  apply (exportInterval_always_initializes Setup.sdk (JStr "5000") h
           "http://collector:4318/v1/metrics").
  - reflexivity.
  - exists "http:". split; reflexivity.
  - reflexivity.
Defined.

(** X19: the filter and the cooldown are changed without touching the
    metrics. [putSetting] with a key other than [enabled], [endpoint] and
    [exportInterval] completes without creating, shutting down, subscribing
    or unsubscribing anything; it writes one line, and [enabled], the
    endpoint and the export interval stay as they were. *)
Theorem other_settings_leave_metrics_running sdk key v h :
  key <> "enabled" -> key <> "endpoint" -> key <> "exportInterval" ->
  let r := putSetting sdk key v h in
  fst r = Done tt /\
  meterProvider (snd r) = meterProvider h /\
  eventCounter (snd r) = eventCounter h /\
  deviceListeners (snd r) = deviceListeners h /\
  waiting (snd r) = waiting h /\
  console (snd r) = console h ++ [LogSetting key v] /\
  Config.enabled (settings (snd r)) = Config.enabled (settings h) /\
  Config.endpoint (settings (snd r)) = Config.endpoint (settings h) /\
  Config.exportInterval (settings (snd r))
  = Config.exportInterval (settings h).
Proof.
  intros H1 H2 H3. cbv zeta.
  assert (exists f,
            update sdk key v (write (LogSetting key v) h)
            = assign f (write (LogSetting key v) h) /\
            (forall s, Config.enabled (f s) = Config.enabled s) /\
            (forall s, Config.endpoint (f s) = Config.endpoint s) /\
            (forall s, Config.exportInterval (f s) = Config.exportInterval s))
    as (f & Hupdate & Hen & Hep & Hei).
  { unfold update.
    destruct (String.eqb_spec key "enabled") as [|_]; [contradiction|].
    destruct (String.eqb_spec key "endpoint") as [|_]; [contradiction|].
    destruct (String.eqb key "eventFilter");
      [eexists; split; [reflexivity|]; repeat split|].
    destruct (String.eqb_spec key "exportInterval") as [|_]; [contradiction|].
    destruct (String.eqb key "deviceCooldown");
      [eexists; split; [reflexivity|]; repeat split|].
    exists (fun s => s). repeat split. }
  rewrite (putSetting_assign sdk key v h f Hupdate). cbv zeta.
  set (h3 := set_storage _ _).
  assert (is_enabled h3 = is_enabled h) as Hsame.
  { unfold is_enabled, h3. cbn. now rewrite Hen. }
  assert (needsReinit key (is_enabled h) (Config.endpoint (settings h)) h3
          = false) as ->.
  { unfold needsReinit. rewrite Hsame.
    replace (Config.endpoint (settings h3))
      with (Config.endpoint (settings h)) by (symmetry; apply Hep).
    rewrite bool_decide_eq_true_2 by reflexivity.
    destruct (String.eqb_spec key "exportInterval") as [|_]; [contradiction|].
    destruct (is_enabled h); reflexivity. }
  rewrite Hsame.
  replace (negb (is_enabled h) && is_enabled h) with false
    by (destruct (is_enabled h); reflexivity).
  cbn [fst snd]. unfold h3. cbn.
  repeat split; auto.
Qed.

Lemma other_settings_leave_metrics_running_witness :
  let r := putSetting Setup.sdk "eventFilter" (JStr "motion,clip")
             Setup.running in
  fst r = Done tt /\
  meterProvider (snd r) = meterProvider Setup.running /\
  eventCounter (snd r) = eventCounter Setup.running /\
  deviceListeners (snd r) = deviceListeners Setup.running /\
  waiting (snd r) = waiting Setup.running /\
  console (snd r)
  = console Setup.running ++ [LogSetting "eventFilter" (JStr "motion,clip")] /\
  Config.enabled (settings (snd r)) = Config.enabled (settings Setup.running) /\
  Config.endpoint (settings (snd r))
  = Config.endpoint (settings Setup.running) /\
  Config.exportInterval (settings (snd r))
  = Config.exportInterval (settings Setup.running).
Proof.
  apply (other_settings_leave_metrics_running Setup.sdk "eventFilter"
           (JStr "motion,clip") Setup.running); discriminate.
Defined.

(** X20: a new instance. The constructor leaves no call suspended, takes
    every setting but [enabled] from the storage, and has a counter only
    when the storage holds ['true'] for [enabled] and an endpoint that
    [validateEndpoint] accepts; it then has a provider too and is
    enabled. *)
Theorem start_is_clean sdk (st : gmap string string) :
  let h := construct sdk st in
  waiting h = [] /\
  fixed_settings h
  = (Config.endpoint (Config.loadSettings st),
     Config.eventFilter (Config.loadSettings st),
     Config.exportInterval (Config.loadSettings st),
     Config.deviceCooldown (Config.loadSettings st)) /\
  (eventCounter h <> None ->
   is_enabled h = true /\ meterProvider h <> None /\
   st !! "enabled" = Some "true" /\
   exists endpoint,
     st !! "endpoint" = Some endpoint /\ accepted sdk endpoint).
Proof.
  cbv zeta. unfold construct.
  set (h0 := {| settings := Config.loadSettings st; storage := st;
                meterProvider := None; eventCounter := None;
                deviceListeners := []; console := []; waiting := [] |}).
  destruct (is_enabled h0 && bool_decide (truthy_endpoint h0 <> None))
    eqn:Hstart;
    [|split; [reflexivity|]; split; [reflexivity|];
      intros Hc; now destruct Hc].
  apply andb_true_iff in Hstart as [Hen Hep].
  apply bool_decide_eq_true in Hep.
  split; [now apply initialize_without_provider|].
  split; [apply initialize_fixed_settings|].
  intros Hcounter.
  assert (st !! "enabled" = Some "true") as Hstored.
  { unfold is_enabled, h0 in Hen. cbn in Hen.
    now apply bool_decide_eq_true in Hen. }
  destruct (truthy_endpoint h0) as [endpoint|] eqn:He; [|now destruct Hep].
  assert (st !! "endpoint" = Some endpoint) as Hendpoint.
  { unfold truthy_endpoint, h0 in He. cbn in He.
    destruct (st !! "endpoint") as [e|]; [|discriminate He].
    destruct (JsString.truthy e); [|discriminate He].
    cbn in He. destruct (JsString.truthy e); congruence. }
  destruct (accepted_dec sdk endpoint) as [Hok|Hno].
  - destruct (initialize_after_cleanup sdk endpoint h0 He Hok)
      as [_ Hcreate].
    rewrite cleanup_eq in Hcreate. cbn [meterProvider h0 snd] in Hcreate.
    destruct (unsubscribed_fields h0) as (_ & _ & _ & Hnone & _).
    destruct (create sdk endpoint (exportIntervalMillis (settings h0)))
      as [provider counter|error|provider error].
    + destruct Hcreate as (Hp & _ & Hconf & _).
      unfold configuration in Hconf. injection Hconf as Hs _.
      split; [unfold is_enabled; rewrite Hs; exact Hen|].
      split; [congruence|]. split; [exact Hstored|]. now exists endpoint.
    + destruct Hcreate as (_ & Hc & _). exfalso. apply Hcounter.
      now rewrite Hc, Hnone.
    + destruct Hcreate as (_ & Hc & _). exfalso. apply Hcounter.
      now rewrite Hc, Hnone.
  - exfalso. apply Hcounter.
    unfold initialize. unfold bind at 1. cbn [gets]. rewrite He.
    unfold bind at 1.
    destruct (validateEndpoint_rejected sdk endpoint h0 Hno) as [line ->].
    reflexivity.
Qed.

Lemma invalid_endpoint_is_rejected_witness :
  exists line,
    putSetting Setup.sdk "endpoint" (JStr "ftp://collector:21") Setup.running
    = (Threw (Error "Invalid endpoint URL. Only http and https protocols are allowed."),
       write line
         (write (LogSetting "endpoint" (JStr "ftp://collector:21"))
            Setup.running)) /\
    line = ErrorInvalidProtocol "ftp:".
Proof.
  apply (invalid_endpoint_is_rejected Setup.sdk "ftp://collector:21"
           Setup.running).
  - reflexivity.
  - intros (protocol & Hurl & Hallowed). cbn in Hurl.
    injection Hurl as <-. discriminate Hallowed.
Defined.

(** *** The lifecycle on concrete inputs *)

(** Changing the export interval of a running plugin: the new counter is
    there when [putSetting] returns and gone when the old provider has shut
    down, while the plugin stays enabled. *)
Example interval_change_stops_metrics :
  let h1 := snd (putSetting Setup.sdk "exportInterval"
                   (JNum (JsConvert.of_Z 5000)) Setup.running) in
  eventCounter h1 = Some Examples.okCounter /\
  waiting h1 = [AfterShutdown false] /\
  exists h2,
    resume 0 None h1 = Some h2 /\
    eventCounter h2 = None /\ meterProvider h2 = None /\
    is_enabled h2 = true /\
    deviceListeners h2 = [("12", Setup.listener 1)] /\ waiting h2 = [].
Proof.
  cbv zeta. split; [vm_compute; reflexivity|].
  split; [vm_compute; reflexivity|].
  eexists. split; [vm_compute; reflexivity|].
  repeat split; vm_compute; reflexivity.
Qed.

(** A device state that is [null] ends the loop of
    [setupDeviceListeners]: the camera after it gets no listener. *)
Example null_state_stops_the_loop :
  let sdk :=
    {| URL_protocol := URL_protocol Setup.sdk;
       create := create Setup.sdk;
       getSystemState := inl (("7", JNull) :: Setup.systemState);
       getDeviceById := getDeviceById Setup.sdk |} in
  let h1 := snd (initialize sdk Setup.running) in
  deviceListeners h1 = [] /\
  console h1
  = [LogFound 4;
     ErrorFailedToSetup (TypeError "Cannot read properties of null");
     LogInitialized "http://collector:4318/v1/metrics"].
Proof. cbv zeta. split; vm_compute; reflexivity. Qed.

(** An endpoint with another protocol in the storage: the constructor
    switches the plugin off and stores that. *)
Example invalid_stored_endpoint_disables :
  let st : gmap string string :=
    {["enabled" := "true"; "endpoint" := "ftp://collector:21"]} in
  let h := construct Setup.sdk st in
  is_enabled h = false /\ storage h !! "enabled" = Some "false" /\
  eventCounter h = None /\
  console h = [ErrorInvalidProtocol "ftp:"; ErrorInvalidEndpoint].
Proof. cbv zeta. repeat split; vm_compute; reflexivity. Qed.

End LifecycleFacts.
